(** * mochawesome-report-generator: the report writer of [lib/src/main.js]

    A shallow embedding of the file-output policy of the report generator
    (file names, timestamps, asset freshness, saving) together with the
    properties its specification states about it.

    JavaScript strings are sequences of UTF-16 code units; they are modelled
    as lists of code units ([list N]).  The modules that [main.js] requires
    from elsewhere (path, dateformat, the React renderer, the option merger,
    JSON) are gathered in the class [Externals]; the file system, the clock
    and the opener form the state [world] that the functions thread. *)

From Stdlib Require Import Strings.String Strings.Ascii NArith ZArith Lia.
From Stdlib Require Decimal DecimalNat.
From stdpp Require Import base option list strings gmap sets.

Local Open Scope nat_scope.

(** ** JavaScript strings *)

(** A string literal of the source, as code units. *)
Definition lit (s : string) : list N :=
  (fun a => N_of_ascii a) <$> list_ascii_of_string s.

Definition ch (a : ascii) : N := N_of_ascii a.

(** The class [\s] of ECMAScript regular expressions: white space and line
    terminators. *)
Definition is_space (c : N) : bool :=
  ((9 <=? c) && (c <=? 13) || (c =? 32) || (c =? 160) || (c =? 5760)
   || (8192 <=? c) && (c <=? 8202) || (c =? 8232) || (c =? 8233)
   || (c =? 8239) || (c =? 8287) || (c =? 12288) || (c =? 65279))%N.

(** The class [\d]. *)
Definition is_digit (c : N) : bool := ((48 <=? c) && (c <=? 57))%N.

Definition is_char (a : ascii) (c : N) : bool := (c =? ch a)%N.
Definition not_char (a : ascii) (c : N) : bool := negb (c =? ch a)%N.

(** Length of the longest prefix whose code units all satisfy [p]. *)
Fixpoint span (p : N -> bool) (s : list N) : nat :=
  match s with
  | c :: s' => if p c then S (span p s') else 0
  | [] => 0
  end.

(** ** Regular expressions

    The fragment of ECMAScript regular expressions that [main.js] uses:
    character classes, concatenation, ordered alternation, greedy and lazy
    repetition, and the end-of-input assertion [$] (no flag [m] is used).
    [rmatch r s k] is the backtracking matcher of the language definition:
    it matches [r] at the start of [s] and hands the remaining input to the
    continuation [k]; when [k] fails it backtracks. *)

Inductive regex :=
| Eps
| Cls (p : N -> bool)
| Seq (a b : regex)
| Alt (a b : regex)
| Star (greedy : bool) (a : regex)
| Eos.

Definition Plus (greedy : bool) (a : regex) : regex := Seq a (Star greedy a).

Definition or_else {A} (x y : option A) : option A :=
  match x with Some _ => x | None => y end.

Definition cont := list N -> option (list N).

(** One repetition loop.  An iteration that consumes nothing is rejected, as
    in the language definition; hence at most [length s] iterations. *)
Fixpoint star_loop (greedy : bool) (ma : list N -> cont -> option (list N))
    (k : cont) (fuel : nat) (s : list N) : option (list N) :=
  match fuel with
  | 0 => k s
  | S f =>
      let more :=
        ma s (fun s' => if length s' <? length s then star_loop greedy ma k f s'
                        else None) in
      if greedy then or_else more (k s) else or_else (k s) more
  end.

Fixpoint rmatch (r : regex) (s : list N) (k : cont) : option (list N) :=
  match r with
  | Eps => k s
  | Cls p => match s with c :: s' => if p c then k s' else None | [] => None end
  | Seq a b => rmatch a s (fun s1 => rmatch b s1 k)
  | Alt a b => or_else (rmatch a s k) (rmatch b s k)
  | Star g a => star_loop g (rmatch a) k (length s) s
  | Eos => match s with [] => k [] | _ :: _ => None end
  end.

(** A match of [r] at the start of [s]: the matched text and the rest. *)
Definition match_here (r : regex) (s : list N) : option (list N * list N) :=
  match rmatch r s Some with
  | Some rest => Some (take (length s - length rest) s, rest)
  | None => None
  end.

(** [r.exec(s)[0]]: the text of the leftmost match, if any. *)
Fixpoint regex_exec (r : regex) (s : list N) : option (list N) :=
  match match_here r s with
  | Some (m, _) => Some m
  | None => match s with [] => None | _ :: s' => regex_exec r s' end
  end.

(** [r.test(s)]. *)
Definition regex_test (r : regex) (s : list N) : bool :=
  match regex_exec r s with Some _ => true | None => false end.

(** [s.replace(r, repl)] for a regular expression without the flag [g]: the
    leftmost match is replaced; [repl] receives the matched text ([$&]). *)
Fixpoint replace_first (r : regex) (repl : list N -> list N) (s : list N)
    : list N :=
  match match_here r s with
  | Some (m, rest) => repl m ++ rest
  | None => match s with [] => [] | c :: s' => c :: replace_first r repl s' end
  end.

(** [s.replace(r, repl)] for a regular expression with the flag [g]: every
    match, left to right, each search starting where the previous match
    ended (one code unit further after an empty match).  [skip] counts the
    code units of the current match that are still to be passed over. *)
Fixpoint replace_all_from (r : regex) (repl : list N -> list N) (skip : nat)
    (s : list N) : list N :=
  match skip, s with
  | S k, _ :: s' => replace_all_from r repl k s'
  | S _, [] => []
  | 0, [] => match match_here r [] with Some (m, _) => repl m | None => [] end
  | 0, c :: s' =>
      match match_here r s with
      | Some (m, _) =>
          repl m ++
          match length m with
          | 0 => c :: replace_all_from r repl 0 s'
          | S k => replace_all_from r repl k s'
          end
      | None => c :: replace_all_from r repl 0 s'
      end
  end.

Definition replace_all (r : regex) (repl : list N -> list N) (s : list N)
    : list N :=
  replace_all_from r repl 0 s.

(** A literal word as a regular expression. *)
Fixpoint word_re (w : list N) : regex :=
  match w with
  | [] => Eps
  | c :: w' => Seq (Cls (fun x => (x =? c)%N)) (word_re w')
  end.

(** ** The regular expressions of [main.js] *)

(** [const fileExtRegex = /\.[^.]*?$/] *)
Definition fileExtRegex : regex :=
  Seq (Cls (is_char ".")) (Seq (Star false (Cls (not_char "."))) Eos).

(** The pattern of the first [replace] of [getFilename]: a comma followed
    by any white space, or a comma, or a run of white space; flag [g]. *)
Definition commaSpaceRegex : regex :=
  Alt (Seq (Cls (is_char ",")) (Star true (Cls is_space)))
      (Alt (Cls (is_char ",")) (Plus true (Cls is_space))).

(** The pattern of the second [replace]: a backslash or a slash; flag [g]. *)
Definition slashRegex : regex := Alt (Cls (is_char "\")) (Cls (is_char "/")).

Definition is_slash (c : N) : bool := is_char "\" c || is_char "/" c.

(** [/:/g] *)
Definition colonRegex : regex := Cls (is_char ":").

(** [/\d+\.\d+\.\d+/] *)
Definition versionRegex : regex :=
  Seq (Plus true (Cls is_digit))
      (Seq (Cls (is_char "."))
           (Seq (Plus true (Cls is_digit))
                (Seq (Cls (is_char ".")) (Plus true (Cls is_digit))))).

(** [/inline/] *)
Definition inlineRegex : regex := word_re (lit "inline").

(** [filename.replace(fileExtRegex, '')] *)
Definition strip_ext (s : list N) : list N :=
  replace_first fileExtRegex (fun _ => []) s.

(** [filename.replace(fileExtRegex, '{_###}$&')] *)
Definition insert_placeholder (s : list N) : list N :=
  replace_first fileExtRegex (fun m => lit "{_###}" ++ m) s.

(** ** JavaScript values *)

(** The values an option of the report may hold. *)
Inductive jsval :=
| JUndefined
| JNull
| JBool (b : bool)
| JNum (z : Z)
| JStr (s : list N).

Global Instance jsval_eq_dec : EqDecision jsval.
Proof. solve_decision. Defined.

(** [a === b] *)
Definition strict_eq (a b : jsval) : bool := bool_decide (a = b).

(** The conversion to boolean of [if (v)], [v ? _ : _], [v && _]. *)
Definition truthy (v : jsval) : bool :=
  match v with
  | JUndefined | JNull => false
  | JBool b => b
  | JNum z => negb (z =? 0)%Z
  | JStr s => negb (bool_decide (s = []))
  end.

(** Report data: a JSON value (numbers are restricted to the integers that
    [JSON.stringify] prints digit by digit). *)
#[warnings="-register-all"]
Inductive json :=
| JsonNull
| JsonBool (b : bool)
| JsonNum (z : Z)
| JsonStr (s : list N)
| JsonArr (l : list json)
| JsonObj (l : list (list N * json)).

(** [typeof data === 'object'] *)
Definition typeof_object (d : json) : bool :=
  match d with
  | JsonNull | JsonArr _ | JsonObj _ => true
  | JsonBool _ | JsonNum _ | JsonStr _ => false
  end.

(** ** Options *)

(** The option object that [getMergedOptions] returns: the recognised
    fields.  [reportFilename] may be absent ([undefined]). *)
Record options := {
  reportDir : list N;
  reportFilename : option (list N);
  timestamp : jsval;
  saveJson : jsval;
  saveHtml : jsval;
  autoOpen : jsval;
  overwrite : jsval;
  inlineAssets : jsval;
  assetsDir : list N;
  dev : jsval
}.

(** The object that [getOptions] returns: the merged options with the derived
    paths.  [jsonFile] is assigned only when [saveJson] is truthy. *)
Record reportOptions := {
  merged : options;
  jsonFile : option (list N);
  htmlFile : list N
}.

(** ** The world: file system, clock, opener *)

Inductive error :=
| ENOENT      (* no such file or directory *)
| EACCES      (* the system refuses the operation *)
| EISDIR      (* a directory stands where a file is expected *)
| EOPENER     (* the opener reports a failure *)
| ETYPE.      (* a value of the wrong type *)

Inductive result (A : Type) :=
| Ok (a : A)
| Err (e : error).
Arguments Ok {A} a.
Arguments Err {A} e.

(** Files are a finite map from paths to contents, directories a finite set
    of paths; components of a path are separated by [/].  [denied] holds the
    paths the system refuses to create or write (permissions, full disk).
    [now] is the current reading of the clock in milliseconds and [ticks]
    the amounts by which it advances after each of the coming readings.
    [opened] logs the files handed to the opener, the latest first. *)
Record world := {
  files : gmap (list N) (list N);
  dirs : gset (list N);
  denied : gset (list N);
  now : Z;
  ticks : list Z;
  opened : list (list N);
  opener_ok : bool
}.

Definition set_files (f : gmap (list N) (list N)) (d : gset (list N))
    (w : world) : world :=
  {| files := f; dirs := d; denied := denied w; now := now w;
     ticks := ticks w; opened := opened w; opener_ok := opener_ok w |}.

(** Computations that read and change the world and may throw or reject:
    what was done before an error stays done. *)
Definition M (A : Type) : Type := world -> world * result A.

Definition ret {A} (a : A) : M A := fun w => (w, Ok a).
Definition throw {A} (e : error) : M A := fun w => (w, Err e).
Definition bind {A B} (m : M A) (f : A -> M B) : M B :=
  fun w => match m w with
           | (w', Ok a) => f a w'
           | (w', Err e) => (w', Err e)
           end.
(** [try { m } catch (e) { h e }] *)
Definition catch {A} (m : M A) (h : error -> M A) : M A :=
  fun w => match m w with
           | (w', Ok a) => (w', Ok a)
           | (w', Err e) => h e w'
           end.

Notation "x <- m ; k" := (bind m (fun x => k))
  (at level 20, m at level 100, k at level 200, only parsing).
Notation "' p <- m ; k" := (bind m (fun x => match x with p => k end))
  (at level 20, p pattern, m at level 100, k at level 200, only parsing).

(** [new Date()]: the clock is read and goes on. *)
Definition new_Date : M Z :=
  fun w =>
    ({| files := files w; dirs := dirs w; denied := denied w;
        now := (now w + hd 0 (ticks w))%Z; ticks := tl (ticks w);
        opened := opened w; opener_ok := opener_ok w |},
     Ok (now w)).

(** *** Paths of the file system *)

(** The proper prefixes of [acc ++ s] that end just before a [/] of [s]: the
    directories above a path. *)
Fixpoint dir_prefixes (acc s : list N) : list (list N) :=
  match s with
  | [] => []
  | c :: s' =>
      (if is_char "/" c then [acc] else []) ++ dir_prefixes (acc ++ [c]) s'
  end.

Definition parents (p : list N) : list (list N) :=
  filter (fun d => d <> []) (dir_prefixes [] p).

(** [strip_prefix d p = Some r] when [p = d ++ r]. *)
Fixpoint strip_prefix (d p : list N) : option (list N) :=
  match d, p with
  | [], _ => Some p
  | a :: d', b :: p' => if (a =? b)%N then strip_prefix d' p' else None
  | _ :: _, [] => None
  end.

(** The path of [p] relative to the directory [d], when [p] lies below it. *)
Definition rel_under (d p : list N) : option (list N) :=
  match strip_prefix d p with
  | Some (c :: r) => if is_char "/" c && negb (bool_decide (r = []))
                     then Some r else None
  | _ => None
  end.

Definition child (d r : list N) : list N := d ++ lit "/" ++ r.

(** *** fs and fs-extra *)

(** A file or a directory bears the name [p]. *)
Definition taken (w : world) (p : list N) : bool :=
  bool_decide (is_Some (files w !! p)) || bool_decide (p ∈ dirs w).

(** [fs.existsSync(p)] *)
Definition existsSync (p : list N) : M bool :=
  fun w => (w, Ok (taken w p)).

(** [fs.readFileSync(p, 'utf8')] *)
Definition readFileSync (p : list N) : M (list N) :=
  fun w => match files w !! p with
           | Some c => (w, Ok c)
           | None => (w, Err (if bool_decide (p ∈ dirs w) then EISDIR else ENOENT))
           end.

(** [fs.outputFile(p, data)] and [fs.outputFileSync(p, data)]: write the
    file, creating the directories above it; an existing file is replaced.
    The operation fails exactly on the paths the system refuses. *)
Definition outputFile (p data : list N) : M unit :=
  fun w =>
    if bool_decide (p ∈ denied w) then (w, Err EACCES)
    else (set_files (<[p := data]> (files w))
                    (list_to_set (parents p) ∪ dirs w) w, Ok tt).

(** [mkdirsSync(d)] *)
Definition mkdirs (d : list N) : M unit :=
  fun w =>
    if bool_decide (d ∈ denied w) then (w, Err EACCES)
    else (set_files (files w) ({[ d ]} ∪ list_to_set (parents d) ∪ dirs w) w,
          Ok tt).

(** Run [f] on every element of a list, in order, until one fails. *)
Fixpoint for_each {A} (f : A -> M unit) (l : list A) : M unit :=
  match l with
  | [] => ret tt
  | a :: l' => 'tt <- f a ; for_each f l'
  end.

(** What [copySync] visits below [src]: the item at the relative path [r] is
    reached when [filter] accepts [src], every directory between [src] and
    the item, and the item itself. *)
Definition reached (filter : list N -> bool) (src r : list N) : bool :=
  filter src && forallb (fun d => filter (child src d)) (dir_prefixes [] r)
  && filter (child src r).

(** The files to copy: the target path and the content of each file below
    [src] that is reached. *)
Definition copy_plan (filter : list N -> bool) (src dest : list N)
    (fs : gmap (list N) (list N)) : list (list N * list N) :=
  omap (fun '(p, c) =>
          match rel_under src p with
          | Some r => if reached filter src r then Some (child dest r, c)
                      else None
          | None => None
          end)
       (map_to_list fs).

(** The directories to create below [dest]. *)
Definition copy_dirs (filter : list N -> bool) (src dest : list N)
    (ds : gset (list N)) : list (list N) :=
  omap (fun p =>
          match rel_under src p with
          | Some r => if reached filter src r then Some (child dest r)
                      else None
          | None => None
          end)
       (elements ds).

(** [fs.copySync(src, dest, { filter })] of fs-extra: [src] is copied to
    [dest] recursively; [filter] is asked for every item, a directory that
    it rejects is not entered, existing files are replaced.  The items are
    read before the first one is written. *)
Definition copySync (src dest : list N) (filter : list N -> bool) : M unit :=
  fun w =>
    if bool_decide (src ∈ dirs w) then
      if negb (filter src) then (w, Ok tt)
      else
        ('tt <- mkdirs dest ;
         'tt <- for_each mkdirs (copy_dirs filter src dest (dirs w)) ;
         for_each (fun '(q, c) => outputFile q c)
                  (copy_plan filter src dest (files w))) w
    else
      match files w !! src with
      | Some c => if filter src then outputFile dest c w else (w, Ok tt)
      | None => (w, Err ENOENT)
      end.

(** *** opener *)

(** [opener(filename, null, callback)]: the request is logged; the callback
    receives the outcome. *)
Definition opener (filename : list N) : M unit :=
  fun w =>
    ({| files := files w; dirs := dirs w; denied := denied w; now := now w;
        ticks := ticks w; opened := filename :: opened w;
        opener_ok := opener_ok w |},
     if opener_ok w then Ok tt else Err EOPENER).

(** [opener(filename)] without a callback: the outcome is not observed. *)
Definition opener_detached (filename : list N) : M unit :=
  catch (opener filename) (fun _ => ret tt).

(** *** fsu

    Modelled from the spec: [fsu.writeFileUnique(pattern, data, { force })]
    is not part of the sources.  The pattern carries a placeholder
    [{left###right}]; the names tried are the pattern
    without the placeholder, then with [left], the number 1, 2, 3, ... padded
    with zeros to the width of the run of [#], and [right] in its place; the
    first name that no file or directory bears is created (together with the
    directories above it) and handed to the callback.  A pattern without
    placeholder is written as it is. *)

(** [n] in decimal. *)
Fixpoint digits_of_uint (d : Decimal.uint) : list N :=
  match d with
  | Decimal.Nil => []
  | Decimal.D0 d => ch "0" :: digits_of_uint d
  | Decimal.D1 d => ch "1" :: digits_of_uint d
  | Decimal.D2 d => ch "2" :: digits_of_uint d
  | Decimal.D3 d => ch "3" :: digits_of_uint d
  | Decimal.D4 d => ch "4" :: digits_of_uint d
  | Decimal.D5 d => ch "5" :: digits_of_uint d
  | Decimal.D6 d => ch "6" :: digits_of_uint d
  | Decimal.D7 d => ch "7" :: digits_of_uint d
  | Decimal.D8 d => ch "8" :: digits_of_uint d
  | Decimal.D9 d => ch "9" :: digits_of_uint d
  end.

Definition decimal (n : nat) : list N := digits_of_uint (Nat.to_uint n).

(** [padNum(n, width)] *)
Definition padNum (n width : nat) : list N :=
  let d := decimal n in
  replicate (width - length d) (ch "0") ++ d.

Definition is_meta (c : N) : bool :=
  is_char "#" c || is_char "{" c || is_char "}" c.

Record placeholder := {
  padLeft : list N;
  pad : nat;
  padRight : list N
}.

(** A placeholder at the start of [s], and what follows it. *)
Definition placeholder_here (s : list N) : option (placeholder * list N) :=
  match s with
  | c :: s1 =>
      if is_char "{" c then
        let l := span (fun x => negb (is_meta x)) s1 in
        let s2 := drop l s1 in
        let n := span (is_char "#") s2 in
        let s3 := drop n s2 in
        let r := span (fun x => negb (is_meta x)) s3 in
        match n, drop r s3 with
        | S _, c' :: rest =>
            if is_char "}" c'
            then Some ({| padLeft := take l s1; pad := n;
                          padRight := take r s3 |}, rest)
            else None
        | _, _ => None
        end
      else None
  | [] => None
  end.

(** The last placeholder of [s], with what precedes and what follows it. *)
Fixpoint parse_pattern (s : list N)
    : option (list N * placeholder * list N) :=
  match s with
  | [] => None
  | c :: s' =>
      match parse_pattern s' with
      | Some (h, ph, t) => Some (c :: h, ph, t)
      | None =>
          match placeholder_here s with
          | Some (ph, t) => Some ([], ph, t)
          | None => None
          end
      end
  end.

(** The name tried at the attempt [tryNum]. *)
Definition candidate (head : list N) (ph : placeholder) (tail : list N)
    (tryNum : nat) : list N :=
  match tryNum with
  | 0 => head ++ tail
  | S _ => head ++ padLeft ph ++ padNum tryNum (pad ph) ++ padRight ph ++ tail
  end.

(** The first attempt, from [tryNum] on, whose name is free. *)
Fixpoint first_free (w : world) (cand : nat -> list N) (fuel tryNum : nat)
    : option nat :=
  match fuel with
  | 0 => None
  | S f => if taken w (cand tryNum) then first_free w cand f (S tryNum)
           else Some tryNum
  end.

Definition writeFileUnique (pattern data : list N) : M (list N) :=
  fun w =>
    match parse_pattern pattern with
    | None => ('tt <- outputFile pattern data ; ret pattern) w
    | Some (h, ph, t) =>
        let cand := candidate h ph t in
        match first_free w cand (S (size (files w) + size (dirs w))) 0 with
        | Some k => ('tt <- outputFile (cand k) data ; ret (cand k)) w
        | None => (w, Err EACCES)
        end
    end.

(** ** The modules [main.js] requires *)

(** [path], [dateformat], the renderer [react-dom/server] applied to the
    component [./main-html], [./options], [../package.json], [JSON] and the
    process: they are not part of the sources and are taken as given. *)
Class Externals := {
  (** the type of the raw options, the empty object and
      [getMergedOptions] of [./options] *)
  raw_options : Type;
  empty_options : raw_options;
  getMergedOptions : raw_options -> options;
  (** [path.resolve(a, b, c)], [path.join(a, b)], [path.relative(a, b)] *)
  path_resolve : list N -> list N -> list N -> list N;
  path_join : list N -> list N -> list N;
  path_relative : list N -> list N -> list N;
  (** [dateFormat(date, format)] *)
  dateFormat : Z -> jsval -> list N;
  (** [render(React.createElement(MainHTML, { assetsDir, data, options,
      styles, scripts }))] *)
  render : list N -> json -> reportOptions -> option (list N)
           -> option (list N) -> list N;
  (** [JSON.stringify(value)] and [JSON.stringify(value, null, indent)] *)
  JSON_stringify : json -> option nat -> list N;
  (** [pkg.version] *)
  pkg_version : list N;
  (** [path.join(__dirname, '..', 'dist')] *)
  distDir : list N;
  (** [process.cwd()] *)
  cwd : list N
}.

(** ** [main.js] *)

Section Main.
Context {E : Externals}.

Definition saveFile (filename data : list N) (overwrite : jsval)
    : M (list N) :=
  if truthy overwrite then
    'tt <- outputFile filename data ; ret filename
  else
    writeFileUnique (insert_placeholder filename) data.

Definition openFile (filename : list N) : M (list N) :=
  'tt <- opener filename ; ret filename.

Definition loadFile (filename : list N) : M (list N) :=
  readFileSync filename.

Definition getTimestampFormat (timestamp : jsval) : jsval :=
  if strict_eq timestamp (JStr (lit ""))
     || strict_eq timestamp (JStr (lit "true"))
     || strict_eq timestamp (JBool true)
  then JStr (lit "isoDateTime")
  else timestamp.

(** The three [replace] calls applied to the formatted date. *)
Definition sanitize (s : list N) : list N :=
  replace_all colonRegex (fun _ => lit "")
    (replace_all slashRegex (fun _ => lit "-")
       (replace_all commaSpaceRegex (fun _ => lit "_") s)).

(** The variable [ts] of [getFilename]. *)
Definition getFilename_ts (timestamp : jsval) : M (list N) :=
  if negb (strict_eq timestamp (JBool false))
     && negb (strict_eq timestamp (JStr (lit "false")))
  then
    let format := getTimestampFormat timestamp in
    date <- new_Date ;
    ret (sanitize (lit "_" ++ dateFormat date format))
  else ret (lit "").

Definition getFilename (o : options) : M (list N) :=
  let reportFilename := default (lit "mochawesome") (reportFilename o) in
  ts <- getFilename_ts (timestamp o) ;
  let filename := strip_ext reportFilename ++ ts in
  ret (path_resolve cwd (reportDir o) filename).

Definition getOptions (opts : option raw_options) : M reportOptions :=
  let mergedOptions := getMergedOptions (default empty_options opts) in
  jsonFile <- (if truthy (saveJson mergedOptions)
               then f <- getFilename mergedOptions ;
                    ret (Some (f ++ lit ".json"))
               else ret None) ;
  f <- getFilename mergedOptions ;
  ret {| merged := mergedOptions; jsonFile := jsonFile;
         htmlFile := f ++ lit ".html" |}.

(** The inline assets: [styles] and [scripts]. *)
Definition getAssets : M (list N * list N) :=
  styles <- loadFile (path_join distDir (lit "app.inline.css")) ;
  scripts <- loadFile (path_join distDir (lit "app.js")) ;
  ret (styles, scripts).

Definition _shouldCopyAssets (assetsDir : list N) : M bool :=
  ex <- existsSync assetsDir ;
  if negb ex then ret true
  else
    catch
      (appCss <- loadFile (path_join assetsDir (lit "app.css")) ;
       let appCssVersion := regex_exec versionRegex appCss in
       match appCssVersion with
       | None => ret true
       | Some v => if negb (bool_decide (v = pkg_version)) then ret true
                   else ret false
       end)
      (fun e => ret true).

(** The filter of [copyAssets]: [src => !/inline/.test(src)]. *)
Definition not_inline (src : list N) : bool :=
  negb (regex_test inlineRegex src).

Definition copyAssets (o : options) : M unit :=
  should <- _shouldCopyAssets (assetsDir o) ;
  if should then copySync distDir (assetsDir o) not_inline
  else ret tt.

Definition renderHtml (data : json) (ro : reportOptions)
    (styles scripts : option (list N)) : list N :=
  let relativeAssetsDir :=
    path_relative (reportDir (merged ro)) (assetsDir (merged ro)) in
  render relativeAssetsDir data ro styles scripts.

Definition prepare (reportData : json) (opts : option raw_options)
    : M (list N * reportOptions) :=
  let data := if typeof_object reportData
              then JsonStr (JSON_stringify reportData None)
              else reportData in
  ro <- getOptions opts ;
  assets <-
    (if negb (truthy (dev (merged ro))) then
       if truthy (inlineAssets (merged ro)) then
         '(styles, scripts) <- getAssets ; ret (Some styles, Some scripts)
       else
         'tt <- copyAssets (merged ro) ; ret (None, None)
     else ret (None, None)) ;
  let html := lit "<!doctype html>" ++ [10%N]
              ++ renderHtml data ro (fst assets) (snd assets) in
  ret (html, ro).

(** An element of the array given to [Promise.all]: a promise settles with
    its outcome, [null] stands for itself. *)
Definition settle {A} (p : option (M A)) : M (option A) :=
  match p with
  | None => ret None
  | Some m => a <- m ; ret (Some a)
  end.

(** [Promise.all] of an array whose elements are promises or [null]: every
    operation that was started runs to its end; the result is the array of
    the outcomes, or the rejection of the first element that failed. *)
Fixpoint promise_all {A} (ps : list (option (M A))) : M (list (option A)) :=
  fun w =>
    match ps with
    | [] => (w, Ok [])
    | p :: ps' =>
        let '(w1, r1) := settle p w in
        let '(w2, r2) := promise_all ps' w1 in
        (w2, match r1, r2 with
             | Ok a, Ok l => Ok (a :: l)
             | Err e, _ => Err e
             | Ok _, Err e => Err e
             end)
    end.

Definition create (data : json) (opts : option raw_options)
    : M (list (option (list N))) :=
  '(html, ro) <- prepare data opts ;
  let o := merged ro in
  promise_all
    [ (if negb (strict_eq (saveHtml o) (JBool false))
       then Some (savedHtml <- saveFile (htmlFile ro) html (overwrite o) ;
                  if truthy (autoOpen o) then openFile savedHtml
                  else ret savedHtml)
       else None) ;
      (if truthy (saveJson o)
       then Some (match jsonFile ro with
                  | Some f => saveFile f (JSON_stringify data (Some 2))
                                (overwrite o)
                  | None => throw ETYPE
                  end)
       else None) ].

Definition createSync (data : json) (opts : option raw_options) : M unit :=
  '(html, ro) <- prepare data opts ;
  'tt <- outputFile (htmlFile ro) html ;
  if truthy (autoOpen (merged ro)) then opener_detached (htmlFile ro)
  else ret tt.

End Main.

(** ** A sample environment

    One instance of [Externals], on which the functions can be run: POSIX
    paths, dates formatted at UTC, a serializer of JSON values, a stand-in
    for the renderer, and options merged over defaults. *)

Module Sample.

(** *** POSIX paths *)

Fixpoint split_on (sep : N) (acc s : list N) : list (list N) :=
  match s with
  | [] => [acc]
  | c :: s' => if (c =? sep)%N then acc :: split_on sep [] s'
               else split_on sep (acc ++ [c]) s'
  end.

Definition segments (p : list N) : list (list N) := split_on (ch "/") [] p.

(** Drop empty and [.] segments; [..] drops the segment before it. *)
Definition normalize_segments (segs : list (list N)) : list (list N) :=
  reverse
    (foldl (fun st seg =>
              if bool_decide (seg = []) || bool_decide (seg = lit ".") then st
              else if bool_decide (seg = lit "..") then tl st
              else seg :: st)
           [] segs).

Definition is_absolute (p : list N) : bool :=
  match p with c :: _ => is_char "/" c | [] => false end.

Definition join_segments (segs : list (list N)) : list N :=
  match segs with
  | [] => []
  | s :: ss => s ++ concat ((fun x => lit "/" ++ x) <$> ss)
  end.

Definition posix_resolve (a b c : list N) : list N :=
  let p := if is_absolute c then c
           else if is_absolute b then b ++ lit "/" ++ c
           else a ++ lit "/" ++ b ++ lit "/" ++ c in
  lit "/" ++ join_segments (normalize_segments (segments p)).

(** [path.normalize] keeps the [..] that lead out of a relative path. *)
Definition normalize_relative (segs : list (list N)) : list (list N) :=
  reverse
    (foldl (fun st seg =>
              if bool_decide (seg = []) || bool_decide (seg = lit ".") then st
              else if bool_decide (seg = lit "..") then
                match st with
                | top :: st' => if bool_decide (top = lit "..") then seg :: st
                                else st'
                | [] => [seg]
                end
              else seg :: st)
           [] segs).

(** [path.join(a, b)]: the arguments that are not empty, joined and
    normalized; a separator at the end is kept. *)
Definition posix_join (a b : list N) : list N :=
  let p := if bool_decide (a = []) then b
           else if bool_decide (b = []) then a
           else a ++ lit "/" ++ b in
  let trailing := bool_decide (last p = Some (ch "/")) in
  let body := join_segments
                (if is_absolute p then normalize_segments (segments p)
                 else normalize_relative (segments p)) in
  if bool_decide (body = []) then
    (if is_absolute p then lit "/"
     else if trailing then lit "./" else lit ".")
  else (if is_absolute p then lit "/" else [])
       ++ body ++ (if trailing then lit "/" else []).

Fixpoint drop_common (x y : list (list N)) : list (list N) * list (list N) :=
  match x, y with
  | a :: x', b :: y' => if bool_decide (a = b) then drop_common x' y'
                        else (x, y)
  | _, _ => (x, y)
  end.

(** The working directory of the sample. *)
Definition working_dir : list N := lit "/home/ci/project".

(** [path.relative(from, to)]: both paths are resolved first. *)
Definition posix_relative (from to : list N) : list N :=
  let '(up, down) :=
    drop_common
      (normalize_segments (segments (posix_resolve working_dir [] from)))
      (normalize_segments (segments (posix_resolve working_dir [] to))) in
  join_segments (((fun _ => lit "..") <$> up) ++ down).

(** *** Dates

    A stand-in for the [dateformat] package (release 3) on a machine whose
    time zone is UTC.  A date is a number of milliseconds since the epoch. *)

(** [String(z)] for an integer. *)
Definition num (z : Z) : list N :=
  (if (z <? 0)%Z then lit "-" else []) ++ decimal (Z.to_nat (Z.abs z)).

(** [pad(val, len)]: zeros on the left, up to [len] characters. *)
Definition pad_left (len : nat) (z : Z) : list N :=
  let s := num z in replicate (len - length s) (ch "0") ++ s.

(** Year, month and day of a day count since 1970-01-01. *)
Definition civil_from_days (days : Z) : Z * Z * Z :=
  let z := (days + 719468)%Z in
  let era := (z / 146097)%Z in
  let doe := (z - era * 146097)%Z in
  let yoe := ((doe - doe / 1460 + doe / 36524 - doe / 146096) / 365)%Z in
  let doy := (doe - (365 * yoe + yoe / 4 - yoe / 100))%Z in
  let mp := ((5 * doy + 2) / 153)%Z in
  let d := (doy - (153 * mp + 2) / 5 + 1)%Z in
  let m := (if mp <? 10 then mp + 3 else mp - 9)%Z in
  let y := (yoe + era * 400 + (if m <=? 2 then 1 else 0))%Z in
  (y, m, d).

(** The day count of a year, month and day. *)
Definition days_from_civil (y m d : Z) : Z :=
  let y' := (if m <=? 2 then y - 1 else y)%Z in
  let era := (y' / 400)%Z in
  let yoe := (y' - era * 400)%Z in
  let doy := ((153 * (if m <=? 2 then m + 9 else m - 3) + 2) / 5 + d - 1)%Z in
  let doe := (yoe * 365 + yoe / 4 - yoe / 100 + doy)%Z in
  (era * 146097 + doe - 719468)%Z.

(** [getDay()]: 0 is Sunday. *)
Definition day_of_week (days : Z) : Z := ((days + 4) mod 7)%Z.

(** The Thursday of the ISO week of a day. *)
Definition thursday_of (days : Z) : Z :=
  (days - (day_of_week days + 6) mod 7 + 3)%Z.

(** [getWeek(date)]: the ISO 8601 week number. *)
Definition getWeek (days : Z) : Z :=
  let target := thursday_of days in
  let '(y, _, _) := civil_from_days target in
  let first := thursday_of (days_from_civil y 1 4) in
  (1 + (target - first) / 7)%Z.

Definition dayNames : list (list N) :=
  lit <$> ["Sun"; "Mon"; "Tue"; "Wed"; "Thu"; "Fri"; "Sat";
           "Sunday"; "Monday"; "Tuesday"; "Wednesday"; "Thursday"; "Friday";
           "Saturday"]%string.

Definition monthNames : list (list N) :=
  lit <$> ["Jan"; "Feb"; "Mar"; "Apr"; "May"; "Jun"; "Jul"; "Aug"; "Sep";
           "Oct"; "Nov"; "Dec";
           "January"; "February"; "March"; "April"; "May"; "June"; "July";
           "August"; "September"; "October"; "November"; "December"]%string.

(** [dateFormat.masks] *)
Definition masks : list (list N * list N) :=
  [ (lit "default", lit "ddd mmm dd yyyy HH:MM:ss");
    (lit "shortDate", lit "m/d/yy");
    (lit "mediumDate", lit "mmm d, yyyy");
    (lit "longDate", lit "mmmm d, yyyy");
    (lit "fullDate", lit "dddd, mmmm d, yyyy");
    (lit "shortTime", lit "h:MM TT");
    (lit "mediumTime", lit "h:MM:ss TT");
    (lit "longTime", lit "h:MM:ss TT Z");
    (lit "isoDate", lit "yyyy-mm-dd");
    (lit "isoTime", lit "HH:MM:ss");
    (lit "isoDateTime", lit "yyyy-mm-dd'T'HH:MM:sso");
    (lit "isoUtcDateTime", lit "UTC:yyyy-mm-dd'T'HH:MM:ss'Z'");
    (lit "expiresHeaderFormat", lit "ddd, dd mmm yyyy HH:MM:ss Z") ].

Definition named_mask (name : list N) : option (list N) :=
  snd <$> List.find (fun kv => bool_decide (fst kv = name)) masks.

(** The entry of [flags] for the token made of [k] times the letter [c];
    [zone] is the value of the flag [Z]. *)
Definition flag (zone : list N) (ms : Z) (c : N) (k : nat) : list N :=
  let secs := (ms / 1000)%Z in
  let days := (secs / 86400)%Z in
  let t := (secs mod 86400)%Z in
  let '(y, m, d) := civil_from_days days in
  let D := day_of_week days in
  let H := (t / 3600)%Z in
  let M := (t / 60 mod 60)%Z in
  let s := (t mod 60)%Z in
  let L := (ms mod 1000)%Z in
  let h12 := (if H mod 12 =? 0 then 12 else H mod 12)%Z in
  let am := (H <? 12)%Z in
  if is_char "d" c then
    match k with
    | 1 => num d
    | 2 => pad_left 2 d
    | 3 => default [] (dayNames !! Z.to_nat D)
    | _ => default [] (dayNames !! Z.to_nat (D + 7))
    end
  else if is_char "m" c then
    match k with
    | 1 => num m
    | 2 => pad_left 2 m
    | 3 => default [] (monthNames !! Z.to_nat (m - 1))
    | _ => default [] (monthNames !! Z.to_nat (m - 1 + 12))
    end
  else if is_char "y" c then
    match k with 2 => drop 2 (num y) | _ => num y end
  else if is_char "h" c then
    match k with 1 => num h12 | _ => pad_left 2 h12 end
  else if is_char "H" c then
    match k with 1 => num H | _ => pad_left 2 H end
  else if is_char "M" c then
    match k with 1 => num M | _ => pad_left 2 M end
  else if is_char "s" c then
    match k with 1 => num s | _ => pad_left 2 s end
  else if is_char "l" c then pad_left 3 L
  else if is_char "L" c then pad_left 2 ((L + 5) / 10)
  else if is_char "t" c then
    match k with
    | 1 => if am then lit "a" else lit "p"
    | _ => if am then lit "am" else lit "pm"
    end
  else if is_char "T" c then
    match k with
    | 1 => if am then lit "A" else lit "P"
    | _ => if am then lit "AM" else lit "PM"
    end
  else if is_char "Z" c then zone
  else if is_char "o" c then lit "+" ++ pad_left 4 0
  else if is_char "S" c then
    (if (3 <? d mod 10)%Z then lit "th"
     else if (d mod 100 - d mod 10 =? 10)%Z then lit "th"
     else if (d mod 10 =? 1)%Z then lit "st"
     else if (d mod 10 =? 2)%Z then lit "nd"
     else if (d mod 10 =? 3)%Z then lit "rd"
     else lit "th")
  else if is_char "W" c then num (getWeek days)
  else if is_char "N" c then num (if D =? 0 then 7 else D)%Z
  else [].

Definition one_of (letters : string) (c : N) : bool :=
  existsb (fun a => (c =? a)%N) (lit letters).

(** The pattern [token] of the package at the head of [c :: s']: one to
    four [d] or [m], two or four [y], one or two of the same letter among
    [HhMsTt], one letter among [LloSZWN], or a text between two double or
    two single quotes, which stands for itself.  The result is the text
    that replaces the match and the length of the match; a code unit at
    which nothing matches is kept. *)
Definition token (zone : list N) (ms : Z) (c : N) (s' : list N)
    : list N * nat :=
  let run := S (span (N.eqb c) s') in
  if one_of "dm" c then (flag zone ms c (Nat.min run 4), Nat.min run 4)
  else if is_char "y" c then
    if 4 <=? run then (flag zone ms c 4, 4)
    else if 2 <=? run then (flag zone ms c 2, 2)
    else ([c], 1)
  else if one_of "HhMsTt" c then (flag zone ms c (Nat.min run 2), Nat.min run 2)
  else if one_of "LloSZWN" c then (flag zone ms c 1, 1)
  else if (c =? 34)%N || is_char "'" c then
    let i := span (fun x => negb (x =? c)%N) s' in
    if i <? length s' then (take i s', i + 2) else ([c], 1)
  else ([c], 1).

(** [mask.replace(token, ...)] *)
Fixpoint expand (fuel : nat) (zone : list N) (ms : Z) (s : list N) : list N :=
  match fuel, s with
  | S n, c :: s' =>
      let '(out, k) := token zone ms c s' in
      out ++ expand n zone ms (drop k s)
  | _, _ => []
  end.

(** [dateFormat(date, mask)]: a named mask stands for its text, a falsy
    mask for the default one; the prefixes [UTC:] and [GMT:] are taken off
    and decide the flag [Z], which on this machine is [GMT+0000]
    otherwise. *)
Definition utc_dateFormat (date : Z) (format : jsval) : list N :=
  let given :=
    match format with
    | JStr s => s
    | JBool true => lit "true"
    | JNum z => if (z =? 0)%Z then [] else num z
    | _ => []
    end in
  let mask :=
    match named_mask given with
    | Some m => m
    | None => if bool_decide (given = [])
              then lit "ddd mmm dd yyyy HH:MM:ss" else given
    end in
  if bool_decide (take 4 mask = lit "UTC:")
  then expand (length mask) (lit "UTC") date (drop 4 mask)
  else if bool_decide (take 4 mask = lit "GMT:")
  then expand (length mask) (lit "GMT") date (drop 4 mask)
  else expand (length mask) (lit "GMT+0000") date mask.

(** *** JSON *)

Definition hex_digit (n : N) : N :=
  (if n <? 10 then 48 + n else 87 + n)%N.

Definition json_escape (c : N) : list N :=
  (if c =? 34 then [92; 34]
   else if c =? 92 then [92; 92]
   else if c =? 8 then [92; 98]
   else if c =? 9 then [92; 116]
   else if c =? 10 then [92; 110]
   else if c =? 12 then [92; 102]
   else if c =? 13 then [92; 114]
   else if c <? 32 then lit "\u00" ++ [hex_digit (c / 16); hex_digit (c mod 16)]
   else [c])%N.

Definition json_quote (s : list N) : list N :=
  [34%N] ++ concat (json_escape <$> s) ++ [34%N].

Definition json_number (z : Z) : list N :=
  (if (z <? 0)%Z then lit "-" else []) ++ decimal (Z.to_nat (Z.abs z)).

Fixpoint join_with (sep : list N) (l : list (list N)) : list N :=
  match l with
  | [] => []
  | [x] => x
  | x :: l' => x ++ sep ++ join_with sep l'
  end.

(** [open] and [close] around the members, one per line when [gap] is not
    zero; [ind] is the indentation of the enclosing line. *)
Definition json_block (gap ind : nat) (open close : list N)
    (members : list (list N)) : list N :=
  match members with
  | [] => open ++ close
  | _ =>
      if gap =? 0 then open ++ join_with (lit ",") members ++ close
      else
        let inner := [10%N] ++ replicate (ind + gap) (ch " ") in
        open ++ inner ++ join_with (lit "," ++ inner) members
        ++ [10%N] ++ replicate ind (ch " ") ++ close
  end.

Fixpoint stringify_at (gap ind : nat) (v : json) : list N :=
  match v with
  | JsonNull => lit "null"
  | JsonBool b => if b then lit "true" else lit "false"
  | JsonNum z => json_number z
  | JsonStr s => json_quote s
  | JsonArr l =>
      json_block gap ind (lit "[") (lit "]")
        (map (stringify_at gap (ind + gap)) l)
  | JsonObj l =>
      json_block gap ind (lit "{") (lit "}")
        (map (fun kv =>
                json_quote (fst kv) ++ lit ":"
                ++ (if gap =? 0 then [] else lit " ")
                ++ stringify_at gap (ind + gap) (snd kv)) l)
  end.

Definition stringify (v : json) (indent : option nat) : list N :=
  stringify_at (default 0 indent) 0 v.

(** *** Renderer *)

(** A stand-in for the rendered markup: the serialized data inside a
    document element. *)
Definition render_stub (assetsDir : list N) (data : json)
    (ro : reportOptions) (styles scripts : option (list N)) : list N :=
  lit "<html><body data-raw='"
  ++ match data with JsonStr s => s | v => stringify v None end
  ++ lit "'></body></html>".

(** *** Options *)

(** Modelled from the spec: [getMergedOptions] of [./options] is not part of
    the sources.  The raw options are an object with any keys; every
    recognised field falls back to its default when the object does not
    give it.  [reportFilename] defaults to [mochawesome] and [saveHtml] to
    [true]; for the fields whose default the specification does not name the
    sample takes the report directory [mochawesome-report], its
    subdirectory [assets] below the working directory of the sample,
    [overwrite] on and everything else off. *)
Definition str_field (raw : gmap string jsval) (k : string) (d : list N)
    : list N :=
  match raw !! k with Some (JStr s) => s | _ => d end.

Definition val_field (raw : gmap string jsval) (k : string) (d : jsval)
    : jsval :=
  match raw !! k with Some JUndefined | None => d | Some v => v end.

Definition merge_options (raw : gmap string jsval) : options :=
  let dir := str_field raw "reportDir" (lit "mochawesome-report") in
  {| reportDir := dir;
     reportFilename := Some (str_field raw "reportFilename" (lit "mochawesome"));
     timestamp := val_field raw "timestamp" (JBool false);
     saveJson := val_field raw "saveJson" (JBool false);
     saveHtml := val_field raw "saveHtml" (JBool true);
     autoOpen := val_field raw "autoOpen" (JBool false);
     overwrite := val_field raw "overwrite" (JBool true);
     inlineAssets := val_field raw "inlineAssets" (JBool false);
     assetsDir := str_field raw "assetsDir"
                    (lit "/home/ci/project/mochawesome-report/assets");
     dev := val_field raw "dev" (JBool false) |}.

Definition env : Externals :=
  {| raw_options := gmap string jsval;
     empty_options := ∅;
     getMergedOptions := merge_options;
     path_resolve := posix_resolve;
     path_join := posix_join;
     path_relative := posix_relative;
     dateFormat := utc_dateFormat;
     render := render_stub;
     JSON_stringify := stringify;
     pkg_version := lit "3.1.5";
     distDir := lit "/pkg/dist";
     cwd := working_dir |}.

(** A world with the package's [dist] directory and nothing else; the clock
    stands just before 2017-03-01T12:00:00Z. *)
Definition dist_files : gmap (list N) (list N) :=
  list_to_map
    [ (lit "/pkg/dist/app.css", lit "/*! mochawesome-report-generator 3.1.5 */ body{}");
      (lit "/pkg/dist/app.inline.css", lit "body{}");
      (lit "/pkg/dist/app.js", lit "render()");
      (lit "/pkg/dist/fonts/icons.woff", lit "woff") ].

Definition world0 : world :=
  {| files := dist_files;
     dirs := list_to_set [lit "/pkg"; lit "/pkg/dist"; lit "/pkg/dist/fonts";
                          lit "/home"; lit "/home/ci"; lit "/home/ci/project"];
     denied := ∅;
     now := 1488369599999;
     ticks := [1; 1; 1; 1]%Z;
     opened := [];
     opener_ok := true |}.

(** Option objects and data of the runs below. *)
Definition opts_json_timestamp : gmap string jsval :=
  <["saveJson" := JBool true]> (<["timestamp" := JBool true]> ∅).
Definition opts_html_only : gmap string jsval :=
  <["saveJson" := JBool false]> (<["saveHtml" := JBool true]> ∅).
Definition opts_json_only : gmap string jsval :=
  <["saveJson" := JBool true]> (<["saveHtml" := JBool false]> ∅).
Definition opts_report_v2 : gmap string jsval :=
  <["reportFilename" := JStr (lit "report.v2")]> ∅.
Definition opts_custom_format : gmap string jsval :=
  <["timestamp" := JStr (lit "d/m, HH:MM  yyyy")]> ∅.

Definition no_tests : json := JsonObj [(lit "tests", JsonArr [])].

(** A world in which [/out/report.html] exists. *)
Definition world_report : world :=
  {| files := {[ lit "/out/report.html" := lit "old" ]};
     dirs := {[ lit "/out" ]};
     denied := ∅;
     now := 0;
     ticks := [];
     opened := [];
     opener_ok := true |}.

(** A world whose assets directory holds a style sheet of an older
    release. *)
Definition world_stale : world :=
  {| files := <[ lit "/home/ci/project/mochawesome-report/assets/app.css"
                 := lit "/*! mochawesome-report-generator 3.0.2 */" ]>
                dist_files;
     dirs := {[ lit "/home/ci/project/mochawesome-report/assets" ]} ∪ dirs world0;
     denied := ∅;
     now := 0;
     ticks := [];
     opened := [];
     opener_ok := true |}.

End Sample.

(** ** Further options and worlds for the runs *)

Module Cases.

Definition report_html : list N :=
  lit "/home/ci/project/mochawesome-report/mochawesome.html".
Definition report_json : list N :=
  lit "/home/ci/project/mochawesome-report/mochawesome.json".

Definition opts_dev : gmap string jsval := <["dev" := JBool true]> ∅.
Definition opts_inline : gmap string jsval :=
  <["inlineAssets" := JBool true]> ∅.
Definition opts_json : gmap string jsval := <["saveJson" := JBool true]> ∅.
Definition opts_keep : gmap string jsval :=
  <["overwrite" := JBool false]> (<["saveJson" := JBool true]> ∅).

(** The sample world with an earlier report in place. *)
Definition world_earlier : world :=
  {| files := <[ report_html := lit "old" ]> Sample.dist_files;
     dirs := dirs Sample.world0;
     denied := ∅;
     now := 0;
     ticks := [];
     opened := [];
     opener_ok := true |}.

(** The sample world with the path of the HTML report refused. *)
Definition world_locked : world :=
  {| files := Sample.dist_files;
     dirs := dirs Sample.world0;
     denied := {[ report_html ]};
     now := 0;
     ticks := [];
     opened := [];
     opener_ok := true |}.


End Cases.

(** The value of a result, or a default. *)
Definition ok_or {A} (d : A) (r : result A) : A :=
  match r with Ok a => a | Err _ => d end.

(** ** Notions used to state the properties *)

(** [v] occurs in [s] with [pre] before it and [post] after it. *)
Definition occurs_at (P : list N -> Prop) (s pre v post : list N) : Prop :=
  s = pre ++ v ++ post /\ P v.

Definition occurs (P : list N -> Prop) (s : list N) : Prop :=
  exists pre v post, occurs_at P s pre v post.

(** [v] is the first occurrence of [P] in [s]: none starts further left,
    and none at the same place is longer. *)
Definition first_occurrence (P : list N -> Prop) (s v : list N) : Prop :=
  exists pre post,
    occurs_at P s pre v post
    /\ forall pre' v' post', occurs_at P s pre' v' post' ->
         length pre <= length pre'
         /\ (length pre' = length pre -> length v' <= length v).

(** The texts that [\d+\.\d+\.\d+] matches: three non-empty runs of digits
    separated by dots. *)
Definition is_version (v : list N) : Prop :=
  exists a b c,
    v = a ++ ch "." :: b ++ ch "." :: c
    /\ a <> [] /\ b <> [] /\ c <> []
    /\ forallb is_digit a = true /\ forallb is_digit b = true
    /\ forallb is_digit c = true.

(** The matcher on the version pattern, run by run. *)
Definition digits_then (s : list N) : option (list N) :=
  match s with
  | c :: s' => if is_digit c then Some (drop (span is_digit s') s') else None
  | [] => None
  end.

Definition dot_then (s : list N) : option (list N) :=
  match s with
  | c :: s' => if is_char "." c then Some s' else None
  | [] => None
  end.

Definition version_rest (s : list N) : option (list N) :=
  s1 ← digits_then s; s2 ← dot_then s1; s3 ← digits_then s2;
  s4 ← dot_then s3; digits_then s4.

(** [x] occurs in [s] as a substring. *)
Definition contains (x s : list N) : Prop :=
  exists pre post, s = pre ++ x ++ post.

(** Two worlds that differ at most in their files and directories. *)
Definition same_outside_fs (w w' : world) : Prop :=
  denied w' = denied w /\ now w' = now w /\ ticks w' = ticks w
  /\ opened w' = opened w /\ opener_ok w' = opener_ok w.

(** The number a decimal numeral denotes, leading zeros allowed. *)
Fixpoint uint_of_digits (s : list N) : Decimal.uint :=
  match s with
  | [] => Decimal.Nil
  | c :: s' =>
      let d := uint_of_digits s' in
      (if c =? 49 then Decimal.D1 d else if c =? 50 then Decimal.D2 d
       else if c =? 51 then Decimal.D3 d else if c =? 52 then Decimal.D4 d
       else if c =? 53 then Decimal.D5 d else if c =? 54 then Decimal.D6 d
       else if c =? 55 then Decimal.D7 d else if c =? 56 then Decimal.D8 d
       else if c =? 57 then Decimal.D9 d else Decimal.D0 d)%N
  end.

Definition decimal_value (s : list N) : nat := Nat.of_uint (uint_of_digits s).

(** The names that saving [stem.ext] without overwriting tries: the name
    itself, then [stem_001.ext], [stem_002.ext], ... *)
Definition numbered (stem ext : list N) (k : nat) : list N :=
  match k with
  | 0 => stem ++ ch "." :: ext
  | S _ => stem ++ lit "_" ++ padNum k 3 ++ ch "." :: ext
  end.

(** [k] is the first attempt whose name is free in [w]. *)
Definition least_free (w : world) (name : nat -> list N) (k : nat) : Prop :=
  taken w (name k) = false /\ forall j, j < k -> taken w (name j) = true.

(** Two worlds with the same refusals, opener and opener log. *)
Definition same_devices (w w' : world) : Prop :=
  denied w' = denied w /\ opened w' = opened w /\ opener_ok w' = opener_ok w.

(** Two worlds that differ at most in their clock. *)
Definition clock_only (w w' : world) : Prop :=
  files w' = files w /\ dirs w' = dirs w /\ same_devices w w'.

(** The files after writing [c] under the name [x], if there is one. *)
Definition written (x : option (list N)) (c : list N)
    (m : gmap (list N) (list N)) : gmap (list N) (list N) :=
  match x with Some f => <[f := c]> m | None => m end.

(** The directories after writing under the name [x], if there is one:
    those above the name are made. *)
Definition made (x : option (list N)) (d : gset (list N)) : gset (list N) :=
  match x with Some f => list_to_set (parents f) ∪ d | None => d end.
(** * Properties *)

(** ** Examples of the regular expressions *)

Example ex_strip_ext_html : strip_ext (lit "report.html") = lit "report".
Proof. reflexivity. Qed.
Example ex_strip_ext_v2 : strip_ext (lit "report.v2") = lit "report".
Proof. reflexivity. Qed.
Example ex_strip_ext_two : strip_ext (lit "a.b.c") = lit "a.b".
Proof. reflexivity. Qed.
Example ex_strip_ext_none : strip_ext (lit "mochawesome") = lit "mochawesome".
Proof. reflexivity. Qed.
Example ex_insert_placeholder_html :
  insert_placeholder (lit "report.html") = lit "report{_###}.html".
Proof. reflexivity. Qed.
Example ex_comma_space :
  replace_all commaSpaceRegex (fun _ => lit "_") (lit "a,  b c ,d,,e")
  = lit "a_b_c__d__e".
Proof. reflexivity. Qed.
Example ex_version :
  regex_exec versionRegex (lit "/* app 3.1.5-beta 4.0.0 */") = Some (lit "3.1.5").
Proof. reflexivity. Qed.


(** ** The matcher on the patterns of [main.js] *)

Lemma span_le p s : span p s <= length s.
Proof. induction s as [|c s IH]; simpl; [lia|]. destruct (p c); simpl; lia. Qed.

Lemma span_all p s : forallb p s = true -> span p s = length s.
Proof.
  induction s as [|c s IH]; simpl; [done|].
  intros [-> H]%andb_true_iff. by rewrite IH.
Qed.

Lemma span_app_stop p a c rest :
  forallb p a = true -> p c = false -> span p (a ++ c :: rest) = length a.
Proof.
  induction a as [|x a IH]; simpl; intros Ha Hc; [by rewrite Hc|].
  apply andb_true_iff in Ha as [-> Ha]. by rewrite IH.
Qed.

Lemma span_take_drop p s : take (span p s) s ++ drop (span p s) s = s.
Proof. apply take_drop. Qed.

Lemma forallb_take_span p s : forallb p (take (span p s) s) = true.
Proof.
  induction s as [|c s IH]; simpl; [done|].
  destruct (p c) eqn:Hc; simpl; [by rewrite Hc|done].
Qed.

Lemma span_drop_span p s : span p (drop (span p s) s) = 0.
Proof.
  induction s as [|c s IH]; simpl; [done|].
  destruct (p c) eqn:Hc; simpl; [done|by rewrite Hc].
Qed.

Lemma rmatch_eps s k : rmatch Eps s k = k s.
Proof. done. Qed.
Lemma rmatch_cls p s k :
  rmatch (Cls p) s k
  = match s with c :: s' => if p c then k s' else None | [] => None end.
Proof. done. Qed.
Lemma rmatch_seq a b s k :
  rmatch (Seq a b) s k = rmatch a s (fun s1 => rmatch b s1 k).
Proof. done. Qed.
Lemma rmatch_alt a b s k :
  rmatch (Alt a b) s k = or_else (rmatch a s k) (rmatch b s k).
Proof. done. Qed.
Lemma rmatch_star g a s k :
  rmatch (Star g a) s k = star_loop g (rmatch a) k (length s) s.
Proof. done. Qed.
Lemma rmatch_eos s k :
  rmatch Eos s k = match s with [] => k [] | _ :: _ => None end.
Proof. done. Qed.

(** A greedy repetition of a class commits to the longest run whenever the
    continuation cannot succeed at a shorter one while failing at the
    longest. *)
Lemma star_loop_greedy_cls p (k : cont) :
  (forall c s, p c = true -> k (drop (span p s) s) = None -> k (c :: s) = None) ->
  forall fuel s, length s <= fuel ->
    star_loop true (rmatch (Cls p)) k fuel s = k (drop (span p s) s).
Proof.
  intros Hk fuel. induction fuel as [|fuel IH]; intros s Hlen.
  - destruct s; simpl in *; [done|lia].
  - destruct s as [|c s]; simpl; [by destruct (k [])|].
    destruct (p c) eqn:Hc; simpl.
    + replace (length s <? S (length s)) with true
        by (symmetry; apply Nat.ltb_lt; lia).
      simpl in Hlen. rewrite IH by lia.
      destruct (k (drop (span p s) s)) eqn:Hd; simpl; [done|].
      by apply Hk.
    + by destruct (k (c :: s)).
Qed.

Lemma rmatch_star_greedy_cls p (k : cont) s :
  (forall c s, p c = true -> k (drop (span p s) s) = None -> k (c :: s) = None) ->
  rmatch (Star true (Cls p)) s k = k (drop (span p s) s).
Proof. intros Hk. simpl. by apply star_loop_greedy_cls. Qed.

(** A lazy repetition of a class before the end of the input. *)
Lemma star_loop_lazy_eos p fuel s :
  length s <= fuel ->
  star_loop false (rmatch (Cls p)) (fun s1 => rmatch Eos s1 Some) fuel s
  = if forallb p s then Some [] else None.
Proof.
  revert s. induction fuel as [|fuel IH]; intros s Hlen.
  - destruct s; simpl in *; [done|lia].
  - destruct s as [|c s]; simpl; [done|].
    destruct (p c) eqn:Hc; simpl; [|done].
    replace (length s <? S (length s)) with true
      by (symmetry; apply Nat.ltb_lt; lia).
    simpl in Hlen. apply IH. lia.
Qed.

(** *** [fileExtRegex] *)

Lemma match_here_fileExt s :
  match_here fileExtRegex s =
  match s with
  | c :: s' => if is_char "." c && forallb (not_char ".") s' then Some (s, [])
               else None
  | [] => None
  end.
Proof.
  unfold match_here, fileExtRegex. rewrite rmatch_seq, rmatch_cls.
  destruct s as [|c s]; [done|].
  destruct (is_char "." c); [|done].
  rewrite rmatch_seq, rmatch_star, star_loop_lazy_eos by done. cbn [andb].
  destruct (forallb _ s); [|done].
  f_equal. f_equal. apply take_ge. simpl. lia.
Qed.

Lemma not_char_forallb a s :
  forallb (not_char a) s = true <-> ch a ∉ s.
Proof.
  induction s as [|c s IH]; simpl.
  - split; [intros _ H; inversion H|done].
  - rewrite andb_true_iff, IH, not_elem_of_cons. unfold not_char.
    rewrite negb_true_iff, N.eqb_neq.
    split; intros [H1 H2]; split; congruence.
Qed.

Lemma is_char_true a c : is_char a c = true <-> c = ch a.
Proof. unfold is_char. apply N.eqb_eq. Qed.

Lemma is_char_ch a : is_char a (ch a) = true.
Proof. by apply is_char_true. Qed.

(** Without a dot nothing is replaced. *)
Lemma replace_first_fileExt_none repl s :
  ch "." ∉ s -> replace_first fileExtRegex repl s = s.
Proof.
  induction s as [|c s IH]; intros Hs.
  - done.
  - apply not_elem_of_cons in Hs as [Hc Hs].
    cbn [replace_first]. rewrite match_here_fileExt.
    destruct (is_char "." c) eqn:E; [by apply is_char_true in E|].
    cbn [andb]. by rewrite IH.
Qed.

(** The match is the last dot together with what follows it. *)
Lemma replace_first_fileExt_last repl stem ext :
  ch "." ∉ ext ->
  replace_first fileExtRegex repl (stem ++ ch "." :: ext)
  = stem ++ repl (ch "." :: ext).
Proof.
  intros Hext. induction stem as [|c stem IH].
  - cbn [app replace_first]. rewrite match_here_fileExt, is_char_ch.
    apply not_char_forallb in Hext. rewrite Hext. cbn [andb].
    by rewrite app_nil_r.
  - cbn [app replace_first]. rewrite match_here_fileExt.
    replace (forallb (not_char ".") (stem ++ ch "." :: ext)) with false.
    + rewrite andb_false_r. by rewrite IH.
    + symmetry. apply not_true_is_false. intros H%not_char_forallb.
      apply H. apply elem_of_app. right. left.
Qed.

Lemma strip_ext_last stem ext :
  ch "." ∉ ext -> strip_ext (stem ++ ch "." :: ext) = stem.
Proof.
  intros H. unfold strip_ext. rewrite replace_first_fileExt_last by done.
  apply app_nil_r.
Qed.

Lemma strip_ext_none s : ch "." ∉ s -> strip_ext s = s.
Proof. apply replace_first_fileExt_none. Qed.

Lemma insert_placeholder_last stem ext :
  ch "." ∉ ext ->
  insert_placeholder (stem ++ ch "." :: ext)
  = stem ++ lit "{_###}" ++ ch "." :: ext.
Proof.
  intros H. unfold insert_placeholder.
  by rewrite replace_first_fileExt_last.
Qed.

(** Every string splits at its last dot, or has none. *)
Lemma last_dot_split (s : list N) :
  ch "." ∉ s \/ exists stem ext, s = stem ++ ch "." :: ext /\ ch "." ∉ ext.
Proof.
  induction s as [|c s IH].
  - left. inversion 1.
  - destruct IH as [Hno|(stem & ext & -> & Hext)].
    + destruct (decide (c = ch ".")) as [->|Hc].
      * right. exists [], s. done.
      * left. apply not_elem_of_cons. done.
    + right. exists (c :: stem), ext. done.
Qed.

(** *** Global replacement *)

Lemma replace_all_from_skip r repl n s :
  n <= length s ->
  replace_all_from r repl n s = replace_all_from r repl 0 (drop n s).
Proof.
  revert s. induction n as [|n IH]; intros s Hn; [done|].
  destruct s as [|c s]; simpl in *; [lia|]. apply IH. lia.
Qed.

(** What a global replacement leaves or inserts satisfies [P] when the
    replacement texts do and when every code unit at which no match starts
    does. *)
Lemma replace_all_from_Forall (P : N -> Prop) r repl :
  (forall m, Forall P (repl m)) ->
  (forall c s, match match_here r (c :: s) with
               | None => P c
               | Some (m, _) => m = [] -> P c
               end) ->
  forall s skip, Forall P (replace_all_from r repl skip s).
Proof.
  intros Hrepl Hkeep s. induction s as [|c s IH]; intros skip.
  - destruct skip; simpl; [|constructor].
    destruct (match_here r []) as [[m ?]|]; [apply Hrepl|constructor].
  - destruct skip; simpl; [|apply IH].
    specialize (Hkeep c s).
    destruct (match_here r (c :: s)) as [[m rest]|].
    + apply Forall_app. split; [apply Hrepl|].
      destruct m; simpl; [|apply IH].
      constructor; [by apply Hkeep|apply IH].
    + constructor; [done|apply IH].
Qed.

(** *** The pattern of commas and white space *)

Lemma match_here_commaSpace s :
  match_here commaSpaceRegex s =
  match s with
  | c :: s' =>
      if is_char "," c || is_space c
      then Some (c :: take (span is_space s') s', drop (span is_space s') s')
      else None
  | [] => None
  end.
Proof.
  assert (Hstar : forall s', rmatch (Star true (Cls is_space)) s' Some
                             = Some (drop (span is_space s') s')).
  { intros s'. by apply rmatch_star_greedy_cls. }
  assert (Hlen : forall c s',
    take (length (c :: s') - length (drop (span is_space s') s')) (c :: s')
    = c :: take (span is_space s') s').
  { intros c s'. rewrite length_drop. pose proof (span_le is_space s').
    cbn [length].
    replace (S (length s') - (length s' - span is_space s'))
      with (S (span is_space s')) by lia.
    done. }
  unfold match_here, commaSpaceRegex, Plus.
  rewrite !rmatch_alt, !rmatch_seq, !rmatch_cls.
  destruct s as [|c s']; [done|].
  destruct (is_char "," c) eqn:Hcomma; cbn [orb].
  - rewrite Hstar. cbn [or_else]. by rewrite Hlen.
  - cbn [or_else]. destruct (is_space c); [|done].
    rewrite Hstar. by rewrite Hlen.
Qed.

(** A code unit that is neither a comma nor white space stays. *)
Lemma commaSpace_keep c s :
  is_char "," c = false -> is_space c = false ->
  replace_all commaSpaceRegex (fun _ => lit "_") (c :: s)
  = c :: replace_all commaSpaceRegex (fun _ => lit "_") s.
Proof.
  intros H1 H2. unfold replace_all. cbn [replace_all_from].
  by rewrite match_here_commaSpace, H1, H2.
Qed.

(** A comma or a white-space unit is replaced, together with the whole run
    of white space after it, by one underscore. *)
Lemma commaSpace_collapse c s :
  is_char "," c || is_space c = true ->
  replace_all commaSpaceRegex (fun _ => lit "_") (c :: s)
  = ch "_" :: replace_all commaSpaceRegex (fun _ => lit "_")
                  (drop (span is_space s) s).
Proof.
  intros H. unfold replace_all. cbn [replace_all_from].
  rewrite match_here_commaSpace, H. cbn [length].
  rewrite length_take_le by apply span_le.
  destruct (span is_space s) eqn:E; [done|].
  rewrite <- E. rewrite replace_all_from_skip by apply span_le. done.
Qed.

Lemma commaSpace_clean s :
  Forall (fun c => c <> ch "," /\ is_space c = false)
         (replace_all commaSpaceRegex (fun _ => lit "_") s).
Proof.
  apply replace_all_from_Forall.
  - intros _. repeat constructor; by vm_compute.
  - intros c s'. rewrite match_here_commaSpace.
    destruct (is_char "," c) eqn:H1; cbn [orb]; [done|].
    destruct (is_space c) eqn:H2; [done|].
    split; [|done]. intros ->. by rewrite is_char_ch in H1.
Qed.

(** *** Slashes and colons *)

Lemma match_here_slash s :
  match_here slashRegex s =
  match s with
  | c :: s' => if is_slash c then Some ([c], s') else None
  | [] => None
  end.
Proof.
  unfold match_here, slashRegex, is_slash.
  rewrite rmatch_alt, !rmatch_cls. destruct s as [|c s']; [done|].
  assert (take (length (c :: s') - length s') (c :: s') = [c]) as Ht.
  { cbn [length]. replace (S (length s') - length s') with 1 by lia. done. }
  destruct (is_char "\" c); cbn [or_else orb]; [by rewrite Ht|].
  destruct (is_char "/" c); [by rewrite Ht|done].
Qed.

Lemma match_here_colon s :
  match_here colonRegex s =
  match s with
  | c :: s' => if is_char ":" c then Some ([c], s') else None
  | [] => None
  end.
Proof.
  unfold match_here, colonRegex. rewrite rmatch_cls.
  destruct s as [|c s']; [done|].
  destruct (is_char ":" c); [|done].
  cbn [length]. replace (S (length s') - length s') with 1 by lia. done.
Qed.

(** The second replacement turns every slash and backslash into a hyphen. *)
Lemma replace_all_slash s :
  replace_all slashRegex (fun _ => lit "-") s
  = (fun c => if is_slash c then ch "-" else c) <$> s.
Proof.
  unfold replace_all. induction s as [|c s IH]; [done|].
  cbn [replace_all_from]. rewrite match_here_slash, fmap_cons.
  destruct (is_slash c); cbv beta; cbn [length]; by rewrite IH.
Qed.

(** The third replacement deletes every colon. *)
Lemma replace_all_colon s :
  replace_all colonRegex (fun _ => lit "") s
  = List.filter (fun c => negb (is_char ":" c)) s.
Proof.
  unfold replace_all. induction s as [|c s IH]; [done|].
  cbn [replace_all_from List.filter]. rewrite match_here_colon.
  destruct (is_char ":" c); cbv beta; cbn [length negb]; by rewrite IH.
Qed.

(** ** File names *)

Section FileNames.
Context {E : Externals}.

Lemma sanitize_eq s :
  sanitize s
  = List.filter (fun c => negb (is_char ":" c))
      ((fun c => if is_slash c then ch "-" else c)
         <$> replace_all commaSpaceRegex (fun _ => lit "_") s).
Proof. unfold sanitize. by rewrite replace_all_colon, replace_all_slash. Qed.

Lemma sanitize_clean s :
  Forall (fun c => c <> ch "," /\ is_space c = false /\ c <> ch "/"
                   /\ c <> ch "\" /\ c <> ch ":")
         (sanitize s).
Proof.
  rewrite sanitize_eq. apply Forall_forall. intros c Hc.
  apply list_elem_of_In, filter_In in Hc as [Hc Hcolon].
  apply list_elem_of_In, list_elem_of_fmap in Hc as (c0 & -> & Hc0).
  pose proof (commaSpace_clean s) as Hclean.
  rewrite Forall_forall in Hclean. destruct (Hclean _ Hc0) as [Hcomma Hsp].
  apply negb_true_iff in Hcolon.
  assert (forall a x, is_char a x = false -> x <> ch a) as Hne.
  { intros a x H ->. by rewrite is_char_ch in H. }
  unfold is_slash in *.
  destruct (is_char "\" c0) eqn:Hb; cbn [orb] in *.
  { repeat split; by vm_compute. }
  destruct (is_char "/" c0) eqn:Hf.
  { repeat split; by vm_compute. }
  repeat split; auto.
Qed.

Lemma getTimestampFormat_default timestamp :
  timestamp = JStr (lit "") \/ timestamp = JStr (lit "true")
  \/ timestamp = JBool true ->
  getTimestampFormat timestamp = JStr (lit "isoDateTime").
Proof. by intros [-> | [-> | ->]]. Qed.

Lemma getFilename_ts_off timestamp w :
  timestamp = JBool false \/ timestamp = JStr (lit "false") ->
  getFilename_ts timestamp w = (w, Ok []).
Proof. by intros [-> | ->]. Qed.

Lemma getFilename_ts_on timestamp w :
  timestamp <> JBool false -> timestamp <> JStr (lit "false") ->
  getFilename_ts timestamp w
  = (fst (new_Date w),
     Ok (sanitize (lit "_" ++ dateFormat (now w) (getTimestampFormat timestamp)))).
Proof.
  intros H1 H2. unfold getFilename_ts, strict_eq.
  rewrite !bool_decide_eq_false_2 by done. done.
Qed.

Lemma getFilename_ts_total timestamp w :
  exists w' ts, getFilename_ts timestamp w = (w', Ok ts).
Proof.
  destruct (decide (timestamp = JBool false)) as [->|H1]; [by eexists _, _|].
  destruct (decide (timestamp = JStr (lit "false"))) as [->|H2];
    [by eexists _, _|].
  rewrite getFilename_ts_on by done. by eexists _, _.
Qed.

Lemma getFilename_unfold o w w' ts :
  getFilename_ts (timestamp o) w = (w', Ok ts) ->
  getFilename o w
  = (w', Ok (path_resolve cwd (reportDir o)
               (strip_ext (default (lit "mochawesome") (reportFilename o)) ++ ts))).
Proof. intros H. unfold getFilename, bind. by rewrite H. Qed.

(** C2: with the timestamp option [false] or ["false"] the base file name is
    exactly [path.resolve(cwd, reportDir, name)], where [name] is
    [reportFilename] (or its default) cut at its last dot: nothing is read
    from the clock, no suffix and no extension is appended. *)
Theorem getFilename_without_timestamp (o : options) (w : world) :
  timestamp o = JBool false \/ timestamp o = JStr (lit "false") ->
  let name := default (lit "mochawesome") (reportFilename o) in
  getFilename o w = (w, Ok (path_resolve cwd (reportDir o) (strip_ext name)))
  /\ (forall stem ext, name = stem ++ ch "." :: ext -> ch "." ∉ ext ->
        strip_ext name = stem)
  /\ (ch "." ∉ name -> strip_ext name = name).
Proof.
  intros Hts name. split; [|split].
  - rewrite (getFilename_unfold o w w []) by by apply getFilename_ts_off.
    by rewrite app_nil_r.
  - intros stem ext -> Hext. by apply strip_ext_last.
  - apply strip_ext_none.
Qed.

Lemma sanitize_collapse c s :
  is_char "," c || is_space c = true ->
  sanitize (c :: s) = ch "_" :: sanitize (drop (span is_space s) s).
Proof.
  intros H. rewrite !sanitize_eq, commaSpace_collapse by done. reflexivity.
Qed.

Lemma sanitize_keep c s :
  is_char "," c = false -> is_space c = false ->
  sanitize (c :: s)
  = (if is_slash c then [ch "-"] else if is_char ":" c then [] else [c])
    ++ sanitize s.
Proof.
  intros H1 H2. rewrite !sanitize_eq, commaSpace_keep by done.
  cbn [fmap list_fmap List.filter].
  destruct (is_slash c); [reflexivity|]. by destruct (is_char ":" c).
Qed.

Lemma is_slash_plain c :
  is_slash c = true ->
  is_char "," c = false /\ is_space c = false /\ is_char ":" c = false.
Proof.
  unfold is_slash. intros [->%is_char_true | ->%is_char_true]%orb_true_iff;
    by vm_compute.
Qed.

Lemma is_colon_plain c :
  is_char ":" c = true ->
  is_char "," c = false /\ is_space c = false /\ is_slash c = false.
Proof. intros ->%is_char_true. by vm_compute. Qed.

(** C3: for every date and every timestamp option other than [false] and
    ["false"], the suffix is the sanitized text of an underscore and the
    formatted date, the format being [isoDateTime] for [""], ["true"] and
    [true]; it holds no comma, no white space (so no space), no slash, no
    backslash and no colon.  The sanitizing goes through the text from the
    left: a comma, or a white-space unit, together with all the white space
    that follows it becomes one underscore; a slash or a backslash becomes
    a hyphen; a colon is dropped; every other unit is kept.  So a comma
    with the spaces after it, and a run of white space, become a single
    underscore, while every further comma starts a match of its own: two
    commas in a row, or a space before a comma, give two underscores. *)
Theorem timestamp_suffix_sanitized (timestamp : jsval) (w : world) :
  timestamp <> JBool false -> timestamp <> JStr (lit "false") ->
  let text := lit "_" ++ dateFormat (now w) (getTimestampFormat timestamp) in
  (exists w', getFilename_ts timestamp w = (w', Ok (sanitize text)))
  /\ Forall (fun c => c <> ch "," /\ is_space c = false /\ c <> ch "/"
                      /\ c <> ch "\" /\ c <> ch ":") (sanitize text)
  /\ is_space (ch " ") = true
  /\ (timestamp = JStr (lit "") \/ timestamp = JStr (lit "true")
      \/ timestamp = JBool true ->
      getTimestampFormat timestamp = JStr (lit "isoDateTime"))
  /\ sanitize text
     = List.filter (fun c => negb (is_char ":" c))
         ((fun c => if is_slash c then ch "-" else c)
            <$> replace_all commaSpaceRegex (fun _ => lit "_") text)
  /\ (forall c s, is_char "," c || is_space c = true ->
        replace_all commaSpaceRegex (fun _ => lit "_") (c :: s)
        = ch "_" :: replace_all commaSpaceRegex (fun _ => lit "_")
                      (drop (span is_space s) s))
  /\ (forall c s, is_char "," c = false -> is_space c = false ->
        replace_all commaSpaceRegex (fun _ => lit "_") (c :: s)
        = c :: replace_all commaSpaceRegex (fun _ => lit "_") s)
  /\ sanitize [] = []
  /\ (forall c s, is_char "," c || is_space c = true ->
        sanitize (c :: s) = ch "_" :: sanitize (drop (span is_space s) s))
  /\ (forall c s, is_slash c = true -> sanitize (c :: s) = ch "-" :: sanitize s)
  /\ (forall c s, is_char ":" c = true -> sanitize (c :: s) = sanitize s)
  /\ (forall c s, is_char "," c = false -> is_space c = false ->
        is_slash c = false -> is_char ":" c = false ->
        sanitize (c :: s) = c :: sanitize s)
  /\ (forall s, sanitize (lit ",," ++ s)
                = lit "__" ++ sanitize (drop (span is_space s) s))
  /\ (forall s, sanitize (lit " ," ++ s)
                = lit "__" ++ sanitize (drop (span is_space s) s)).
Proof.
  intros H1 H2 text. repeat split.
  - rewrite getFilename_ts_on by done. by eexists.
  - apply sanitize_clean.
  - apply getTimestampFormat_default.
  - apply sanitize_eq.
  - apply commaSpace_collapse.
  - apply commaSpace_keep.
  - apply sanitize_collapse.
  - intros c s Hc. destruct (is_slash_plain c Hc) as (Hcomma & Hsp & _).
    by rewrite sanitize_keep, Hc.
  - intros c s Hc. destruct (is_colon_plain c Hc) as (Hcomma & Hsp & Hsl).
    by rewrite sanitize_keep, Hsl, Hc.
  - intros c s Hcomma Hsp Hsl Hcol. by rewrite sanitize_keep, Hsl, Hcol.
  - intros s. change (lit ",," ++ s) with (ch "," :: ch "," :: s).
    rewrite sanitize_collapse by reflexivity. cbn [span is_space drop].
    change (is_space (ch ",")) with false. cbn [drop].
    by rewrite sanitize_collapse by reflexivity.
  - intros s. change (lit " ," ++ s) with (ch " " :: ch "," :: s).
    rewrite sanitize_collapse by reflexivity. cbn [span is_space drop].
    change (is_space (ch ",")) with false. cbn [drop].
    by rewrite sanitize_collapse by reflexivity.
Qed.

(** C10: the file name is built from [reportFilename] cut at its last dot,
    whatever follows that dot: a name [stem.ext] whose [ext] has no dot
    contributes [stem], a name without dot contributes itself; so
    [report.v2] contributes [report]. *)
Theorem getFilename_strips_last_dot_segment (o : options) (w : world)
    (name : list N) :
  reportFilename o = Some name ->
  exists w' ts,
    getFilename_ts (timestamp o) w = (w', Ok ts)
    /\ (forall stem ext, name = stem ++ ch "." :: ext -> ch "." ∉ ext ->
          getFilename o w
          = (w', Ok (path_resolve cwd (reportDir o) (stem ++ ts))))
    /\ (ch "." ∉ name ->
          getFilename o w
          = (w', Ok (path_resolve cwd (reportDir o) (name ++ ts))))
    /\ strip_ext (lit "report.v2") = lit "report".
Proof.
  intros Hname. destruct (getFilename_ts_total (timestamp o) w) as (w' & ts & Hts).
  exists w', ts. split; [done|]. rewrite (getFilename_unfold o w w' ts Hts).
  rewrite Hname. cbn [from_option id]. repeat split.
  - intros stem ext -> Hext. by rewrite strip_ext_last.
  - intros Hno. by rewrite strip_ext_none.
Qed.

End FileNames.

(** ** The version pattern *)

Lemma rmatch_plus_digits (k : cont) s :
  (forall c s', is_digit c = true -> k (c :: s') = None) ->
  rmatch (Plus true (Cls is_digit)) s k = digits_then s ≫= k.
Proof.
  intros Hk. unfold Plus. rewrite rmatch_seq, rmatch_cls.
  destruct s as [|c s]; [done|]. cbn [digits_then].
  destruct (is_digit c); [|done].
  rewrite rmatch_star_greedy_cls; [done|]. intros; by apply Hk.
Qed.

Lemma rmatch_plus_digits_end s :
  rmatch (Plus true (Cls is_digit)) s Some = digits_then s.
Proof.
  unfold Plus. rewrite rmatch_seq, rmatch_cls.
  destruct s as [|c s]; [done|]. cbn [digits_then].
  destruct (is_digit c); [|done].
  by rewrite rmatch_star_greedy_cls.
Qed.

Lemma digit_not_dot c : is_digit c = true -> is_char "." c = false.
Proof.
  unfold is_digit, is_char. intros [H1 H2]%andb_true_iff.
  apply N.leb_le in H1. apply N.eqb_neq. intros ->. by vm_compute in H1.
Qed.

Lemma rmatch_version s : rmatch versionRegex s Some = version_rest s.
Proof.
  unfold versionRegex, version_rest.
  assert (Hdot : forall X (k : cont) c s', is_digit c = true ->
                   rmatch (Seq (Cls (is_char ".")) X) (c :: s') k = None).
  { intros X k c s' Hc. rewrite rmatch_seq, rmatch_cls.
    by rewrite digit_not_dot. }
  rewrite rmatch_seq, rmatch_plus_digits by (intros; by apply Hdot).
  destruct (digits_then s) as [s1|]; [|done]. cbn [mbind option_bind].
  rewrite rmatch_seq, rmatch_cls. destruct s1 as [|c1 s2]; [done|].
  cbn [dot_then]. destruct (is_char "." c1); [|done]. cbn [mbind option_bind].
  rewrite rmatch_seq, rmatch_plus_digits by (intros; by apply Hdot).
  destruct (digits_then s2) as [s3|]; [|done]. cbn [mbind option_bind].
  rewrite rmatch_seq, rmatch_cls. destruct s3 as [|c3 s4]; [done|].
  cbn [dot_then]. destruct (is_char "." c3); [|done]. cbn [mbind option_bind].
  apply rmatch_plus_digits_end.
Qed.

Lemma digits_then_Some s r :
  digits_then s = Some r ->
  exists a, s = a ++ r /\ a <> [] /\ forallb is_digit a = true
            /\ span is_digit r = 0.
Proof.
  destruct s as [|c s]; [done|]. cbn [digits_then].
  destruct (is_digit c) eqn:Hc; [|done]. intros [= <-].
  exists (c :: take (span is_digit s) s). repeat split.
  - cbn [app]. by rewrite take_drop.
  - done.
  - cbn [forallb]. by rewrite Hc, forallb_take_span.
  - apply span_drop_span.
Qed.

Lemma dot_then_Some s r : dot_then s = Some r -> s = ch "." :: r.
Proof.
  destruct s as [|c s]; [done|]. cbn [dot_then].
  destruct (is_char "." c) eqn:Hc; [|done].
  apply is_char_true in Hc as ->. by intros [= ->].
Qed.

(** What the pattern matches at the start of [s] is a version. *)
Lemma version_rest_Some s r :
  version_rest s = Some r ->
  exists v, s = v ++ r /\ is_version v /\ span is_digit r = 0.
Proof.
  unfold version_rest. intros H.
  destruct (digits_then s) as [s1|] eqn:H1; [|done]. cbn in H.
  destruct (dot_then s1) as [s2|] eqn:H2; [|done]. cbn in H.
  destruct (digits_then s2) as [s3|] eqn:H3; [|done]. cbn in H.
  destruct (dot_then s3) as [s4|] eqn:H4; [|done]. cbn in H.
  apply digits_then_Some in H1 as (a & -> & Ha & Hda & _).
  apply dot_then_Some in H2 as ->.
  apply digits_then_Some in H3 as (b & -> & Hb & Hdb & _).
  apply dot_then_Some in H4 as ->.
  apply digits_then_Some in H as (c & -> & Hc & Hdc & Hr).
  exists (a ++ ch "." :: b ++ ch "." :: c). split; [|split; [|done]].
  - by rewrite <- !app_assoc, <- !app_comm_cons, <- !app_assoc.
  - by exists a, b, c.
Qed.

Lemma is_digit_dot : is_digit (ch ".") = false.
Proof. done. Qed.

Lemma digits_then_run a c rest :
  a <> [] -> forallb is_digit a = true -> is_digit c = false ->
  digits_then (a ++ c :: rest) = Some (c :: rest).
Proof.
  intros Ha Hd Hc. destruct a as [|x a]; [done|].
  cbn [forallb] in Hd. apply andb_true_iff in Hd as [Hx Hd].
  cbn [app digits_then]. rewrite Hx, span_app_stop by done.
  by rewrite drop_app_length.
Qed.

(** Where a version starts, the pattern matches. *)
Lemma version_rest_occurrence v post :
  is_version v -> is_Some (version_rest (v ++ post)).
Proof.
  intros (a & b & c & -> & Ha & Hb & Hc & Hda & Hdb & Hdc).
  unfold version_rest.
  rewrite <- !app_assoc, <- !app_comm_cons, <- !app_assoc, <- app_comm_cons.
  rewrite digits_then_run by done. cbn. rewrite is_char_ch. cbn.
  rewrite digits_then_run by done. cbn. rewrite is_char_ch. cbn.
  destruct c as [|x c]; [done|]. cbn [forallb] in Hdc.
  apply andb_true_iff in Hdc as [Hx _]. cbn [app digits_then].
  rewrite Hx. done.
Qed.

(** *** The leftmost match *)

Lemma regex_exec_None r s :
  regex_exec r s = None <->
  forall pre rest, s = pre ++ rest -> match_here r rest = None.
Proof.
  induction s as [|c s IH]; cbn [regex_exec].
  - split.
    + intros H pre rest Hs. symmetry in Hs.
      apply app_eq_nil in Hs as [_ ->].
      by destruct (match_here r []) as [[]|].
    + intros H. by rewrite (H [] []).
  - split.
    + intros H pre rest Hs.
      destruct (match_here r (c :: s)) as [[]|] eqn:Hm; [done|].
      destruct pre as [|x pre]; cbn [app] in Hs; [by subst|].
      injection Hs as -> Hs. by apply (proj1 IH H pre).
    + intros H. rewrite (H [] (c :: s)) by done.
      apply IH. intros pre rest ->. by apply (H (c :: pre)).
Qed.

Lemma regex_exec_Some r s m :
  regex_exec r s = Some m ->
  exists pre rest post,
    s = pre ++ rest /\ match_here r rest = Some (m, post)
    /\ forall pre' rest', s = pre' ++ rest' -> length pre' < length pre ->
         match_here r rest' = None.
Proof.
  induction s as [|c s IH]; cbn [regex_exec].
  - destruct (match_here r []) as [[m' post]|] eqn:Hm; [|done].
    intros [= ->]. exists [], [], post. repeat split; [done|].
    intros ? ? _ Hlt. simpl in Hlt. lia.
  - destruct (match_here r (c :: s)) as [[m' post]|] eqn:Hm.
    + intros [= ->]. exists [], (c :: s), post. repeat split; [done|].
      intros ? ? _ Hlt. simpl in Hlt. lia.
    + intros H. destruct (IH H) as (pre & rest & post & -> & Hrest & Hleft).
      exists (c :: pre), rest, post. repeat split; [done|].
      intros pre' rest' Hs Hlt. destruct pre' as [|x pre'].
      * cbn [app] in Hs. by subst.
      * cbn [app] in Hs. injection Hs as -> Hs.
        apply (Hleft pre'); [done|]. simpl in Hlt. lia.
Qed.

Lemma match_here_version s :
  match_here versionRegex s =
  match version_rest s with
  | Some rest => Some (take (length s - length rest) s, rest)
  | None => None
  end.
Proof. unfold match_here. by rewrite rmatch_version. Qed.

Lemma match_here_version_Some s m post :
  match_here versionRegex s = Some (m, post) ->
  s = m ++ post /\ is_version m /\ span is_digit post = 0.
Proof.
  rewrite match_here_version.
  destruct (version_rest s) as [rest|] eqn:Hv; [|done].
  apply version_rest_Some in Hv as (v & -> & Hv & Hsp).
  intros [= <- <-]. rewrite length_app.
  replace (length v + length rest - length rest) with (length v) by lia.
  by rewrite take_app_length.
Qed.

Lemma span_prefix_le p (x y : list N) :
  forallb p x = true -> length x <= span p (x ++ y).
Proof.
  induction x as [|c x IH]; simpl; [lia|].
  intros [-> H]%andb_true_iff. specialize (IH H). lia.
Qed.

Lemma span_app_all p (x y : list N) :
  forallb p x = true -> span p (x ++ y) = length x + span p y.
Proof.
  induction x as [|c x IH]; simpl; [done|].
  intros [-> H]%andb_true_iff. by rewrite IH.
Qed.

(** Two versions at the same place agree up to their last run of digits. *)
Lemma version_same_start v post v' post' :
  is_version v -> is_version v' -> v ++ post = v' ++ post' ->
  span is_digit post = 0 -> length v' <= length v.
Proof.
  intros (a & b & c & -> & Ha & Hb & Hc & Hda & Hdb & Hdc).
  intros (a' & b' & c' & -> & Ha' & Hb' & Hc' & Hda' & Hdb' & Hdc').
  intros Heq Hpost.
  rewrite <- !app_assoc, <- !app_comm_cons, <- !app_assoc, <- !app_comm_cons
    in Heq.
  assert (b ++ ch "." :: c ++ post = b' ++ ch "." :: c' ++ post') as H1.
  { pose proof (digits_then_run a (ch ".")
                  (b ++ ch "." :: c ++ post) Ha Hda is_digit_dot) as H.
    rewrite Heq in H.
    rewrite (digits_then_run a' (ch ".") _ Ha' Hda' is_digit_dot) in H.
    congruence. }
  assert (c ++ post = c' ++ post') as H2.
  { pose proof (digits_then_run b (ch ".") (c ++ post) Hb Hdb is_digit_dot)
      as H.
    rewrite H1 in H.
    rewrite (digits_then_run b' (ch ".") _ Hb' Hdb' is_digit_dot) in H.
    congruence. }
  assert (length c' <= length c).
  { pose proof (span_prefix_le is_digit c' post' Hdc') as Hle.
    rewrite <- H2, span_app_all, Hpost in Hle by done. lia. }
  apply (f_equal length) in Heq, H1, H2.
  repeat (rewrite length_app in Heq || cbn [length] in Heq).
  repeat (rewrite length_app in H1 || cbn [length] in H1).
  repeat (rewrite length_app in H2 || cbn [length] in H2).
  repeat (rewrite length_app || cbn [length]).
  lia.
Qed.

(** [versionRegex.exec] fails exactly on the texts without a version, and
    otherwise yields the first version of the text. *)
Lemma exec_version_None s :
  regex_exec versionRegex s = None <-> ~ occurs is_version s.
Proof.
  rewrite regex_exec_None. split.
  - intros H (pre & v & post & -> & Hv).
    specialize (H pre (v ++ post) eq_refl).
    rewrite match_here_version in H.
    destruct (version_rest_occurrence v post Hv) as [r Hr].
    by rewrite Hr in H.
  - intros H pre rest ->.
    destruct (match_here versionRegex rest) as [[m post]|] eqn:Hm; [|done].
    apply match_here_version_Some in Hm as (-> & Hv & _).
    exfalso. apply H. by exists pre, m, post.
Qed.

Lemma exec_version_Some s v :
  regex_exec versionRegex s = Some v -> first_occurrence is_version s v.
Proof.
  intros (pre & rest & post & -> & Hm & Hleft)%regex_exec_Some.
  apply match_here_version_Some in Hm as (-> & Hv & Hpost).
  exists pre, post. split; [done|].
  intros pre' v' post' [Hs Hv'].
  assert (length pre <= length pre') as Hle.
  { destruct (decide (length pre' < length pre)) as [Hlt|]; [|lia].
    specialize (Hleft pre' (v' ++ post') Hs Hlt).
    rewrite match_here_version in Hleft.
    destruct (version_rest_occurrence v' post' Hv') as [r Hr].
    by rewrite Hr in Hleft. }
  split; [done|]. intros Hsame.
  apply app_inj_1 in Hs as [_ Hs]; [|done].
  by apply (version_same_start v post v' post').
Qed.

Lemma first_occurrence_unique P s v v' :
  first_occurrence P s v -> first_occurrence P s v' -> v = v'.
Proof.
  intros (pre & post & [Hs Hv] & Hmin) (pre' & post' & [Hs' Hv'] & Hmin').
  destruct (Hmin pre' v' post') as [H1 H2]; [done|].
  destruct (Hmin' pre v post) as [H1' H2']; [done|].
  assert (length pre = length pre') as Hl by lia.
  rewrite Hs in Hs'. apply app_inj_1 in Hs' as [_ Hs']; [|done].
  assert (length v = length v') as Hlv.
  { specialize (H2 (eq_sym Hl)). specialize (H2' Hl). lia. }
  by apply app_inj_1 in Hs' as [? _].
Qed.

Lemma exec_version_first s v :
  regex_exec versionRegex s = Some v <-> first_occurrence is_version s v.
Proof.
  split; [apply exec_version_Some|]. intros H.
  destruct (regex_exec versionRegex s) as [v'|] eqn:He.
  - f_equal. apply exec_version_Some in He.
    by apply (first_occurrence_unique is_version s).
  - apply exec_version_None in He. exfalso. apply He.
    destruct H as (pre & post & Hocc & _). by exists pre, v, post.
Qed.

(** ** Literal words *)

Lemma strip_prefix_Some d p r : strip_prefix d p = Some r <-> p = d ++ r.
Proof.
  revert p. induction d as [|a d IH]; intros p; cbn [strip_prefix app].
  - split; congruence.
  - destruct p as [|b p]; [split; congruence|].
    destruct (a =? b)%N eqn:Hab.
    + apply N.eqb_eq in Hab as ->. rewrite IH. split; congruence.
    + apply N.eqb_neq in Hab. split; congruence.
Qed.

Lemma strip_prefix_None d p :
  strip_prefix d p = None <-> forall r, p <> d ++ r.
Proof.
  split.
  - intros H r Hr. apply strip_prefix_Some in Hr. congruence.
  - intros H. destruct (strip_prefix d p) as [r|] eqn:Hs; [|done].
    apply strip_prefix_Some in Hs. by destruct (H r).
Qed.

Lemma rmatch_word x s (k : cont) :
  rmatch (word_re x) s k = strip_prefix x s ≫= k.
Proof.
  revert s. induction x as [|a x IH]; intros s; [done|].
  cbn [word_re]. rewrite rmatch_seq, rmatch_cls.
  destruct s as [|b s]; [done|]. cbn [strip_prefix].
  rewrite (N.eqb_sym a b). destruct (b =? a)%N; [apply IH|done].
Qed.

(** [/word/.test(s)] says whether the word occurs in [s]. *)
Lemma regex_test_word x s :
  regex_test (word_re x) s = true <-> contains x s.
Proof.
  unfold regex_test, contains. split.
  - destruct (regex_exec (word_re x) s) as [m|] eqn:He; [|done]. intros _.
    apply regex_exec_Some in He as (pre & rest & post & -> & Hm & _).
    unfold match_here in Hm. rewrite rmatch_word in Hm.
    destruct (strip_prefix x rest) as [r|] eqn:Hs; [|done].
    apply strip_prefix_Some in Hs as ->. by exists pre, r.
  - intros (pre & post & ->).
    destruct (regex_exec (word_re x) (pre ++ x ++ post)) eqn:He; [done|].
    pose proof (proj1 (regex_exec_None _ _) He pre (x ++ post) eq_refl) as Hm.
    unfold match_here in Hm. rewrite rmatch_word in Hm.
    by rewrite (proj2 (strip_prefix_Some x (x ++ post) post) eq_refl) in Hm.
Qed.

Lemma contains_app_l x a b : contains x a -> contains x (a ++ b).
Proof.
  intros (pre & post & ->). exists pre, (post ++ b).
  by rewrite <- !app_assoc.
Qed.

(** ** Assets *)

Section Assets.
Context {E : Externals}.

Lemma loadFile_Ok p w c :
  loadFile p w = (w, Ok c) <-> files w !! p = Some c.
Proof.
  unfold loadFile, readFileSync. destruct (files w !! p); split; congruence.
Qed.

Lemma loadFile_Err p w :
  (exists e, loadFile p w = (w, Err e)) <-> files w !! p = None.
Proof.
  unfold loadFile, readFileSync. destruct (files w !! p); split.
  - by intros [? ?].
  - done.
  - done.
  - intros _. by eexists.
Qed.

Lemma shouldCopyAssets_unfold assetsDir w :
  _shouldCopyAssets assetsDir w =
  (w, Ok (if taken w assetsDir then
            match files w !! path_join assetsDir (lit "app.css") with
            | Some c =>
                match regex_exec versionRegex c with
                | Some v => negb (bool_decide (v = pkg_version))
                | None => true
                end
            | None => true
            end
          else true)).
Proof.
  unfold _shouldCopyAssets, bind, existsSync, catch, loadFile, readFileSync.
  destruct (taken w assetsDir); cbn [negb]; [|done].
  destruct (files w !! _) as [c|]; [|done].
  destruct (regex_exec versionRegex c) as [v|]; [|done].
  by destruct (bool_decide (v = pkg_version)).
Qed.

Lemma shouldCopyAssets_pure assetsDir w :
  exists b, _shouldCopyAssets assetsDir w = (w, Ok b).
Proof. eexists. apply shouldCopyAssets_unfold. Qed.

(** C4: [_shouldCopyAssets] never throws and leaves the world as it is; it
    answers [true] exactly when the directory does not exist, or reading
    [app.css] inside it fails, or its content holds no version
    ([\d+\.\d+\.\d+]), or the first version in it differs from
    [pkg.version]; it answers [false] exactly when the directory exists, the
    file is read and its first version is [pkg.version]. *)
Theorem shouldCopyAssets_cases (assetsDir : list N) (w : world) :
  let css := path_join assetsDir (lit "app.css") in
  exists b,
    _shouldCopyAssets assetsDir w = (w, Ok b)
    /\ (b = true <->
          taken w assetsDir = false
          \/ (exists e, loadFile css w = (w, Err e))
          \/ (exists c, loadFile css w = (w, Ok c) /\ ~ occurs is_version c)
          \/ (exists c v, loadFile css w = (w, Ok c)
                          /\ first_occurrence is_version c v
                          /\ v <> pkg_version))
    /\ (b = false <->
          taken w assetsDir = true
          /\ exists c, loadFile css w = (w, Ok c)
                       /\ first_occurrence is_version c pkg_version).
Proof.
  intros css. eexists. split; [apply shouldCopyAssets_unfold|].
  fold css. setoid_rewrite loadFile_Ok. rewrite loadFile_Err.
  destruct (taken w assetsDir) eqn:Hdir.
  2: { split; [by split; [left|]|]. split; [done|]. by intros [? _]. }
  destruct (files w !! css) as [c|] eqn:Hcss.
  2: { split; [by split; [right; left|]|]. split; [done|].
       by intros [_ (c & ? & _)]. }
  destruct (regex_exec versionRegex c) as [v|] eqn:Hexec.
  - pose proof (proj1 (exec_version_first c v) Hexec) as Hfirst.
    destruct (decide (v = pkg_version)) as [Hv|Hv].
    + rewrite bool_decide_eq_true_2 by done. cbn [negb]. split.
      * split; [done|]. intros [?|[?|[(c' & [= <-] & Hno)|(c' & v' & [= <-] & Hf & Hne)]]];
          try done.
        -- exfalso. apply Hno. destruct Hfirst as (pre & post & Hocc & _).
           by exists pre, v, post.
        -- exfalso. apply Hne. rewrite <- Hv.
           by apply (first_occurrence_unique is_version c).
      * split; [|done]. intros _. split; [done|]. exists c. by rewrite <- Hv.
    + rewrite bool_decide_eq_false_2 by done. cbn [negb]. split.
      * split; [|done]. intros _. right. right. right. by exists c, v.
      * split; [done|]. intros [_ (c' & [= <-] & Hf)]. exfalso. apply Hv.
        by apply (first_occurrence_unique is_version c).
  - pose proof (proj1 (exec_version_None c) Hexec) as Hnone. split.
    + split; [|done]. intros _. right. right. left. by exists c.
    + split; [done|]. intros [_ (c' & [= <-] & Hf)]. exfalso. apply Hnone.
      destruct Hf as (pre & post & Hocc & _). by exists pre, pkg_version, post.
Qed.

End Assets.

(** ** The file system *)

Lemma same_outside_fs_refl w : same_outside_fs w w.
Proof. by repeat split. Qed.

Lemma same_outside_fs_trans w1 w2 w3 :
  same_outside_fs w1 w2 -> same_outside_fs w2 w3 -> same_outside_fs w1 w3.
Proof. unfold same_outside_fs. intuition congruence. Qed.

Lemma outputFile_Ok p c w :
  p ∉ denied w ->
  outputFile p c w
  = (set_files (<[p := c]> (files w)) (list_to_set (parents p) ∪ dirs w) w,
     Ok tt).
Proof. intros H. unfold outputFile. by rewrite bool_decide_eq_false_2. Qed.

Lemma outputFile_denied p c w :
  p ∈ denied w -> outputFile p c w = (w, Err EACCES).
Proof. intros H. unfold outputFile. by rewrite bool_decide_eq_true_2. Qed.

Lemma outputFile_inv p c w w' u :
  outputFile p c w = (w', Ok u) ->
  (p ∉ denied w) /\ files w' = <[p := c]> (files w)
  /\ (dirs w ⊆ dirs w') /\ same_outside_fs w w'.
Proof.
  unfold outputFile. case_bool_decide; [done|]. intros [= <- _].
  split; [done|]. split; [done|]. split; [cbn; set_solver|].
  by repeat split.
Qed.

Lemma mkdirs_inv d w w' u :
  mkdirs d w = (w', Ok u) ->
  files w' = files w /\ (dirs w ⊆ dirs w') /\ (d ∈ dirs w')
  /\ same_outside_fs w w'.
Proof.
  unfold mkdirs. case_bool_decide; [done|]. intros [= <- _].
  split; [done|]. split; [cbn; set_solver|]. split; [cbn; set_solver|].
  by repeat split.
Qed.

Lemma mkdirs_Ok d w : d ∉ denied w -> exists w', mkdirs d w = (w', Ok tt).
Proof.
  intros H. unfold mkdirs. rewrite bool_decide_eq_false_2 by done.
  by eexists.
Qed.

Lemma for_each_mkdirs_inv l w w' u :
  for_each mkdirs l w = (w', Ok u) ->
  files w' = files w /\ (dirs w ⊆ dirs w') /\ same_outside_fs w w'.
Proof.
  revert w. induction l as [|d l IH]; intros w; cbn [for_each].
  - intros [= <- _]. by repeat split.
  - unfold bind. destruct (mkdirs d w) as [w1 [[]|e]] eqn:H1; [|done].
    intros H2. apply mkdirs_inv in H1 as (Hf & Hd & _ & Hs).
    apply IH in H2 as (Hf' & Hd' & Hs'). split; [congruence|].
    split; [by transitivity (dirs w1)|]. by apply (same_outside_fs_trans w w1).
Qed.

Lemma for_each_mkdirs_Ok l w :
  denied w = ∅ -> exists w', for_each mkdirs l w = (w', Ok tt).
Proof.
  revert w. induction l as [|d l IH]; intros w Hden; cbn [for_each].
  - by eexists.
  - unfold bind. destruct (mkdirs_Ok d w) as [w1 H1]; [set_solver|].
    rewrite H1. apply IH.
    apply mkdirs_inv in H1 as (_ & _ & _ & Hs). destruct Hs as [-> _]. done.
Qed.

(** Writing a list of files: a path outside the list keeps its content, a
    path of the list holds the content the list gives it. *)
Lemma for_each_outputFile_inv (l : list (list N * list N)) w w' u :
  for_each (fun '(q, c) => outputFile q c) l w = (w', Ok u) ->
  (forall q, q ∉ l.*1 -> files w' !! q = files w !! q)
  /\ (forall q c, (q, c) ∈ l -> (forall c', (q, c') ∈ l -> c' = c) ->
        files w' !! q = Some c)
  /\ (dirs w ⊆ dirs w') /\ same_outside_fs w w'.
Proof.
  revert w. induction l as [|[q0 c0] l IH]; intros w; cbn [for_each].
  - intros [= <- _]. split; [done|]. split; [|by repeat split].
    intros q c Hin. by apply elem_of_nil in Hin.
  - unfold bind. destruct (outputFile q0 c0 w) as [w1 [[]|e]] eqn:H1; [|done].
    intros H2. apply outputFile_inv in H1 as (_ & Hf & Hd & Hs).
    apply IH in H2 as (Hout & Hin & Hd' & Hs').
    split; [|split; [|split; [by transitivity (dirs w1)
                             |by apply (same_outside_fs_trans w w1)]]].
    + intros q Hq. rewrite fmap_cons, not_elem_of_cons in Hq.
      destruct Hq as [Hne Hq]. rewrite (Hout q Hq), Hf.
      by rewrite lookup_insert_ne.
    + intros q c Hqc Hfun.
      destruct (decide (q ∈ l.*1)) as [Hq|Hq].
      * apply list_elem_of_fmap in Hq as ([q' c'] & -> & Hq). cbn in *.
        assert (c' = c) as -> by (apply Hfun; by right).
        apply Hin; [done|]. intros c'' H''. apply Hfun. by right.
      * rewrite (Hout q Hq), Hf.
        apply elem_of_cons in Hqc as [[= -> ->]|Hqc].
        -- by rewrite lookup_insert_eq.
        -- exfalso. apply Hq. apply list_elem_of_fmap. by exists (q, c).
Qed.

Lemma for_each_outputFile_Ok (l : list (list N * list N)) w :
  denied w = ∅ ->
  exists w', for_each (fun '(q, c) => outputFile q c) l w = (w', Ok tt).
Proof.
  revert w. induction l as [|[q0 c0] l IH]; intros w Hden; cbn [for_each].
  - by eexists.
  - unfold bind. rewrite outputFile_Ok by set_solver. apply IH. done.
Qed.

(** ** Copying a directory *)

Lemma child_inj d r r' : child d r = child d r' -> r = r'.
Proof. unfold child. intros H. by apply app_inv_head, app_inv_head in H. Qed.

Lemma rel_under_Some d p r :
  rel_under d p = Some r <-> p = child d r /\ r <> [].
Proof.
  unfold rel_under, child.
  destruct (strip_prefix d p) as [[|c r']|] eqn:Hs.
  - apply strip_prefix_Some in Hs as ->. split; [done|].
    intros [H _]. apply app_inv_head in H. done.
  - apply strip_prefix_Some in Hs as ->.
    destruct (is_char "/" c) eqn:Hc; cbn [andb].
    + apply is_char_true in Hc as ->.
      case_bool_decide as Hr; cbn [negb].
      * subst r'. split; [done|]. intros [H Hne].
        apply app_inv_head in H. injection H as <-. done.
      * split.
        -- by intros [= <-].
        -- intros [H _]. apply app_inv_head in H. by injection H as <-.
    + split; [done|]. intros [H _]. apply app_inv_head in H.
      injection H as -> _. by rewrite is_char_ch in Hc.
  - split; [done|]. intros [-> _].
    by rewrite (proj2 (strip_prefix_Some d _ _) eq_refl) in Hs.
Qed.

Lemma copy_plan_spec (filter : list N -> bool) (src dest : list N)
    (fs : gmap (list N) (list N)) (q c : list N) :
  (q, c) ∈ copy_plan filter src dest fs <->
  exists r, r <> [] /\ fs !! child src r = Some c
            /\ reached filter src r = true /\ q = child dest r.
Proof.
  unfold copy_plan. rewrite list_elem_of_omap. split.
  - intros ([p c0] & Hin & Hf). apply elem_of_map_to_list in Hin.
    destruct (rel_under src p) as [r|] eqn:Hr; [|done].
    destruct (reached filter src r) eqn:Hre; [|done].
    injection Hf as <- <-. apply rel_under_Some in Hr as [-> Hne].
    by exists r.
  - intros (r & Hne & Hc & Hre & ->). exists (child src r, c). split.
    + by apply elem_of_map_to_list.
    + rewrite (proj2 (rel_under_Some src (child src r) r)) by done.
      by rewrite Hre.
Qed.

Lemma copy_plan_functional (filter : list N -> bool) (src dest : list N)
    (fs : gmap (list N) (list N)) (q c c' : list N) :
  (q, c) ∈ copy_plan filter src dest fs ->
  (q, c') ∈ copy_plan filter src dest fs -> c' = c.
Proof.
  intros (r & _ & Hc & _ & ->)%copy_plan_spec.
  intros (r' & _ & Hc' & _ & <-%child_inj)%copy_plan_spec. congruence.
Qed.

Lemma dir_prefixes_prefix acc r d :
  d ∈ dir_prefixes acc r -> exists x y, r = x ++ y /\ d = acc ++ x.
Proof.
  revert acc. induction r as [|c r IH]; intros acc; cbn [dir_prefixes].
  - by intros ?%elem_of_nil.
  - intros [H|H]%elem_of_app.
    + destruct (is_char "/" c); [|by apply elem_of_nil in H].
      apply list_elem_of_singleton in H as ->.
      exists [], (c :: r). by rewrite app_nil_r.
    + apply IH in H as (x & y & -> & ->). exists (c :: x), y.
      by rewrite <- app_assoc.
Qed.

Section Copy.
Context {E : Externals}.

Lemma not_inline_true s :
  not_inline s = true <-> ~ contains (lit "inline") s.
Proof.
  unfold not_inline, inlineRegex. rewrite negb_true_iff.
  rewrite <- regex_test_word. by destruct (regex_test _ s).
Qed.

Lemma not_inline_prefix a b :
  not_inline (a ++ b) = true -> not_inline a = true.
Proof.
  rewrite !not_inline_true. intros H Ha. by apply H, contains_app_l.
Qed.

(** With the filter of [copyAssets], an item is reached exactly when its
    own path passes the filter. *)
Lemma reached_not_inline src r :
  reached not_inline src r = not_inline (child src r).
Proof.
  unfold reached. destruct (not_inline (child src r)) eqn:Hr;
    [|by rewrite andb_false_r].
  rewrite andb_true_r. apply andb_true_iff. split.
  - by apply (not_inline_prefix src (lit "/" ++ r)).
  - apply forallb_forall. intros d Hd%list_elem_of_In.
    apply dir_prefixes_prefix in Hd as (x & y & -> & ->).
    apply (not_inline_prefix _ y). unfold child in *.
    by rewrite <- !app_assoc.
Qed.

Lemma copySync_dir src dest filter w :
  src ∈ dirs w -> filter src = true ->
  copySync src dest filter w
  = ('tt <- mkdirs dest ;
     'tt <- for_each mkdirs (copy_dirs filter src dest (dirs w)) ;
     for_each (fun '(q, c) => outputFile q c)
              (copy_plan filter src dest (files w))) w.
Proof.
  intros Hd Hf. unfold copySync.
  rewrite bool_decide_eq_true_2 by done. by rewrite Hf.
Qed.

Lemma copySync_dir_inv src dest filter w w' u :
  src ∈ dirs w -> filter src = true ->
  copySync src dest filter w = (w', Ok u) ->
  exists w1,
    files w1 = files w /\ same_outside_fs w w1
    /\ for_each (fun '(q, c) => outputFile q c)
                (copy_plan filter src dest (files w)) w1 = (w', Ok u).
Proof.
  intros Hd Hf. rewrite copySync_dir by done. unfold bind.
  destruct (mkdirs dest w) as [w0 [[]|e]] eqn:H0; [|done].
  destruct (for_each mkdirs _ w0) as [w1 [[]|e]] eqn:H1; [|done].
  intros H2. exists w1.
  apply mkdirs_inv in H0 as (Hf0 & _ & _ & Hs0).
  apply for_each_mkdirs_inv in H1 as (Hf1 & _ & Hs1).
  split; [congruence|]. split; [by apply (same_outside_fs_trans w w0)|done].
Qed.

Lemma copySync_dir_Ok src dest filter w :
  src ∈ dirs w -> denied w = ∅ ->
  exists w', copySync src dest filter w = (w', Ok tt).
Proof.
  intros Hd Hden. unfold copySync. rewrite bool_decide_eq_true_2 by done.
  destruct (filter src); cbn [negb]; [|by eexists].
  unfold bind. destruct (mkdirs_Ok dest w) as [w0 H0]; [set_solver|].
  rewrite H0. apply mkdirs_inv in H0 as (_ & _ & _ & Hs0).
  destruct (for_each_mkdirs_Ok (copy_dirs filter src dest (dirs w)) w0)
    as [w1 H1]; [destruct Hs0 as [-> _]; done|].
  rewrite H1. apply for_each_mkdirs_inv in H1 as (_ & _ & Hs1).
  apply for_each_outputFile_Ok. destruct Hs1 as [-> _].
  by destruct Hs0 as [-> _].
Qed.

(** What a successful copy of the directory [src] leaves behind. *)
Lemma copySync_not_inline_inv src dest w w' u :
  src ∈ dirs w ->
  copySync src dest not_inline w = (w', Ok u) ->
  (forall r c, r <> [] -> files w !! child src r = Some c ->
     (~ contains (lit "inline") (child src r) ->
        files w' !! child dest r = Some c)
     /\ (contains (lit "inline") (child src r) ->
           files w' !! child dest r = files w !! child dest r))
  /\ (forall q,
        (forall r, r <> [] -> is_Some (files w !! child src r) ->
                   q <> child dest r) ->
        files w' !! q = files w !! q)
  /\ same_outside_fs w w'.
Proof.
  intros Hd Hcopy. destruct (not_inline src) eqn:Hsrc.
  - apply copySync_dir_inv in Hcopy as (w1 & Hf1 & Hs1 & Hcopy); [|done..].
    apply for_each_outputFile_inv in Hcopy as (Hout & Hin & _ & Hs).
    assert (Hnotin : forall q,
              (forall r c, r <> [] -> files w !! child src r = Some c ->
                 not_inline (child src r) = true -> q <> child dest r) ->
              files w' !! q = files w !! q).
    { intros q Hq. rewrite <- Hf1. apply Hout.
      intros ([q' c] & -> & Hp)%list_elem_of_fmap.
      apply copy_plan_spec in Hp as (r & Hne & Hc & Hre & ->).
      rewrite reached_not_inline in Hre. by apply (Hq r c). }
    split; [|split; [|by apply (same_outside_fs_trans w w1)]].
    + intros r c Hne Hc. split.
      * intros Hno%not_inline_true. apply Hin.
        -- apply copy_plan_spec. exists r.
           by rewrite reached_not_inline.
        -- intros c'. apply copy_plan_functional.
           apply copy_plan_spec. exists r. by rewrite reached_not_inline.
      * intros Hinl. apply Hnotin. intros r' c' _ _ Hr' <-%child_inj.
        by apply not_inline_true in Hr'.
    + intros q Hq. apply Hnotin. intros r c Hne Hc _. apply Hq; [done|].
      by exists c.
  - unfold copySync in Hcopy. rewrite bool_decide_eq_true_2 in Hcopy by done.
    rewrite Hsrc in Hcopy. cbn [negb] in Hcopy. injection Hcopy as <- _.
    split; [|split; [done|apply same_outside_fs_refl]].
    intros r c Hne Hc. split; [|done]. intros Hno%not_inline_true.
    apply (not_inline_prefix src (lit "/" ++ r)) in Hno. congruence.
Qed.

(** C9: when the freshness check says [false] nothing is copied; when it
    says [true] the source directory is copied, which succeeds whenever the
    system refuses nothing, and then every file below the source directory
    whose path does not contain [inline] has its content at the same
    relative path below [assetsDir], every file whose path contains [inline]
    leaves that place as it was, and no other file changes. *)
Theorem copyAssets_copies_all_but_inline (o : options) (w : world) :
  distDir ∈ dirs w ->
  exists should,
    _shouldCopyAssets (assetsDir o) w = (w, Ok should)
    /\ (should = false -> copyAssets o w = (w, Ok tt))
    /\ (should = true ->
        (denied w = ∅ -> exists w', copyAssets o w = (w', Ok tt))
        /\ forall w', copyAssets o w = (w', Ok tt) ->
             (forall r c, r <> [] -> files w !! child distDir r = Some c ->
                (~ contains (lit "inline") (child distDir r) ->
                   files w' !! child (assetsDir o) r = Some c)
                /\ (contains (lit "inline") (child distDir r) ->
                      files w' !! child (assetsDir o) r
                      = files w !! child (assetsDir o) r))
             /\ (forall q,
                   (forall r, r <> [] ->
                              is_Some (files w !! child distDir r) ->
                              q <> child (assetsDir o) r) ->
                   files w' !! q = files w !! q)).
Proof.
  intros Hd. destruct (shouldCopyAssets_pure (assetsDir o) w) as (b & Hb).
  exists b. split; [done|]. unfold copyAssets, bind. rewrite Hb.
  split; [by intros ->|]. intros ->. split.
  - by apply copySync_dir_Ok.
  - intros w' Hcopy.
    apply copySync_not_inline_inv in Hcopy as (H1 & H2 & _); done.
Qed.

End Copy.

(** ** Numbered names *)

Lemma uint_of_digits_of_uint d : uint_of_digits (digits_of_uint d) = d.
Proof. induction d; cbn; by rewrite ?IHd. Qed.

Lemma decimal_value_decimal n : decimal_value (decimal n) = n.
Proof.
  unfold decimal_value, decimal. rewrite uint_of_digits_of_uint.
  apply DecimalNat.Unsigned.of_to.
Qed.

Lemma decimal_value_zeros k s :
  decimal_value (replicate k (ch "0") ++ s) = decimal_value s.
Proof. induction k as [|k IH]; [done|]. cbn [replicate app]. exact IH. Qed.

Lemma padNum_value n width : decimal_value (padNum n width) = n.
Proof.
  unfold padNum. by rewrite decimal_value_zeros, decimal_value_decimal.
Qed.

Lemma padNum_inj n m width : padNum n width = padNum m width -> n = m.
Proof.
  intros H. by rewrite <- (padNum_value n width), H, padNum_value.
Qed.

Lemma numbered_inj stem ext j k :
  numbered stem ext j = numbered stem ext k -> j = k.
Proof.
  destruct j as [|j], k as [|k]; cbn [numbered]; intros H.
  - done.
  - apply app_inv_head in H. apply (f_equal length) in H.
    rewrite !length_app in H. change (length (lit "_")) with 1 in H.
    cbn [length] in H. lia.
  - apply app_inv_head in H. apply (f_equal length) in H.
    rewrite !length_app in H. change (length (lit "_")) with 1 in H.
    cbn [length] in H. lia.
  - apply app_inv_head, app_inv_head in H.
    apply app_inv_tail in H. by apply padNum_inj in H.
Qed.

Example numbered_1 stem ext :
  numbered stem ext 1 = stem ++ lit "_001" ++ ch "." :: ext.
Proof. done. Qed.

Example numbered_2 stem ext :
  numbered stem ext 2 = stem ++ lit "_002" ++ ch "." :: ext.
Proof. done. Qed.

(** *** The pattern *)

Lemma parse_pattern_no_brace s : ch "{" ∉ s -> parse_pattern s = None.
Proof.
  induction s as [|c s IH]; [done|].
  intros [Hc Hs]%not_elem_of_cons. cbn [parse_pattern placeholder_here].
  rewrite IH by done. destruct (is_char "{" c) eqn:E; [|done].
  by apply is_char_true in E.
Qed.

Lemma parse_pattern_placeholder stem tail :
  ch "{" ∉ tail ->
  parse_pattern (stem ++ lit "{_###}" ++ tail)
  = Some (stem, {| padLeft := lit "_"; pad := 3; padRight := [] |}, tail).
Proof.
  intros Htail. induction stem as [|c stem IH].
  - change (lit "{_###}" ++ tail) with (ch "{" :: lit "_###}" ++ tail).
    cbn [app parse_pattern]. rewrite parse_pattern_no_brace; [done|].
    change (lit "_###}" ++ tail)
      with (ch "_" :: ch "#" :: ch "#" :: ch "#" :: ch "}" :: tail).
    rewrite !not_elem_of_cons. repeat split; try done.
  - cbn [app parse_pattern]. by rewrite IH.
Qed.

Lemma candidate_numbered stem ext k :
  candidate stem {| padLeft := lit "_"; pad := 3; padRight := [] |}
            (ch "." :: ext) k
  = numbered stem ext k.
Proof. by destruct k. Qed.

(** *** The search *)

Lemma first_free_ext w (c1 c2 : nat -> list N) fuel n :
  (forall k, c1 k = c2 k) ->
  first_free w c1 fuel n = first_free w c2 fuel n.
Proof.
  intros H. revert n. induction fuel as [|f IH]; intros n; [done|].
  cbn [first_free]. rewrite H. by rewrite IH.
Qed.

Lemma first_free_Some w cand fuel n k :
  first_free w cand fuel n = Some k ->
  n <= k /\ taken w (cand k) = false
  /\ forall j, n <= j < k -> taken w (cand j) = true.
Proof.
  revert n. induction fuel as [|f IH]; intros n; [done|]. cbn [first_free].
  destruct (taken w (cand n)) eqn:Hn.
  - intros (Hle & Hk & Hj)%IH. split; [lia|]. split; [done|].
    intros j Hjk. destruct (decide (j = n)) as [->|]; [done|].
    apply Hj. lia.
  - intros [= <-]. split; [lia|]. split; [done|]. intros j Hj. lia.
Qed.

Lemma first_free_None w cand fuel n :
  first_free w cand fuel n = None ->
  forall j, n <= j < n + fuel -> taken w (cand j) = true.
Proof.
  revert n. induction fuel as [|f IH]; intros n; cbn [first_free].
  - intros _ j Hj. lia.
  - destruct (taken w (cand n)) eqn:Hn; [|done].
    intros H j Hj. destruct (decide (j = n)) as [->|]; [done|].
    apply (IH _ H). lia.
Qed.

Lemma taken_elem w p :
  taken w p = true <-> p ∈ dom (files w) ∪ dirs w.
Proof.
  unfold taken. rewrite orb_true_iff, !bool_decide_eq_true.
  rewrite elem_of_union, elem_of_dom. done.
Qed.

(** Among more distinct names than there are files and directories, one is
    free: the search always ends. *)
Lemma first_free_total w (cand : nat -> list N) :
  (forall j k, cand j = cand k -> j = k) ->
  exists k, first_free w cand (S (size (files w) + size (dirs w))) 0 = Some k.
Proof.
  intros Hinj.
  destruct (first_free w cand _ 0) as [k|] eqn:Hff; [by exists k|].
  exfalso. pose proof (first_free_None _ _ _ _ Hff) as Hall.
  set (m := size (files w) + size (dirs w)) in *.
  set (L := cand <$> seq 0 (S m)).
  assert (NoDup L) as Hnd.
  { apply NoDup_fmap_2_strong; [|apply NoDup_seq].
    intros j k _ _. apply Hinj. }
  assert ((list_to_set L : gset (list N)) ⊆ dom (files w) ∪ dirs w) as Hsub.
  { intros p Hp. apply elem_of_list_to_set in Hp.
    apply list_elem_of_fmap in Hp as (j & -> & Hj).
    apply elem_of_seq in Hj. apply taken_elem, Hall. lia. }
  apply subseteq_size in Hsub.
  rewrite size_list_to_set in Hsub by done.
  unfold L in Hsub. rewrite length_fmap, length_seq in Hsub.
  pose proof (size_union_alt (dom (files w)) (dirs w)) as Hu.
  pose proof (subseteq_size (dirs w ∖ dom (files w)) (dirs w)) as Hd.
  rewrite size_dom in Hu. unfold m in *.
  assert (size (dirs w ∖ dom (files w)) <= size (dirs w))
    by (apply Hd; by apply subseteq_difference_l).
  lia.
Qed.

Lemma least_free_unique w name j k :
  least_free w name j -> least_free w name k -> j = k.
Proof.
  intros [Hj Hjl] [Hk Hkl].
  destruct (lt_eq_lt_dec j k) as [[Hlt| ->]|Hlt]; [|done|].
  - specialize (Hkl j Hlt). congruence.
  - specialize (Hjl k Hlt). congruence.
Qed.

Lemma first_free_least w (cand : nat -> list N) :
  (forall j k, cand j = cand k -> j = k) ->
  exists k, first_free w cand (S (size (files w) + size (dirs w))) 0 = Some k
            /\ least_free w cand k.
Proof.
  intros Hinj. destruct (first_free_total w cand Hinj) as [k Hk].
  exists k. split; [done|].
  apply first_free_Some in Hk as (_ & Hfree & Hbelow).
  split; [done|]. intros j Hj. apply Hbelow. lia.
Qed.

(** ** Saving *)

Lemma saveFile_overwrite filename data ov w :
  truthy ov = true ->
  saveFile filename data ov w
  = if bool_decide (filename ∈ denied w) then (w, Err EACCES)
    else (set_files (<[filename := data]> (files w))
                    (list_to_set (parents filename) ∪ dirs w) w,
          Ok filename).
Proof.
  intros Hov. unfold saveFile, bind, outputFile, ret. rewrite Hov.
  by case_bool_decide.
Qed.

Lemma saveFile_unique_unfold stem ext data ov w :
  truthy ov = false -> ch "." ∉ ext -> ch "{" ∉ ext ->
  saveFile (stem ++ ch "." :: ext) data ov w
  = match first_free w (numbered stem ext)
            (S (size (files w) + size (dirs w))) 0 with
    | Some k => ('tt <- outputFile (numbered stem ext k) data ;
                 ret (numbered stem ext k)) w
    | None => (w, Err EACCES)
    end.
Proof.
  intros Hov Hdot Hbrace. unfold saveFile, writeFileUnique. rewrite Hov.
  rewrite insert_placeholder_last by done.
  rewrite parse_pattern_placeholder
    by (apply not_elem_of_cons; split; [done|done]).
  rewrite (first_free_ext w _ (numbered stem ext))
    by apply candidate_numbered.
  destruct (first_free _ _ _ _) as [k|]; [|done].
  by rewrite candidate_numbered.
Qed.

(** Saving without overwriting goes to the first free numbered name. *)
Lemma saveFile_unique_least stem ext data ov w :
  truthy ov = false -> ch "." ∉ ext -> ch "{" ∉ ext ->
  exists k,
    least_free w (numbered stem ext) k
    /\ saveFile (stem ++ ch "." :: ext) data ov w
       = if bool_decide (numbered stem ext k ∈ denied w) then (w, Err EACCES)
         else (set_files (<[numbered stem ext k := data]> (files w))
                 (list_to_set (parents (numbered stem ext k)) ∪ dirs w) w,
               Ok (numbered stem ext k)).
Proof.
  intros Hov Hdot Hbrace.
  destruct (first_free_least w (numbered stem ext) (numbered_inj stem ext))
    as (k & Hk & Hleast).
  exists k. split; [done|].
  rewrite saveFile_unique_unfold, Hk by done.
  unfold bind, outputFile, ret. by case_bool_decide.
Qed.

Lemma taken_false w p :
  taken w p = false <-> files w !! p = None /\ p ∉ dirs w.
Proof.
  unfold taken. rewrite orb_false_iff, !bool_decide_eq_false.
  rewrite <- eq_None_not_Some. done.
Qed.

Lemma parents_shorter p d : d ∈ parents p -> length d < length p.
Proof.
  unfold parents. intros [_ Hd]%list_elem_of_filter.
  assert (forall acc r d, d ∈ dir_prefixes acc r ->
            length d < length acc + length r) as Hgen.
  { clear. intros acc r. revert acc.
    induction r as [|c r IH]; intros acc d; cbn [dir_prefixes].
    - by intros ?%elem_of_nil.
    - intros [H|H]%elem_of_app.
      + destruct (is_char "/" c); [|by apply elem_of_nil in H].
        apply list_elem_of_singleton in H as ->. cbn [length]. lia.
      + apply IH in H. rewrite length_app in H. cbn [length] in *. lia. }
  apply Hgen in Hd. cbn [length] in Hd. lia.
Qed.

(** How writing the file [q] changes which names are taken. *)
Lemma taken_after_write w q data p :
  taken (set_files (<[q := data]> (files w))
                   (list_to_set (parents q) ∪ dirs w) w) p
  = bool_decide (p = q) || bool_decide (p ∈ parents q) || taken w p.
Proof.
  unfold taken. cbn [files dirs set_files].
  destruct (decide (p = q)) as [->|Hne].
  - rewrite lookup_insert_eq.
    rewrite (bool_decide_eq_true_2 (is_Some (Some data))) by eauto.
    by rewrite (bool_decide_eq_true_2 (q = q)).
  - rewrite lookup_insert_ne by done.
    rewrite (bool_decide_eq_false_2 (p = q)) by done. cbn [orb].
    destruct (bool_decide (is_Some (files w !! p))); cbn [orb];
      [by rewrite orb_true_r|].
    rewrite <- bool_decide_or. apply bool_decide_ext.
    rewrite elem_of_union, elem_of_list_to_set. done.
Qed.

Lemma least_free_0 w name : taken w (name 0) = false -> least_free w name 0.
Proof. intros H. split; [done|]. intros j Hj. lia. Qed.

Lemma least_free_1 w name :
  taken w (name 0) = true -> taken w (name 1) = false -> least_free w name 1.
Proof.
  intros H0 H1. split; [done|]. intros j Hj.
  by replace j with 0 by lia.
Qed.

Lemma least_free_2 w name :
  taken w (name 0) = true -> taken w (name 1) = true ->
  taken w (name 2) = false -> least_free w name 2.
Proof.
  intros H0 H1 H2. split; [done|]. intros j Hj.
  destruct j as [|[|j]]; [done|done|lia].
Qed.

Lemma numbered_length_1_2 stem ext :
  length (numbered stem ext 2) = length (numbered stem ext 1).
Proof. cbn [numbered]. by rewrite !length_app. Qed.

Lemma numbered_length_0_1 stem ext :
  length (numbered stem ext 0) < length (numbered stem ext 1).
Proof.
  cbn [numbered]. rewrite !length_app.
  change (length (lit "_")) with 1. lia.
Qed.

(** C7 (amended): for a file name [stem.ext] whose extension holds no dot
    and no opening brace, saving without overwriting inserts [{_###}] just
    before the extension; it writes the first of the names [stem.ext],
    [stem_001.ext], [stem_002.ext], ... that no file or directory bears,
    returns that name and leaves every file that was there unchanged (when
    the system refuses that name the call fails).  Two calls in a row yield
    two distinct files, the second call leaving the first file as it is:
    they are [stem.ext] and [stem_001.ext] when neither existed, and
    [stem_001.ext] and [stem_002.ext] when [stem.ext] existed before. *)
Theorem saveFile_without_overwrite (stem ext data : list N) (ov : jsval)
    (w : world) :
  truthy ov = false -> ch "." ∉ ext -> ch "{" ∉ ext ->
  let filename := stem ++ ch "." :: ext in
  let name := numbered stem ext in
  insert_placeholder filename = stem ++ lit "{_###}" ++ ch "." :: ext
  /\ name 0 = filename
  /\ name 1 = stem ++ lit "_001" ++ ch "." :: ext
  /\ name 2 = stem ++ lit "_002" ++ ch "." :: ext
  /\ (exists k,
        least_free w name k
        /\ (name k ∈ denied w ->
            saveFile filename data ov w = (w, Err EACCES))
        /\ (name k ∉ denied w ->
            exists w1,
              saveFile filename data ov w = (w1, Ok (name k))
              /\ files w1 = <[name k := data]> (files w)
              /\ forall p c, files w !! p = Some c -> files w1 !! p = Some c))
  /\ (forall w1 f1 data2 w2 f2,
        saveFile filename data ov w = (w1, Ok f1) ->
        saveFile filename data2 ov w1 = (w2, Ok f2) ->
        f1 <> f2 /\ files w2 !! f1 = Some data /\ files w2 !! f2 = Some data2
        /\ forall p c, files w !! p = Some c -> files w2 !! p = Some c)
  /\ (denied w = ∅ -> taken w (name 0) = false ->
      taken w (name 1) = false ->
      forall data2, exists w1 w2,
        saveFile filename data ov w = (w1, Ok (name 0))
        /\ saveFile filename data2 ov w1 = (w2, Ok (name 1)))
  /\ (denied w = ∅ -> taken w (name 0) = true ->
      taken w (name 1) = false -> taken w (name 2) = false ->
      forall data2, exists w1 w2,
        saveFile filename data ov w = (w1, Ok (name 1))
        /\ saveFile filename data2 ov w1 = (w2, Ok (name 2))).
Proof.
  intros Hov Hdot Hbrace filename name.
  assert (Hcall : forall d w0,
    exists k, least_free w0 name k
      /\ saveFile filename d ov w0
         = if bool_decide (name k ∈ denied w0) then (w0, Err EACCES)
           else (set_files (<[name k := d]> (files w0))
                   (list_to_set (parents (name k)) ∪ dirs w0) w0,
                 Ok (name k)))
    by (intros d w0; by apply saveFile_unique_least).
  assert (Hkeep : forall (m : gmap (list N) (list N)) q d p c,
            m !! q = None -> m !! p = Some c -> <[q := d]> m !! p = Some c).
  { intros m q d p c Hq Hp. rewrite lookup_insert_ne; [done|]. congruence. }
  assert (Hdet : forall d w0 k, denied w0 = ∅ -> least_free w0 name k ->
            saveFile filename d ov w0
            = (set_files (<[name k := d]> (files w0))
                 (list_to_set (parents (name k)) ∪ dirs w0) w0,
               Ok (name k))).
  { intros d w0 k Hden Hk. destruct (Hcall d w0) as (k' & Hk' & ->).
    rewrite (least_free_unique w0 name k' k) by done.
    rewrite bool_decide_eq_false_2; [done|]. rewrite Hden. set_solver. }
  split; [by apply insert_placeholder_last|].
  split; [done|]. split; [done|]. split; [done|].
  split; [|split; [|split]].
  - destruct (Hcall data w) as (k & Hk & Hsave). exists k.
    split; [done|]. rewrite Hsave. split.
    + intros Hden. by rewrite bool_decide_eq_true_2.
    + intros Hden. rewrite bool_decide_eq_false_2 by done.
      eexists. split; [done|]. split; [done|]. cbn [files set_files].
      intros p c. apply Hkeep. by apply taken_false, Hk.
  - intros w1 f1 data2 w2 f2.
    destruct (Hcall data w) as (k1 & Hk1 & ->).
    case_bool_decide; [done|]. intros [= <- <-].
    destruct (Hcall data2 (set_files (<[name k1 := data]> (files w))
                (list_to_set (parents (name k1)) ∪ dirs w) w))
      as (k2 & Hk2 & ->).
    case_bool_decide; [done|]. intros [= <- <-].
    cbn [files set_files].
    assert (name k1 <> name k2) as Hne.
    { intros Heq. destruct Hk2 as [Hfree _]. rewrite <- Heq in Hfree.
      rewrite taken_after_write in Hfree.
      by rewrite bool_decide_eq_true_2 in Hfree. }
    split; [done|]. split.
    { rewrite lookup_insert_ne by done. apply lookup_insert_eq. }
    split; [apply lookup_insert_eq|].
    intros p c Hp. apply Hkeep.
    { destruct Hk2 as [Hfree _]. by apply taken_false in Hfree as [? _]. }
    apply Hkeep; [|done]. by apply taken_false, Hk1.
  - intros Hden H0 H1 data2.
    rewrite (Hdet data w 0) by (done || by apply least_free_0).
    eexists _, _. split; [done|].
    rewrite (Hdet data2 _ 1); [done|done|].
    apply least_free_1; rewrite taken_after_write.
    + by rewrite bool_decide_eq_true_2.
    + rewrite H1, orb_false_r. apply orb_false_iff. split.
      * apply bool_decide_eq_false_2. intros H%numbered_inj. done.
      * apply bool_decide_eq_false_2. intros H%parents_shorter.
        pose proof (numbered_length_0_1 stem ext). unfold name in H. lia.
  - intros Hden H0 H1 H2 data2.
    rewrite (Hdet data w 1) by (done || by apply least_free_1).
    eexists _, _. split; [done|].
    rewrite (Hdet data2 _ 2); [done|done|].
    apply least_free_2; rewrite taken_after_write.
    + by rewrite H0, orb_true_r.
    + by rewrite bool_decide_eq_true_2.
    + rewrite H2, orb_false_r. apply orb_false_iff. split.
      * apply bool_decide_eq_false_2. intros H%numbered_inj. done.
      * apply bool_decide_eq_false_2. intros H%parents_shorter.
        pose proof (numbered_length_1_2 stem ext). unfold name in H. lia.
Qed.

(** ** Options and preparation *)

Lemma clock_only_refl w : clock_only w w.
Proof. by repeat split. Qed.

Lemma clock_only_trans w1 w2 w3 :
  clock_only w1 w2 -> clock_only w2 w3 -> clock_only w1 w3.
Proof. unfold clock_only, same_devices. intuition congruence. Qed.

Lemma same_outside_fs_devices w w' : same_outside_fs w w' -> same_devices w w'.
Proof. unfold same_outside_fs, same_devices. intuition. Qed.

Lemma same_devices_trans w1 w2 w3 :
  same_devices w1 w2 -> same_devices w2 w3 -> same_devices w1 w3.
Proof. unfold same_devices. intuition congruence. Qed.

(** A copy changes no file outside the target directory. *)
Lemma copySync_frame src dest filter w w' u :
  copySync src dest filter w = (w', Ok u) ->
  (forall q, (forall r, q <> dest ++ r) -> files w' !! q = files w !! q)
  /\ same_outside_fs w w'.
Proof.
  unfold copySync. case_bool_decide as Hd.
  - destruct (filter src) eqn:Hf; cbn [negb].
    + intros Hcopy.
      assert (copySync src dest filter w = (w', Ok u)) as Hc
        by by rewrite copySync_dir.
      apply copySync_dir_inv in Hc as (w1 & Hf1 & Hs1 & Hrun); [|done..].
      apply for_each_outputFile_inv in Hrun as (Hout & _ & _ & Hs).
      split; [|by apply (same_outside_fs_trans w w1)].
      intros q Hq. rewrite <- Hf1. apply Hout.
      intros ([q' c] & -> & Hp)%list_elem_of_fmap.
      apply copy_plan_spec in Hp as (r & _ & _ & _ & ->).
      by apply (Hq (lit "/" ++ r)).
    + intros [= <- _]. split; [done|apply same_outside_fs_refl].
  - destruct (files w !! src) as [c|]; [|done].
    destruct (filter src).
    + intros (_ & Hf & _ & Hs)%outputFile_inv. split; [|done].
      intros q Hq. rewrite Hf, lookup_insert_ne; [done|].
      intros ->. apply (Hq []). by rewrite app_nil_r.
    + intros [= <- _]. split; [done|apply same_outside_fs_refl].
Qed.

Lemma ext_json_html (a b : list N) : a ++ lit ".json" <> b ++ lit ".html".
Proof. intros H. apply app_inj_2 in H as [_ H]; [|done]. by vm_compute in H. Qed.

Section Options.
Context {E : Externals}.

Lemma getFilename_ts_clock_only timestamp w w' r :
  getFilename_ts timestamp w = (w', r) -> clock_only w w'.
Proof.
  unfold getFilename_ts.
  destruct (negb _ && negb _); [|intros [= <- _]; apply clock_only_refl].
  unfold bind, new_Date, ret. intros [= <- _]. by repeat split.
Qed.

Lemma getFilename_total o w :
  exists w' base, getFilename o w = (w', Ok base) /\ clock_only w w'.
Proof.
  destruct (getFilename_ts_total (timestamp o) w) as (w' & ts & Hts).
  eexists w', _. split; [by apply getFilename_unfold|].
  by apply getFilename_ts_clock_only in Hts.
Qed.

(** [getOptions] never fails and touches nothing but the clock; the HTML
    path always ends in [.html], the JSON path is there exactly when
    [saveJson] is truthy and ends in [.json]. *)
Lemma getOptions_total opts w :
  exists w' ro,
    getOptions opts w = (w', Ok ro) /\ clock_only w w'
    /\ merged ro = getMergedOptions (default empty_options opts)
    /\ (exists base, htmlFile ro = base ++ lit ".html")
    /\ (truthy (saveJson (merged ro)) = true ->
        exists base, jsonFile ro = Some (base ++ lit ".json"))
    /\ (truthy (saveJson (merged ro)) = false -> jsonFile ro = None).
Proof.
  unfold getOptions, bind.
  set (m := getMergedOptions (default empty_options opts)).
  destruct (truthy (saveJson m)) eqn:Hj.
  - destruct (getFilename_total m w) as (w1 & b1 & -> & Hc1).
    cbn [ret]. destruct (getFilename_total m w1) as (w2 & b2 & -> & Hc2).
    eexists _, _. split; [done|]. split; [by apply (clock_only_trans w w1)|].
    cbn [merged htmlFile jsonFile]. split; [done|]. split; [by eexists|].
    rewrite Hj. split; [by eexists|done].
  - cbn [ret]. destruct (getFilename_total m w) as (w2 & b2 & -> & Hc2).
    eexists _, _. split; [done|]. split; [done|].
    cbn [merged htmlFile jsonFile]. split; [done|]. split; [by eexists|].
    rewrite Hj. done.
Qed.

Lemma copyAssets_frame o w w' u :
  copyAssets o w = (w', Ok u) ->
  (forall q, (forall r, q <> assetsDir o ++ r) -> files w' !! q = files w !! q)
  /\ same_outside_fs w w'.
Proof.
  unfold copyAssets, bind.
  destruct (shouldCopyAssets_pure (assetsDir o) w) as [b ->].
  destruct b; [apply copySync_frame|].
  intros [= <- _]. split; [done|apply same_outside_fs_refl].
Qed.

Lemma getAssets_pure w w' r : getAssets w = (w', r) -> w' = w.
Proof.
  unfold getAssets, bind, loadFile, readFileSync, ret.
  destruct (files w !! _); [|by intros [= <- _]].
  destruct (files w !! _); by intros [= <- _].
Qed.

(** What [prepare] does to the world: the clock is read by [getOptions];
    files change only inside [assetsDir]; nothing is opened. *)
Lemma prepare_inv data opts w w1 html ro :
  prepare data opts w = (w1, Ok (html, ro)) ->
  (exists w0, getOptions opts w = (w0, Ok ro))
  /\ (forall q, (forall r, q <> assetsDir (merged ro) ++ r) ->
        files w1 !! q = files w !! q)
  /\ same_devices w w1.
Proof.
  unfold prepare, bind.
  destruct (getOptions_total opts w) as (w0 & ro0 & -> & Hc & _).
  destruct Hc as (Hf0 & _ & Hd0).
  destruct (negb (truthy (dev (merged ro0)))).
  - destruct (truthy (inlineAssets (merged ro0))).
    + destruct (getAssets w0) as [w' [[st sc]|e]] eqn:Ha; [|done].
      apply getAssets_pure in Ha as ->. cbn [ret]. intros [= <- _ <-].
      split; [by eexists|]. split; [by rewrite Hf0|done].
    + destruct (copyAssets (merged ro0) w0) as [w' [[]|e]] eqn:Hcp; [|done].
      cbn [ret]. intros [= <- _ <-].
      apply copyAssets_frame in Hcp as (Hfr & Hs).
      split; [by eexists|]. split.
      * intros q Hq. by rewrite Hfr, Hf0.
      * apply (same_devices_trans w w0); [done|].
        by apply same_outside_fs_devices.
  - cbn [ret]. intros [= <- _ <-].
    split; [by eexists|]. split; [by rewrite Hf0|done].
Qed.

Lemma prepare_paths data opts w w1 html ro :
  prepare data opts w = (w1, Ok (html, ro)) ->
  (exists base, htmlFile ro = base ++ lit ".html")
  /\ (truthy (saveJson (merged ro)) = true ->
      exists base, jsonFile ro = Some (base ++ lit ".json"))
  /\ (truthy (saveJson (merged ro)) = false -> jsonFile ro = None).
Proof.
  intros ([w0 Hgo] & _)%prepare_inv.
  destruct (getOptions_total opts w) as (w0' & ro' & Hgo' & _ & _ & H).
  rewrite Hgo in Hgo'. by injection Hgo' as _ <-.
Qed.

End Options.

(** ** Creating the report *)

Lemma numbered_ext stem ext k : exists x, numbered stem ext k = x ++ ch "." :: ext.
Proof.
  destruct k as [|k]; cbn [numbered]; [by exists stem|].
  exists (stem ++ lit "_" ++ padNum (S k) 3). by rewrite <- !app_assoc.
Qed.

(** A successful save writes the returned name, which keeps the extension,
    and nothing else. *)
Lemma saveFile_inv stem ext data ov w w' f :
  ch "." ∉ ext -> ch "{" ∉ ext ->
  saveFile (stem ++ ch "." :: ext) data ov w = (w', Ok f) ->
  files w' = <[f := data]> (files w)
  /\ (exists x, f = x ++ ch "." :: ext)
  /\ (truthy ov = true -> f = stem ++ ch "." :: ext)
  /\ same_outside_fs w w'.
Proof.
  intros Hdot Hbrace. destruct (truthy ov) eqn:Hov.
  - rewrite saveFile_overwrite by done. case_bool_decide; [done|].
    intros [= <- <-]. split; [done|]. split; [by exists stem|].
    split; [done|]. by repeat split.
  - destruct (saveFile_unique_least stem ext data ov w) as (k & _ & ->);
      [done..|].
    case_bool_decide; [done|]. intros [= <- <-].
    split; [done|]. split; [apply numbered_ext|]. split; [done|].
    by repeat split.
Qed.

Lemma saveFile_Err filename data ov w w' e :
  saveFile filename data ov w = (w', Err e) -> w' = w.
Proof.
  unfold saveFile, writeFileUnique, bind, outputFile, ret.
  destruct (truthy ov).
  - case_bool_decide; by intros [= <-].
  - destruct (parse_pattern _) as [[[h ph] t]|].
    + destruct (first_free _ _ _ _); [|by intros [= <-]].
      case_bool_decide; by intros [= <-].
    + case_bool_decide; by intros [= <-].
Qed.

Lemma promise_all_two {A} (p1 p2 : option (M A)) w :
  promise_all [p1; p2] w
  = let '(w1, r1) := settle p1 w in
    let '(w2, r2) := settle p2 w1 in
    (w2, match r1, r2 with
         | Ok a, Ok b => Ok [a; b]
         | Err e, _ => Err e
         | Ok _, Err e => Err e
         end).
Proof.
  cbn [promise_all]. destruct (settle p1 w) as [w1 r1].
  destruct (settle p2 w1) as [w2 r2]. by destruct r1, r2.
Qed.

(** The HTML job of [create]: save, then open when asked to. *)
Lemma html_job_inv base html ov ao w w' f :
  (savedHtml <- saveFile (base ++ lit ".html") html ov ;
   if truthy ao then openFile savedHtml else ret savedHtml) w = (w', Ok f) ->
  files w' = <[f := html]> (files w)
  /\ (exists x, f = x ++ lit ".html")
  /\ (truthy ov = true -> f = base ++ lit ".html")
  /\ denied w' = denied w.
Proof.
  unfold bind.
  destruct (saveFile _ html ov w) as [w2 [f2|e]] eqn:Hs; [|done].
  change (lit ".html") with (ch "." :: lit "html") in Hs.
  apply saveFile_inv in Hs as (Hf & Hx & Hov & Hden & _);
    [|by vm_compute; intros H; repeat (apply elem_of_cons in H as [H|H]; [done|]); inversion H..].
  destruct (truthy ao).
  - unfold openFile, bind, opener, ret.
    destruct (opener_ok w2); [|done]. intros [= <- <-]. done.
  - intros [= <- <-]. done.
Qed.

Lemma json_job_inv base json ov w w' g :
  saveFile (base ++ lit ".json") json ov w = (w', Ok g) ->
  files w' = <[g := json]> (files w)
  /\ (exists x, g = x ++ lit ".json")
  /\ (truthy ov = true -> g = base ++ lit ".json")
  /\ denied w' = denied w.
Proof.
  change (lit ".json") with (ch "." :: lit "json"). intros Hs.
  apply saveFile_inv in Hs as (Hf & Hx & Hov & Hden & _);
    [done|by vm_compute; intros H; repeat (apply elem_of_cons in H as [H|H]; [done|]); inversion H..].
Qed.

(** Both ways of saving in one: the name [f] that is written is the name
    given when [overwrite] is truthy and a free name otherwise; it keeps
    the extension. *)
Lemma saveFile_cases stem ext data ov w :
  ch "." ∉ ext -> ch "{" ∉ ext ->
  exists f,
    (truthy ov = true -> f = stem ++ ch "." :: ext)
    /\ (truthy ov = false -> files w !! f = None)
    /\ (exists x, f = x ++ ch "." :: ext)
    /\ saveFile (stem ++ ch "." :: ext) data ov w
       = if bool_decide (f ∈ denied w) then (w, Err EACCES)
         else (set_files (<[f := data]> (files w))
                 (list_to_set (parents f) ∪ dirs w) w, Ok f).
Proof.
  intros Hdot Hbrace. destruct (truthy ov) eqn:Hov.
  - exists (stem ++ ch "." :: ext). split; [done|]. split; [done|].
    split; [by exists stem|]. by apply saveFile_overwrite.
  - destruct (saveFile_unique_least stem ext data ov w) as (k & Hk & Hs);
      [done..|].
    exists (numbered stem ext k). split; [done|].
    split; [intros _; by apply taken_false, Hk|].
    split; [apply numbered_ext|done].
Qed.

Lemma no_dot_brace_html : (ch "." ∉ lit "html") /\ (ch "{" ∉ lit "html").
Proof. split; apply not_char_forallb; reflexivity. Qed.

Lemma no_dot_brace_json : (ch "." ∉ lit "json") /\ (ch "{" ∉ lit "json").
Proof. split; apply not_char_forallb; reflexivity. Qed.

Lemma html_job_cases hb html ov ao w :
  exists f,
    (truthy ov = true -> f = hb ++ lit ".html")
    /\ (truthy ov = false -> files w !! f = None)
    /\ (exists x, f = x ++ lit ".html")
    /\ (savedHtml <- saveFile (hb ++ lit ".html") html ov ;
        if truthy ao then openFile savedHtml else ret savedHtml) w
       = if bool_decide (f ∈ denied w) then (w, Err EACCES)
         else
           let w2 := set_files (<[f := html]> (files w))
                       (list_to_set (parents f) ∪ dirs w) w in
           if truthy ao
           then (fst (opener f w2), if opener_ok w then Ok f else Err EOPENER)
           else (w2, Ok f).
Proof.
  destruct no_dot_brace_html as [Hd Hb].
  destruct (saveFile_cases hb (lit "html") html ov w Hd Hb)
    as (f & H1 & H2 & H3 & Hs).
  exists f. split; [done|]. split; [done|]. split; [done|].
  unfold bind. change (lit ".html") with (ch "." :: lit "html"). rewrite Hs.
  case_bool_decide; [done|]. cbv zeta.
  destruct (truthy ao); [|done].
  unfold openFile, bind, opener. cbn [opener_ok set_files fst].
  by destruct (opener_ok w).
Qed.

Lemma json_job_cases jb json ov w :
  exists g,
    (truthy ov = true -> g = jb ++ lit ".json")
    /\ (truthy ov = false -> files w !! g = None)
    /\ (exists x, g = x ++ lit ".json")
    /\ saveFile (jb ++ lit ".json") json ov w
       = if bool_decide (g ∈ denied w) then (w, Err EACCES)
         else (set_files (<[g := json]> (files w))
                 (list_to_set (parents g) ∪ dirs w) w, Ok g).
Proof.
  destruct no_dot_brace_json as [Hd Hb].
  exact (saveFile_cases jb (lit "json") json ov w Hd Hb).
Qed.

Section Create.
Context {E : Externals}.

Lemma create_unfold data opts w w1 html ro :
  prepare data opts w = (w1, Ok (html, ro)) ->
  create data opts w
  = let o := merged ro in
    let '(w2, r1) :=
      settle (if negb (strict_eq (saveHtml o) (JBool false))
              then Some (savedHtml <- saveFile (htmlFile ro) html (overwrite o) ;
                         if truthy (autoOpen o) then openFile savedHtml
                         else ret savedHtml)
              else None) w1 in
    let '(w3, r2) :=
      settle (if truthy (saveJson o)
              then Some (match jsonFile ro with
                         | Some f => saveFile f (JSON_stringify data (Some 2))
                                       (overwrite o)
                         | None => throw ETYPE
                         end)
              else None) w2 in
    (w3, match r1, r2 with
         | Ok a, Ok b => Ok [a; b]
         | Err e, _ => Err e
         | Ok _, Err e => Err e
         end).
Proof.
  intros Hp. unfold create, bind. rewrite Hp. apply promise_all_two.
Qed.

Lemma strict_eq_false_iff (v : jsval) :
  strict_eq v (JBool false) = true <-> v = JBool false.
Proof. unfold strict_eq. apply bool_decide_eq_true. Qed.

(** What a run of [create] that resolves has done. *)
Lemma create_Ok_inv data opts w w1 html ro w3 res :
  prepare data opts w = (w1, Ok (html, ro)) ->
  create data opts w = (w3, Ok res) ->
  exists h j,
    res = [h; j]
    /\ (h = None <-> saveHtml (merged ro) = JBool false)
    /\ (j = None <-> truthy (saveJson (merged ro)) = false)
    /\ (forall f, h = Some f ->
          files w3 !! f = Some html
          /\ (truthy (overwrite (merged ro)) = true -> f = htmlFile ro))
    /\ (forall g, j = Some g ->
          files w3 !! g = Some (JSON_stringify data (Some 2))
          /\ (truthy (overwrite (merged ro)) = true -> jsonFile ro = Some g)).
Proof.
  intros Hp. rewrite (create_unfold _ _ _ _ _ _ Hp). cbv zeta.
  destruct (prepare_paths _ _ _ _ _ _ Hp) as ([hb Hhtml] & Hjs & Hjn).
  rewrite Hhtml.
  destruct (strict_eq (saveHtml (merged ro)) (JBool false)) eqn:Hsh;
    cbn [negb settle].
  - (* no HTML *)
    apply strict_eq_false_iff in Hsh. unfold ret at 1.
    destruct (truthy (saveJson (merged ro))) eqn:Hsj; cbn [settle].
    + destruct (Hjs eq_refl) as [jb ->]. unfold bind.
      destruct (saveFile _ _ _ w1) as [w' [g|e]] eqn:Hs; [|done].
      cbn [ret]. intros [= <- <-]. exists None, (Some g).
      apply json_job_inv in Hs as (Hf & _ & Hov & _).
      split; [done|]. split; [done|]. split; [done|]. split; [done|].
      intros g' [= <-]. split; [by rewrite Hf, lookup_insert_eq|].
      intros Ht. by rewrite Hov.
    + unfold ret. intros [= <- <-]. exists None, None.
      split; [done|]. split; [done|]. split; [done|]. by split.
  - (* HTML *)
    assert (saveHtml (merged ro) <> JBool false) as Hne.
    { intros H. apply strict_eq_false_iff in H. congruence. }
    unfold bind at 1.
    destruct ((savedHtml <- saveFile (hb ++ lit ".html") html _ ; _) w1)
      as [w2 [f|e]] eqn:Hh; [|by destruct (settle _ w2) as [? ?]].
    cbn [ret]. apply html_job_inv in Hh as (Hf & [x Hx] & Hov & Hden).
    destruct (truthy (saveJson (merged ro))) eqn:Hsj; cbn [settle].
    + destruct (Hjs eq_refl) as [jb ->]. unfold bind.
      destruct (saveFile _ _ _ w2) as [w' [g|e]] eqn:Hs; [|done].
      cbn [ret]. intros [= <- <-]. exists (Some f), (Some g).
      apply json_job_inv in Hs as (Hf' & [y Hy] & Hov' & _).
      split; [done|]. split; [done|]. split; [done|]. split.
      * intros f' [= <-]. split; [|done].
        rewrite Hf', lookup_insert_ne, Hf, lookup_insert_eq; [done|].
        rewrite Hx, Hy. apply ext_json_html.
      * intros g' [= <-]. split; [by rewrite Hf', lookup_insert_eq|].
        intros Ht. by rewrite Hov'.
    + unfold ret. intros [= <- <-]. exists (Some f), None.
      split; [done|]. split; [done|]. split; [done|]. split; [|done].
      intros f' [= <-]. split; [|done]. by rewrite Hf, lookup_insert_eq.
Qed.

(** With [overwrite] on, nothing refused and a working opener, [create]
    resolves with the two paths, [null] standing for a job not done. *)
Lemma create_overwrite_Ok data opts w w1 html ro :
  prepare data opts w = (w1, Ok (html, ro)) ->
  truthy (overwrite (merged ro)) = true -> denied w1 = ∅ ->
  (truthy (autoOpen (merged ro)) = true -> opener_ok w1 = true) ->
  exists w3,
    create data opts w
    = (w3, Ok [if strict_eq (saveHtml (merged ro)) (JBool false) then None
               else Some (htmlFile ro);
               if truthy (saveJson (merged ro)) then jsonFile ro else None]).
Proof.
  intros Hp Hov Hden Hop. rewrite (create_unfold _ _ _ _ _ _ Hp). cbv zeta.
  destruct (prepare_paths _ _ _ _ _ _ Hp) as (_ & Hjs & _).
  assert (Hjson : forall w2, denied w2 = ∅ ->
    exists w3,
      settle (if truthy (saveJson (merged ro))
              then Some (match jsonFile ro with
                         | Some f => saveFile f (JSON_stringify data (Some 2))
                                       (overwrite (merged ro))
                         | None => throw ETYPE
                         end)
              else None) w2
      = (w3, Ok (if truthy (saveJson (merged ro)) then jsonFile ro else None))).
  { intros w2 Hd2. destruct (truthy (saveJson (merged ro))); cbn [settle].
    - destruct (Hjs eq_refl) as [jb ->]. unfold bind.
      rewrite saveFile_overwrite by done.
      rewrite bool_decide_eq_false_2 by (rewrite Hd2; set_solver).
      by eexists.
    - by eexists. }
  destruct (strict_eq (saveHtml (merged ro)) (JBool false));
    cbn [negb settle].
  - unfold ret at 1. destruct (Hjson w1 Hden) as [w3 ->]. by eexists.
  - unfold bind at 1 2. rewrite saveFile_overwrite by done.
    rewrite bool_decide_eq_false_2 by (rewrite Hden; set_solver).
    destruct (truthy (autoOpen (merged ro))) eqn:Hao.
    + unfold openFile, bind, opener. cbn [opener_ok set_files].
      rewrite Hop by done. cbn [ret].
      match goal with |- context [settle _ ?w2] =>
        destruct (Hjson w2) as [w3 ->]; [done|] end.
      by eexists.
    + cbn [ret].
      match goal with |- context [settle _ ?w2] =>
        destruct (Hjson w2) as [w3 ->]; [done|] end.
      by eexists.
Qed.

Lemma saveFile_Ok_total stem ext data ov w :
  ch "." ∉ ext -> ch "{" ∉ ext -> denied w = ∅ ->
  exists w' f,
    saveFile (stem ++ ch "." :: ext) data ov w = (w', Ok f)
    /\ denied w' = ∅ /\ opener_ok w' = opener_ok w.
Proof.
  intros Hdot Hbrace Hden. destruct (truthy ov) eqn:Hov.
  - rewrite saveFile_overwrite by done.
    rewrite bool_decide_eq_false_2 by (rewrite Hden; set_solver).
    by eexists _, _.
  - destruct (saveFile_unique_least stem ext data ov w) as (k & _ & ->);
      [done..|].
    rewrite bool_decide_eq_false_2 by (rewrite Hden; set_solver).
    by eexists _, _.
Qed.

(** With nothing refused and a working opener, [create] resolves. *)
Lemma create_Ok_total data opts w w1 html ro :
  prepare data opts w = (w1, Ok (html, ro)) ->
  denied w1 = ∅ ->
  (truthy (autoOpen (merged ro)) = true -> opener_ok w1 = true) ->
  exists w3 res, create data opts w = (w3, Ok res).
Proof.
  intros Hp Hden Hop. rewrite (create_unfold _ _ _ _ _ _ Hp). cbv zeta.
  destruct (prepare_paths _ _ _ _ _ _ Hp) as ([hb Hh] & Hjs & _).
  assert (Hnd : forall x : string, x = "html"%string \/ x = "json"%string ->
            (ch "." ∉ lit x) /\ (ch "{" ∉ lit x)).
  { intros x [-> | ->]; split; apply not_char_forallb; reflexivity. }
  assert (Hjson : forall w2, denied w2 = ∅ ->
    exists w3 j,
      settle (if truthy (saveJson (merged ro))
              then Some (match jsonFile ro with
                         | Some f => saveFile f (JSON_stringify data (Some 2))
                                       (overwrite (merged ro))
                         | None => throw ETYPE
                         end)
              else None) w2
      = (w3, Ok j)).
  { intros w2 Hd2. destruct (truthy (saveJson (merged ro))); cbn [settle].
    - destruct (Hjs eq_refl) as [jb ->]. unfold bind.
      change (lit ".json") with (ch "." :: lit "json").
      destruct (saveFile_Ok_total jb (lit "json") (JSON_stringify data (Some 2))
                  (overwrite (merged ro)) w2) as (w3 & g & -> & _);
        [apply Hnd; by right|apply Hnd; by right|done|].
      by eexists _, _.
    - by eexists _, _. }
  destruct (strict_eq (saveHtml (merged ro)) (JBool false));
    cbn [negb settle].
  - unfold ret at 1. destruct (Hjson w1 Hden) as (w3 & j & ->).
    by eexists _, _.
  - rewrite Hh. change (lit ".html") with (ch "." :: lit "html").
    unfold bind at 1 2.
    destruct (saveFile_Ok_total hb (lit "html") html (overwrite (merged ro)) w1)
      as (w2 & f & -> & Hd2 & Ho2); [apply Hnd; by left|apply Hnd; by left|done|].
    destruct (truthy (autoOpen (merged ro))) eqn:Hao.
    + unfold openFile, bind, opener. rewrite Ho2, Hop by done. cbn [ret].
      match goal with |- context [settle _ ?w'] =>
        destruct (Hjson w') as (w3 & j & ->); [done|] end.
      by eexists _, _.
    + cbn [ret]. destruct (Hjson w2 Hd2) as (w3 & j & ->).
      by eexists _, _.
Qed.

Lemma create_nothing_to_save data opts w w1 html ro :
  prepare data opts w = (w1, Ok (html, ro)) ->
  saveHtml (merged ro) = JBool false ->
  truthy (saveJson (merged ro)) = false ->
  create data opts w = (w1, Ok [None; None]).
Proof.
  intros Hp Hsh Hsj. rewrite (create_unfold _ _ _ _ _ _ Hp). cbv zeta.
  by rewrite Hsh, Hsj.
Qed.

(** The state of [create] after [prepare]: the two jobs, each on the world
    the one before left. *)
Lemma create_jobs data opts w w1 html ro :
  prepare data opts w = (w1, Ok (html, ro)) ->
  exists hb,
    htmlFile ro = hb ++ lit ".html"
    /\ (truthy (saveJson (merged ro)) = true ->
        exists jb, jsonFile ro = Some (jb ++ lit ".json"))
    /\ create data opts w
       = let o := merged ro in
         let '(w2, r1) :=
           settle (if negb (strict_eq (saveHtml o) (JBool false))
                   then Some (savedHtml <- saveFile (hb ++ lit ".html") html
                                             (overwrite o) ;
                              if truthy (autoOpen o) then openFile savedHtml
                              else ret savedHtml)
                   else None) w1 in
         let '(w3, r2) :=
           settle (if truthy (saveJson o)
                   then Some (match jsonFile ro with
                              | Some f => saveFile f (JSON_stringify data (Some 2))
                                            (overwrite o)
                              | None => throw ETYPE
                              end)
                   else None) w2 in
         (w3, match r1, r2 with
              | Ok a, Ok b => Ok [a; b]
              | Err e, _ => Err e
              | Ok _, Err e => Err e
              end).
Proof.
  intros Hp. destruct (prepare_paths _ _ _ _ _ _ Hp) as ([hb Hh] & Hjs & _).
  exists hb. split; [done|]. split; [done|].
  rewrite (create_unfold _ _ _ _ _ _ Hp). by rewrite Hh.
Qed.

(** What the JSON job of [create] does to the world, whatever its
    outcome: [j] is the name written, if any. *)
Lemma json_job_world data (ro : reportOptions) w2 w3 r2 :
  (truthy (saveJson (merged ro)) = true ->
   exists jb, jsonFile ro = Some (jb ++ lit ".json")) ->
  settle (if truthy (saveJson (merged ro))
          then Some (match jsonFile ro with
                     | Some f => saveFile f (JSON_stringify data (Some 2))
                                   (overwrite (merged ro))
                     | None => throw ETYPE
                     end)
          else None) w2 = (w3, r2) ->
  exists j,
    files w3 = written j (JSON_stringify data (Some 2)) (files w2)
    /\ dirs w3 = made j (dirs w2)
    /\ same_outside_fs w2 w3
    /\ (truthy (saveJson (merged ro)) = false -> j = None)
    /\ (forall g, j = Some g -> exists y, g = y ++ lit ".json")
    /\ (forall b, r2 = Ok b -> b = j).
Proof.
  intros Hjs. destruct (truthy (saveJson (merged ro))); cbn [settle].
  - destruct (Hjs eq_refl) as [jb ->]. unfold bind.
    destruct (json_job_cases jb (JSON_stringify data (Some 2))
                (overwrite (merged ro)) w2) as (g & _ & _ & Hg & ->).
    case_bool_decide.
    + intros [= <- <-]. exists None. by repeat split.
    + cbn [ret]. intros [= <- <-]. exists (Some g).
      split; [done|]. split; [done|]. split; [by repeat split|].
      split; [done|]. split; [by intros g' [= <-]|]. by intros b [= <-].
  - unfold ret. intros [= <- <-]. exists None.
    split; [done|]. split; [done|]. split; [by repeat split|].
    split; [done|]. split; [done|]. by intros b [= <-].
Qed.

(** What the HTML job of [create] does to the world, whatever its
    outcome: [h] is the name written, if any. *)
Lemma html_job_world hb html (o : options) w1 w2 r1 :
  settle (if negb (strict_eq (saveHtml o) (JBool false))
          then Some (savedHtml <- saveFile (hb ++ lit ".html") html
                                    (overwrite o) ;
                     if truthy (autoOpen o) then openFile savedHtml
                     else ret savedHtml)
          else None) w1 = (w2, r1) ->
  exists h,
    files w2 = written h html (files w1)
    /\ dirs w2 = made h (dirs w1)
    /\ opened w2
       = match h with
         | Some f => if truthy (autoOpen o) then [f] else []
         | None => []
         end ++ opened w1
    /\ (denied w2 = denied w1 /\ now w2 = now w1 /\ ticks w2 = ticks w1
        /\ opener_ok w2 = opener_ok w1)
    /\ (saveHtml o = JBool false -> h = None)
    /\ (forall f, h = Some f -> exists x, f = x ++ lit ".html")
    /\ (forall a, r1 = Ok a -> a = h).
Proof.
  destruct (strict_eq (saveHtml o) (JBool false)) eqn:Hsh; cbn [negb settle].
  - unfold ret. intros [= <- <-]. exists None.
    split; [done|]. split; [done|]. split; [done|].
    split; [by repeat split|].
    split; [done|]. split; [done|]. by intros a [= <-].
  - assert (saveHtml o <> JBool false) as Hne.
    { intros H. apply strict_eq_false_iff in H. congruence. }
    unfold bind at 1.
    destruct (html_job_cases hb html (overwrite o) (autoOpen o) w1)
      as (f & _ & _ & Hf & ->).
    case_bool_decide.
    + intros [= <- <-]. exists None. by repeat split.
    + cbv zeta. destruct (truthy (autoOpen o)).
      * destruct (opener_ok w1) eqn:Hok; cbn [ret]; intros [= <- <-];
          exists (Some f); (split; [done|]); (split; [done|]);
          (split; [done|]); (split; [by repeat split; cbn|]);
          (split; [done|]);
          (split; [by intros f' [= <-]|]);
          [by intros a [= <-]|done].
      * cbn [ret]. intros [= <- <-]. exists (Some f).
        split; [done|]. split; [done|]. split; [done|].
        split; [by repeat split|].
        split; [done|]. split; [by intros f' [= <-]|]. by intros a [= <-].
Qed.

(** The world that a run of [create] leaves, whatever its outcome. *)
Lemma create_world data opts w w1 html ro w3 r :
  prepare data opts w = (w1, Ok (html, ro)) ->
  create data opts w = (w3, r) ->
  exists h j,
    files w3
    = written j (JSON_stringify data (Some 2)) (written h html (files w1))
    /\ dirs w3 = made j (made h (dirs w1))
    /\ opened w3
       = match h with
         | Some f => if truthy (autoOpen (merged ro)) then [f] else []
         | None => []
         end ++ opened w1
    /\ (denied w3 = denied w1 /\ now w3 = now w1 /\ ticks w3 = ticks w1
        /\ opener_ok w3 = opener_ok w1)
    /\ (saveHtml (merged ro) = JBool false -> h = None)
    /\ (truthy (saveJson (merged ro)) = false -> j = None)
    /\ (forall f, h = Some f -> exists x, f = x ++ lit ".html")
    /\ (forall g, j = Some g -> exists y, g = y ++ lit ".json")
    /\ (forall res, r = Ok res -> res = [h; j]).
Proof.
  intros Hp. destruct (create_jobs _ _ _ _ _ _ Hp) as (hb & _ & Hjs & ->).
  cbv zeta.
  destruct (settle _ w1) as [w2 r1] eqn:H1.
  destruct (settle _ w2) as [w3' r2] eqn:H2.
  intros [= <- <-].
  apply html_job_world in H1
    as (h & Hf1 & Hd1 & Ho1 & (Hden1 & Hnow1 & Ht1 & Hok1) & Hsh & Hx & Hr1).
  apply json_job_world in H2
    as (j & Hf2 & Hd2 & (Hden2 & Hnow2 & Ht2 & Ho2 & Hok2) & Hsj & Hy & Hr2);
    [|done].
  exists h, j. split; [by rewrite Hf2, Hf1|]. split; [by rewrite Hd2, Hd1|].
  split; [by rewrite Ho2, Ho1|].
  split; [by rewrite Hden2, Hnow2, Ht2, Hok2|].
  split; [done|]. split; [done|]. split; [done|]. split; [done|].
  intros res. destruct r1 as [a|e]; [|done]. destruct r2 as [b|e]; [|done].
  intros [= <-]. by rewrite (Hr1 a eq_refl), (Hr2 b eq_refl).
Qed.

(** C5: [create] resolves with an array of two elements, the outcome of the
    HTML job and that of the JSON job.  Whatever the outcome of a run, the
    files it leaves are those that [prepare] left with the HTML written
    under one name [h], if the HTML job wrote, and the JSON under one name
    [j], if the JSON job wrote, and nothing else; the opener is called on
    [h] only; with [saveHtml] [false] no HTML is written and with [saveJson]
    not truthy no JSON is.  When the run resolves, the array is [[h, j]]:
    the first element is [null] exactly when [saveHtml] is [false], and is
    otherwise the name of a file that now holds the HTML; the second is
    [null] exactly when [saveJson] is not truthy, and is otherwise the name
    of a file that now holds the JSON.  With [saveJson] and [saveHtml] both
    off nothing is saved.  With nothing refused and a working opener
    [create] does resolve.  With [overwrite] on, nothing refused and a
    working opener, the array holds [htmlFile] and [jsonFile] themselves; so
    with [saveJson] [false] and [saveHtml] [true] it is [[htmlFile, null]]
    and the HTML file is the one file written, and with [saveJson] [true]
    and [saveHtml] [false] it is [[null, jsonFile]] and the JSON file is the
    one file written. *)
Theorem create_resolves_with_pair (data : json) (opts : option raw_options)
    (w w1 : world) (html : list N) (ro : reportOptions) :
  prepare data opts w = (w1, Ok (html, ro)) ->
  let o := merged ro in
  let pretty := JSON_stringify data (Some 2) in
  (forall w3 r, create data opts w = (w3, r) ->
     exists h j,
       files w3 = written j pretty (written h html (files w1))
       /\ dirs w3 = made j (made h (dirs w1))
       /\ opened w3
          = match h with
            | Some f => if truthy (autoOpen o) then [f] else []
            | None => []
            end ++ opened w1
       /\ (denied w3 = denied w1 /\ now w3 = now w1 /\ ticks w3 = ticks w1
           /\ opener_ok w3 = opener_ok w1)
       /\ (saveHtml o = JBool false -> h = None)
       /\ (truthy (saveJson o) = false -> j = None)
       /\ (forall res, r = Ok res ->
             res = [h; j]
             /\ (h = None <-> saveHtml o = JBool false)
             /\ (j = None <-> truthy (saveJson o) = false)
             /\ (forall f, h = Some f -> files w3 !! f = Some html)
             /\ (forall g, j = Some g -> files w3 !! g = Some pretty)))
  /\ (saveHtml o = JBool false -> truthy (saveJson o) = false ->
      create data opts w = (w1, Ok [None; None]))
  /\ (denied w1 = ∅ ->
      (truthy (autoOpen o) = true -> opener_ok w1 = true) ->
      exists w3 res, create data opts w = (w3, Ok res))
  /\ (truthy (overwrite o) = true -> denied w1 = ∅ ->
      (truthy (autoOpen o) = true -> opener_ok w1 = true) ->
      (exists w3,
         let h := if strict_eq (saveHtml o) (JBool false) then None
                  else Some (htmlFile ro) in
         let j := if truthy (saveJson o) then jsonFile ro else None in
         create data opts w = (w3, Ok [h; j])
         /\ files w3 = written j pretty (written h html (files w1)))
      /\ (saveJson o = JBool false -> saveHtml o = JBool true ->
          exists w3,
            create data opts w = (w3, Ok [Some (htmlFile ro); None])
            /\ files w3 = <[htmlFile ro := html]> (files w1))
      /\ (saveJson o = JBool true -> saveHtml o = JBool false ->
          exists w3 jf,
            jsonFile ro = Some jf
            /\ create data opts w = (w3, Ok [None; Some jf])
            /\ files w3 = <[jf := pretty]> (files w1))).
Proof.
  intros Hp o pretty.
  assert (Hfiles : forall w3 h j, create data opts w = (w3, Ok [h; j]) ->
            files w3 = written j pretty (written h html (files w1))).
  { intros w3 h j Hc.
    destruct (create_world _ _ _ _ _ _ _ _ Hp Hc)
      as (h' & j' & Hf & _ & _ & _ & _ & _ & _ & _ & Hres).
    specialize (Hres _ eq_refl). by injection Hres as -> ->. }
  split; [|split; [|split]].
  - intros w3 r Hc.
    destruct (create_world _ _ _ _ _ _ _ _ Hp Hc)
      as (h & j & Hf & Hd & Ho & Hsame & Hsh & Hsj & _ & _ & Hres).
    exists h, j. split; [done|]. split; [done|]. split; [done|].
    split; [done|]. split; [done|]. split; [done|]. intros res ->. rewrite (Hres _ eq_refl) in Hc.
    destruct (create_Ok_inv _ _ _ _ _ _ _ _ Hp Hc)
      as (h' & j' & [= <- <-] & Hh & Hj & Hhf & Hjf).
    split; [by apply Hres|]. split; [done|]. split; [done|]. split.
    + intros f Hf'. by apply Hhf.
    + intros g Hg. by apply Hjf.
  - by apply (create_nothing_to_save data opts w w1 html ro).
  - by apply (create_Ok_total data opts w w1 html ro).
  - intros Hov Hden Hop.
    destruct (create_overwrite_Ok _ _ _ _ _ _ Hp Hov Hden Hop) as [w3 Hc].
    pose proof (Hfiles _ _ _ Hc) as Hf.
    split; [exists w3; by split|]. split.
    + intros Hsj Hsh. exists w3. unfold o in *. rewrite Hc, Hf.
      by rewrite Hsj, Hsh.
    + intros Hsj Hsh. unfold o in *.
      destruct (prepare_paths _ _ _ _ _ _ Hp) as (_ & Hjs & _).
      destruct Hjs as [jb Hjb]; [by rewrite Hsj|].
      exists w3, (jb ++ lit ".json"). split; [done|].
      rewrite Hc, Hf. by rewrite Hsj, Hsh, Hjb.
Qed.

(** C6: when [saveJson] is truthy and [create] resolves, the file named by
    the second element holds [JSON.stringify(data, null, 2)] for the [data]
    given to [create]; the HTML, on the other hand, was rendered from
    [JSON.stringify(data)] when [data] is an object. *)
Theorem create_json_is_pretty_original (data : json)
    (opts : option raw_options) (w w3 : world)
    (res : list (option (list N))) :
  truthy (saveJson (getMergedOptions (default empty_options opts))) = true ->
  create data opts w = (w3, Ok res) ->
  exists h g,
    res = [h; Some g]
    /\ files w3 !! g = Some (JSON_stringify data (Some 2))
    /\ exists w1 html ro styles scripts,
         prepare data opts w = (w1, Ok (html, ro))
         /\ html = lit "<!doctype html>" ++ [10%N]
                   ++ renderHtml (if typeof_object data
                                  then JsonStr (JSON_stringify data None)
                                  else data) ro styles scripts.
Proof.
  intros Hsj Hc.
  destruct (prepare data opts w) as [w1 [[html ro]|e]] eqn:Hp.
  2: { unfold create, bind in Hc. by rewrite Hp in Hc. }
  destruct (create_Ok_inv _ _ _ _ _ _ _ _ Hp Hc)
    as (h & j & -> & _ & Hj & _ & Hjf).
  assert (merged ro = getMergedOptions (default empty_options opts)) as Hm.
  { apply prepare_inv in Hp as ([w0 Hgo] & _).
    destruct (getOptions_total opts w) as (w0' & ro' & Hgo' & _ & Hm & _).
    rewrite Hgo in Hgo'. by injection Hgo' as _ <-. }
  destruct j as [g|]; [|rewrite Hm in Hj; destruct Hj as [Hj _];
                         rewrite Hj in Hsj; done].
  exists h, g. split; [done|]. split; [by apply Hjf|].
  exists w1, html, ro.
  revert Hp. unfold prepare, bind.
  destruct (getOptions opts w) as [w0 [ro0|e]]; [|done].
  match goal with |- context [match ?m w0 with _ => _ end] =>
    destruct (m w0) as [w' [[st sc]|e]] end; [|done].
  cbn [ret fst snd]. intros [= _ <- <-]. by exists st, sc.
Qed.

End Create.

Section CreateSync.
Context {E : Externals}.

(** C8 (amended): when [prepare] fails so does [createSync].  Otherwise
    [createSync] writes the resolved [htmlFile] itself, replacing whatever
    was there, whatever [overwrite] and [saveJson] say (it fails when the
    system refuses that path): after it that file holds the HTML, the
    JSON path is as [prepare] left it, and no file outside [assetsDir] other
    than [htmlFile] differs from before the call (inside [assetsDir],
    [prepare] may have copied the assets); the opener is called on
    [htmlFile] exactly when [autoOpen] is truthy. *)
Theorem createSync_writes_html_file (data : json) (opts : option raw_options)
    (w : world) :
  (forall w1 e, prepare data opts w = (w1, Err e) ->
     createSync data opts w = (w1, Err e))
  /\ (forall w1 html ro, prepare data opts w = (w1, Ok (html, ro)) ->
      (htmlFile ro ∈ denied w1 -> createSync data opts w = (w1, Err EACCES))
      /\ (htmlFile ro ∉ denied w1 ->
          exists w2,
            createSync data opts w = (w2, Ok tt)
            /\ files w2 = <[htmlFile ro := html]> (files w1)
            /\ (forall jf, jsonFile ro = Some jf ->
                  files w2 !! jf = files w1 !! jf)
            /\ (forall q, q <> htmlFile ro ->
                  (forall r, q <> assetsDir (merged ro) ++ r) ->
                  files w2 !! q = files w !! q)
            /\ opened w2
               = (if truthy (autoOpen (merged ro)) then [htmlFile ro] else [])
                 ++ opened w)).
Proof.
  split.
  - intros w1 e Hp. unfold createSync, bind. by rewrite Hp.
  - intros w1 html ro Hp. unfold createSync, bind. rewrite Hp. split.
    + intros Hden. by rewrite outputFile_denied.
    + intros Hden. rewrite outputFile_Ok by done.
      pose proof (prepare_inv _ _ _ _ _ _ Hp) as (_ & Hframe & _ & Hop & _).
      destruct (prepare_paths _ _ _ _ _ _ Hp) as ([hb Hh] & Hjs & Hjn).
      assert (Hjson : forall jf, jsonFile ro = Some jf ->
                <[htmlFile ro := html]> (files w1) !! jf = files w1 !! jf).
      { intros jf Hjf. apply lookup_insert_ne.
        destruct (truthy (saveJson (merged ro))) eqn:Hsj.
        - destruct (Hjs eq_refl) as [jb Hjb]. rewrite Hjf in Hjb.
          injection Hjb as ->. rewrite Hh. intros H. symmetry in H.
          by apply ext_json_html in H.
        - rewrite Hjn in Hjf; done. }
      assert (Hother : forall q, q <> htmlFile ro ->
                (forall r, q <> assetsDir (merged ro) ++ r) ->
                <[htmlFile ro := html]> (files w1) !! q = files w !! q).
      { intros q Hq Hout. rewrite lookup_insert_ne by done.
        by apply Hframe. }
      destruct (truthy (autoOpen (merged ro))).
      * unfold opener_detached, catch, opener. cbn [opener_ok set_files].
        destruct (opener_ok w1); cbn [ret]; eexists;
          (split; [done|]); cbn [files opened set_files];
          (split; [done|]); (split; [done|]); (split; [done|]);
          by rewrite Hop.
      * cbn [ret]. eexists. split; [done|]. cbn [files opened set_files].
        split; [done|]. split; [done|]. split; [done|]. by rewrite Hop.
Qed.

End CreateSync.

(** ** More on the timestamp suffix *)

Lemma is_char_false a c : c <> ch a -> is_char a c = false.
Proof. intros H. apply not_true_is_false. by intros ?%is_char_true. Qed.

Lemma commaSpace_plain s :
  Forall (fun c => c <> ch "," /\ is_space c = false) s ->
  replace_all commaSpaceRegex (fun _ => lit "_") s = s.
Proof.
  induction 1 as [|c s [Hc Hsp] _ IH]; [done|].
  rewrite commaSpace_keep, IH; [done|by apply is_char_false|done].
Qed.

Lemma commaSpace_length s :
  length (replace_all commaSpaceRegex (fun _ => lit "_") s) <= length s.
Proof.
  remember (length s) as n eqn:Hn. revert s Hn.
  induction n as [n IH] using lt_wf_ind. intros s ->.
  destruct s as [|c s]; [done|].
  destruct (is_char "," c || is_space c) eqn:Hc.
  - rewrite commaSpace_collapse by done. cbn [length].
    pose proof (length_drop s (span is_space s)) as Hd.
    assert (length (drop (span is_space s) s) < S (length s)) as Hlt by lia.
    specialize (IH _ Hlt (drop (span is_space s) s) eq_refl). lia.
  - apply orb_false_iff in Hc as [H1 H2].
    rewrite commaSpace_keep by done. cbn [length].
    specialize (IH (length s) ltac:(cbn [length]; lia) s eq_refl). lia.
Qed.

Section Suffix.
Context {E : Externals}.

(** X1: the sanitizing leaves a text as it is exactly when the text holds none
    of the code units it is after; so sanitizing twice is sanitizing once. *)
Theorem sanitize_fixed_points (s : list N) :
  (sanitize s = s <->
   Forall (fun c => c <> ch "," /\ is_space c = false /\ c <> ch "/"
                    /\ c <> ch "\" /\ c <> ch ":") s)
  /\ sanitize (sanitize s) = sanitize s.
Proof.
  assert (Hid : forall t,
    Forall (fun c => c <> ch "," /\ is_space c = false /\ c <> ch "/"
                     /\ c <> ch "\" /\ c <> ch ":") t ->
    sanitize t = t).
  { intros t Ht. rewrite sanitize_eq, commaSpace_plain.
    - induction Ht as [|c t (_ & _ & Hf & Hb & Hcol) _ IH]; [done|].
      cbn [fmap list_fmap List.filter]. unfold is_slash.
      rewrite (is_char_false "\" c), (is_char_false "/" c) by done.
      cbn [orb]. rewrite (is_char_false ":" c) by done.
      cbn [negb]. f_equal. exact IH.
    - eapply Forall_impl; [exact Ht|]. cbv beta. tauto. }
  split; [split|].
  - intros <-. apply sanitize_clean.
  - apply Hid.
  - apply Hid, sanitize_clean.
Qed.

(** X2: the sanitizing never makes a text longer. *)
Theorem sanitize_length (s : list N) : length (sanitize s) <= length s.
Proof.
  rewrite sanitize_eq.
  etransitivity; [apply List.filter_length_le|].
  rewrite length_fmap. apply commaSpace_length.
Qed.

Lemma sanitize_underscore s : sanitize (lit "_" ++ s) = ch "_" :: sanitize s.
Proof.
  rewrite !sanitize_eq. change (lit "_" ++ s) with (ch "_" :: s).
  by rewrite commaSpace_keep.
Qed.

Lemma getTimestampFormat_never_special timestamp :
  timestamp <> JBool false -> timestamp <> JStr (lit "false") ->
  let f := getTimestampFormat timestamp in
  f <> JStr (lit "") /\ f <> JStr (lit "true") /\ f <> JBool true
  /\ f <> JBool false /\ f <> JStr (lit "false").
Proof.
  intros H1 H2. unfold getTimestampFormat, strict_eq.
  repeat case_bool_decide; cbn [orb]; repeat split; try done;
    by vm_compute.
Qed.

(** X3: with a timestamp asked for, [getFilename] reads the clock once and
    appends an underscore and the sanitized date to the name cut at its
    last dot; the format handed to [dateFormat] is never one of the five
    values that stand for "on" and "off". *)
Theorem getFilename_with_timestamp (o : options) (w : world) :
  timestamp o <> JBool false -> timestamp o <> JStr (lit "false") ->
  let f := getTimestampFormat (timestamp o) in
  getFilename o w
  = (fst (new_Date w),
     Ok (path_resolve cwd (reportDir o)
           (strip_ext (default (lit "mochawesome") (reportFilename o))
            ++ ch "_" :: sanitize (dateFormat (now w) f))))
  /\ f <> JStr (lit "") /\ f <> JStr (lit "true") /\ f <> JBool true
  /\ f <> JBool false /\ f <> JStr (lit "false").
Proof.
  intros H1 H2 f. split; [|by apply getTimestampFormat_never_special].
  erewrite getFilename_unfold; [|by apply getFilename_ts_on].
  by rewrite sanitize_underscore.
Qed.

End Suffix.

(** ** More on the options *)

Section MoreOptions.
Context {E : Externals}.

Lemma getFilename_off o w :
  timestamp o = JBool false \/ timestamp o = JStr (lit "false") ->
  getFilename o w
  = (w, Ok (path_resolve cwd (reportDir o)
              (strip_ext (default (lit "mochawesome") (reportFilename o))))).
Proof.
  intros H. rewrite (getFilename_unfold o w w []) by by apply getFilename_ts_off.
  by rewrite app_nil_r.
Qed.

Lemma timestamp_on_off (v : jsval) :
  negb (strict_eq v (JBool false)) && negb (strict_eq v (JStr (lit "false")))
  = true
  <-> v <> JBool false /\ v <> JStr (lit "false").
Proof.
  unfold strict_eq. rewrite andb_true_iff, !negb_true_iff.
  by rewrite !bool_decide_eq_false.
Qed.

(** X4: [getOptions] never fails and changes nothing but the clock, which it
    reads once for every path it derives when a timestamp is asked for:
    twice with [saveJson] truthy, once otherwise, and not at all when the
    timestamp is off. *)
Theorem getOptions_reads_of_the_clock (opts : option raw_options) (w : world) :
  let o := getMergedOptions (default empty_options opts) in
  let reads :=
    if negb (strict_eq (timestamp o) (JBool false))
       && negb (strict_eq (timestamp o) (JStr (lit "false")))
    then (if truthy (saveJson o) then 2 else 1)
    else 0 in
  exists ro,
    getOptions opts w = (Nat.iter reads (fun w0 => fst (new_Date w0)) w, Ok ro)
    /\ merged ro = o
    /\ (is_Some (jsonFile ro) <-> truthy (saveJson o) = true).
Proof.
  intros o reads. unfold getOptions, bind. fold o. subst reads.
  destruct (negb _ && negb _) eqn:Hon.
  - apply timestamp_on_off in Hon as [H1 H2].
    destruct (truthy (saveJson o)) eqn:Hsj.
    + erewrite getFilename_unfold; [|by apply getFilename_ts_on]. cbn [ret].
      erewrite getFilename_unfold; [|by apply getFilename_ts_on].
      eexists. split; [done|]. cbn [merged jsonFile]. split; [done|].
      split; [done|]. by eexists.
    + cbn [ret]. erewrite getFilename_unfold; [|by apply getFilename_ts_on].
      eexists. split; [done|]. cbn [merged jsonFile]. split; [done|].
      split; [by intros [? ?]|done].
  - assert (timestamp o = JBool false \/ timestamp o = JStr (lit "false"))
      as Hoff.
    { destruct (decide (timestamp o = JBool false)); [by left|].
      destruct (decide (timestamp o = JStr (lit "false"))); [by right|].
      exfalso. apply not_true_iff_false in Hon. apply Hon.
      by apply timestamp_on_off. }
    destruct (truthy (saveJson o)) eqn:Hsj.
    + rewrite getFilename_off by done. cbn [ret].
      rewrite getFilename_off by done.
      eexists. split; [done|]. cbn [merged jsonFile]. split; [done|].
      split; [done|]. by eexists.
    + cbn [ret]. rewrite getFilename_off by done.
      eexists. split; [done|]. cbn [merged jsonFile]. split; [done|].
      split; [by intros [? ?]|done].
Qed.

(** X5: the JSON path and the HTML path have the same base whenever the
    timestamp is off, or the two readings of the clock are formatted
    alike. *)
Theorem getOptions_same_base (opts : option raw_options) (w : world) :
  let o := getMergedOptions (default empty_options opts) in
  truthy (saveJson o) = true ->
  timestamp o = JBool false \/ timestamp o = JStr (lit "false")
  \/ dateFormat (now w + hd 0 (ticks w))%Z (getTimestampFormat (timestamp o))
     = dateFormat (now w) (getTimestampFormat (timestamp o)) ->
  exists w' base,
    getOptions opts w
    = (w', Ok {| merged := o; jsonFile := Some (base ++ lit ".json");
                 htmlFile := base ++ lit ".html" |}).
Proof.
  intros o Hsj H. unfold getOptions, bind. fold o. rewrite Hsj.
  destruct (decide (timestamp o = JBool false)) as [Hf|Hf].
  { rewrite getFilename_off by by left. cbn [ret].
    rewrite getFilename_off by by left. by eexists _, _. }
  destruct (decide (timestamp o = JStr (lit "false"))) as [Hs|Hs].
  { rewrite getFilename_off by by right. cbn [ret].
    rewrite getFilename_off by by right. by eexists _, _. }
  destruct H as [?|[?|Hsame]]; [done..|].
  erewrite getFilename_unfold; [|by apply getFilename_ts_on]. cbn [ret].
  erewrite getFilename_unfold; [|by apply getFilename_ts_on].
  cbn [new_Date fst now]. rewrite Hsame. by eexists _, _.
Qed.

End MoreOptions.

(** ** More on saving *)

(** X6: with [overwrite] truthy the file is written under the name given, which
    is returned; what the file held before is replaced, every other file
    is as before; the save fails exactly when the system refuses the
    name. *)
Theorem saveFile_replaces (filename data : list N) (ov : jsval) (w : world) :
  truthy ov = true ->
  (filename ∈ denied w -> saveFile filename data ov w = (w, Err EACCES))
  /\ (filename ∉ denied w ->
      exists w',
        saveFile filename data ov w = (w', Ok filename)
        /\ files w' !! filename = Some data
        /\ (forall p, p <> filename -> files w' !! p = files w !! p)
        /\ same_outside_fs w w').
Proof.
  intros Hov. rewrite saveFile_overwrite by done. split; intros Hden.
  - by rewrite bool_decide_eq_true_2.
  - rewrite bool_decide_eq_false_2 by done. eexists. split; [done|].
    cbn [files set_files]. split; [apply lookup_insert_eq|].
    split; [|by repeat split].
    intros p Hp. by apply lookup_insert_ne.
Qed.

(** ** More on the assets and the preparation *)

Lemma outputFile_any p c w w' r :
  outputFile p c w = (w', r) ->
  (forall q, q <> p -> files w' !! q = files w !! q) /\ same_outside_fs w w'.
Proof.
  unfold outputFile. case_bool_decide; intros [= <- _].
  - split; [done|apply same_outside_fs_refl].
  - split; [|by repeat split]. intros q Hq. cbn [files set_files].
    by apply lookup_insert_ne.
Qed.

Lemma mkdirs_any d w w' r :
  mkdirs d w = (w', r) -> files w' = files w /\ same_outside_fs w w'.
Proof.
  unfold mkdirs. case_bool_decide; intros [= <- _].
  - split; [done|apply same_outside_fs_refl].
  - split; [done|by repeat split].
Qed.

Lemma for_each_mkdirs_any l w w' r :
  for_each mkdirs l w = (w', r) ->
  files w' = files w /\ same_outside_fs w w'.
Proof.
  revert w. induction l as [|d l IH]; intros w; cbn [for_each].
  - intros [= <- _]. split; [done|apply same_outside_fs_refl].
  - unfold bind. destruct (mkdirs d w) as [w1 [[]|e]] eqn:H1.
    + intros H2. apply mkdirs_any in H1 as [Hf Hs].
      apply IH in H2 as [Hf' Hs']. split; [congruence|].
      by apply (same_outside_fs_trans w w1).
    + intros [= <- _]. by apply mkdirs_any in H1.
Qed.

Lemma for_each_outputFile_any (l : list (list N * list N)) w w' r :
  for_each (fun '(q, c) => outputFile q c) l w = (w', r) ->
  (forall q, q ∉ l.*1 -> files w' !! q = files w !! q)
  /\ same_outside_fs w w'.
Proof.
  revert w. induction l as [|[q0 c0] l IH]; intros w; cbn [for_each].
  - intros [= <- _]. split; [done|apply same_outside_fs_refl].
  - unfold bind. destruct (outputFile q0 c0 w) as [w1 [[]|e]] eqn:H1.
    + intros H2. apply outputFile_any in H1 as [Hf Hs].
      apply IH in H2 as [Hf' Hs'].
      split; [|by apply (same_outside_fs_trans w w1)].
      intros q Hq. rewrite fmap_cons, not_elem_of_cons in Hq.
      destruct Hq as [Hne Hq]. rewrite Hf' by done. by apply Hf.
    + intros [= <- _]. apply outputFile_any in H1 as [Hf Hs].
      split; [|done]. intros q Hq. rewrite fmap_cons, not_elem_of_cons in Hq.
      apply Hf. tauto.
Qed.

Lemma copySync_any src dest filter w w' r :
  copySync src dest filter w = (w', r) ->
  (forall q, (forall x, q <> dest ++ x) -> files w' !! q = files w !! q)
  /\ same_outside_fs w w'.
Proof.
  unfold copySync. case_bool_decide as Hd.
  - destruct (filter src); cbn [negb];
      [|intros [= <- _]; split; [done|apply same_outside_fs_refl]].
    unfold bind.
    destruct (mkdirs dest w) as [w0 [[]|e]] eqn:H0.
    2: { intros [= <- _]. apply mkdirs_any in H0 as [Hf Hs].
         split; [by rewrite Hf|done]. }
    apply mkdirs_any in H0 as [Hf0 Hs0].
    destruct (for_each mkdirs _ w0) as [w1 [[]|e]] eqn:H1.
    2: { intros [= <- _]. apply for_each_mkdirs_any in H1 as [Hf Hs].
         split; [by rewrite Hf, Hf0|by apply (same_outside_fs_trans w w0)]. }
    apply for_each_mkdirs_any in H1 as [Hf1 Hs1].
    intros [Hout Hs]%for_each_outputFile_any.
    split.
    + intros q Hq. rewrite Hout, Hf1, Hf0; [done|].
      intros ([q' c] & -> & Hp)%list_elem_of_fmap.
      apply copy_plan_spec in Hp as (x & _ & _ & _ & ->).
      by apply (Hq (lit "/" ++ x)).
    + apply (same_outside_fs_trans w w0); [done|].
      by apply (same_outside_fs_trans w0 w1).
  - destruct (files w !! src) as [c|];
      [|intros [= <- _]; split; [done|apply same_outside_fs_refl]].
    destruct (filter src);
      [|intros [= <- _]; split; [done|apply same_outside_fs_refl]].
    intros [Hf Hs]%outputFile_any. split; [|done].
    intros q Hq. apply Hf. intros ->. apply (Hq []). by rewrite app_nil_r.
Qed.


Section MoreAssets.
Context {E : Externals}.

(** X7: whether it succeeds or fails on the way, [copyAssets] changes no file
    whose path does not begin with [assetsDir], opens nothing and leaves
    the clock alone. *)
Theorem copyAssets_stays_inside_assetsDir (o : options) (w w' : world)
    (r : result unit) :
  copyAssets o w = (w', r) ->
  (forall q, (forall x, q <> assetsDir o ++ x) -> files w' !! q = files w !! q)
  /\ same_outside_fs w w'.
Proof.
  unfold copyAssets, bind.
  destruct (shouldCopyAssets_pure (assetsDir o) w) as [b ->].
  destruct b; [apply copySync_any|].
  intros [= <- _]. split; [done|apply same_outside_fs_refl].
Qed.


Lemma prepare_html data opts w w1 html ro :
  prepare data opts w = (w1, Ok (html, ro)) ->
  exists body, html = lit "<!doctype html>" ++ [10%N] ++ body.
Proof.
  unfold prepare, bind.
  destruct (getOptions opts w) as [w0 [ro0|e]]; [|done].
  match goal with |- context [match ?m w0 with _ => _ end] =>
    destruct (m w0) as [w' [[st sc]|e]] end; [|done].
  cbn [ret]. intros [= _ <- _]. by eexists.
Qed.

(** X9: in [dev] mode [prepare] cannot fail and reads or writes no file: it
    resolves the options and renders, without styles and scripts. *)
Theorem prepare_in_dev_mode (data : json) (opts : option raw_options)
    (w : world) :
  truthy (dev (getMergedOptions (default empty_options opts))) = true ->
  exists w0 ro,
    getOptions opts w = (w0, Ok ro) /\ clock_only w w0
    /\ prepare data opts w
       = (w0, Ok (lit "<!doctype html>" ++ [10%N]
                  ++ renderHtml (if typeof_object data
                                 then JsonStr (JSON_stringify data None)
                                 else data) ro None None,
                  ro)).
Proof.
  intros Hdev.
  destruct (getOptions_total opts w) as (w0 & ro & Hgo & Hc & Hm & _).
  exists w0, ro. split; [done|]. split; [done|].
  unfold prepare, bind. rewrite Hgo, Hm, Hdev. done.
Qed.

(** X10: with [inlineAssets] on (and [dev] off) [prepare] writes nothing; it
    succeeds exactly when the inline style sheet and the script of the
    package can both be read, and then renders with their contents. *)
Theorem prepare_with_inline_assets (data : json) (opts : option raw_options)
    (w : world) :
  let o := getMergedOptions (default empty_options opts) in
  truthy (dev o) = false -> truthy (inlineAssets o) = true ->
  exists w0 ro,
    getOptions opts w = (w0, Ok ro) /\ clock_only w w0
    /\ match files w !! path_join distDir (lit "app.inline.css"),
             files w !! path_join distDir (lit "app.js") with
       | Some styles, Some scripts =>
           prepare data opts w
           = (w0, Ok (lit "<!doctype html>" ++ [10%N]
                      ++ renderHtml (if typeof_object data
                                     then JsonStr (JSON_stringify data None)
                                     else data) ro (Some styles) (Some scripts),
                      ro))
       | _, _ => exists e, prepare data opts w = (w0, Err e)
       end.
Proof.
  intros o Hdev Hinl.
  destruct (getOptions_total opts w) as (w0 & ro & Hgo & Hc & Hm & _).
  exists w0, ro. split; [done|]. split; [done|].
  unfold prepare, bind. rewrite Hgo, Hm. fold o. rewrite Hdev, Hinl.
  cbn [negb]. unfold getAssets, bind, loadFile, readFileSync.
  destruct Hc as (<- & _).
  destruct (files w0 !! path_join distDir (lit "app.inline.css")) as [st|].
  - destruct (files w0 !! path_join distDir (lit "app.js")) as [sc|].
    + done.
    + by eexists.
  - destruct (files w0 !! path_join distDir (lit "app.js")); by eexists.
Qed.

End MoreAssets.

(** ** More on creating the report *)

Lemma insert_keeps (m : gmap (list N) (list N)) q d p c :
  m !! q = None -> m !! p = Some c -> <[q := d]> m !! p = Some c.
Proof. intros Hq Hp. rewrite lookup_insert_ne; [done|]. congruence. Qed.

Section MoreCreate.
Context {E : Externals}.

(** X11: with [overwrite] off, [create] leaves every file that exists when the
    saving starts as it is, whether it resolves or rejects. *)
Theorem create_keeps_existing_files (data : json) (opts : option raw_options)
    (w w1 w3 : world) (html : list N) (ro : reportOptions)
    (r : result (list (option (list N)))) :
  prepare data opts w = (w1, Ok (html, ro)) ->
  truthy (overwrite (merged ro)) = false ->
  create data opts w = (w3, r) ->
  forall p c, files w1 !! p = Some c -> files w3 !! p = Some c.
Proof.
  intros Hp Hov. destruct (create_jobs _ _ _ _ _ _ Hp) as (hb & Hh & Hjs & ->).
  cbv zeta.
  assert (Hjson : forall w2 w3' r2,
    settle (if truthy (saveJson (merged ro))
            then Some (match jsonFile ro with
                       | Some f => saveFile f (JSON_stringify data (Some 2))
                                     (overwrite (merged ro))
                       | None => throw ETYPE
                       end)
            else None) w2 = (w3', r2) ->
    forall p c, files w2 !! p = Some c -> files w3' !! p = Some c).
  { intros w2 w3' r2. destruct (truthy (saveJson (merged ro))); cbn [settle].
    - destruct (Hjs eq_refl) as [jb ->]. unfold bind.
      destruct (json_job_cases jb (JSON_stringify data (Some 2))
                  (overwrite (merged ro)) w2) as (g & _ & Hfree & _ & ->).
      case_bool_decide; intros [= <- _]; [done|].
      intros p c. cbn [files set_files]. apply insert_keeps. by apply Hfree.
    - by intros [= <- _]. }
  destruct (negb (strict_eq (saveHtml (merged ro)) (JBool false)));
    cbn [settle].
  - unfold bind at 1.
    destruct (html_job_cases hb html (overwrite (merged ro))
                (autoOpen (merged ro)) w1) as (f & _ & Hfree & _ & ->).
    case_bool_decide.
    + destruct (settle _ w1) as [w3' r2] eqn:Hj. intros [= <- _].
      by apply (Hjson _ _ _ Hj).
    + cbv zeta. specialize (Hfree Hov).
      destruct (truthy (autoOpen (merged ro))).
      * destruct (opener_ok w1); cbn [ret];
          (destruct (settle _ _) as [w3' r2] eqn:Hj); intros [= <- _];
          intros p c Hpc; apply (Hjson _ _ _ Hj); cbn [files fst opener set_files];
          by apply insert_keeps.
      * cbn [ret]. destruct (settle _ _) as [w3' r2] eqn:Hj. intros [= <- _].
        intros p c Hpc. apply (Hjson _ _ _ Hj). cbn [files set_files].
        by apply insert_keeps.
  - unfold ret at 1. destruct (settle _ w1) as [w3' r2] eqn:Hj.
    intros [= <- _]. by apply (Hjson _ _ _ Hj).
Qed.


(** What a run of [create] that resolves has opened, and which names it
    has used. *)
Lemma create_Ok_shape data opts w w1 html ro w3 res :
  prepare data opts w = (w1, Ok (html, ro)) ->
  create data opts w = (w3, Ok res) ->
  exists h j,
    res = [h; j]
    /\ opened w3
       = match h with
         | Some f => if truthy (autoOpen (merged ro)) then [f] else []
         | None => []
         end ++ opened w
    /\ (forall f, h = Some f -> exists x, f = x ++ lit ".html")
    /\ (forall g, j = Some g -> exists y, g = y ++ lit ".json").
Proof.
  intros Hp. destruct (create_jobs _ _ _ _ _ _ Hp) as (hb & Hh & Hjs & ->).
  pose proof (prepare_inv _ _ _ _ _ _ Hp) as (_ & _ & _ & Hop & _).
  cbv zeta.
  assert (Hjson : forall w2 w3' j,
    settle (if truthy (saveJson (merged ro))
            then Some (match jsonFile ro with
                       | Some f => saveFile f (JSON_stringify data (Some 2))
                                     (overwrite (merged ro))
                       | None => throw ETYPE
                       end)
            else None) w2 = (w3', Ok j) ->
    opened w3' = opened w2
    /\ forall g, j = Some g -> exists y, g = y ++ lit ".json").
  { intros w2 w3' j. destruct (truthy (saveJson (merged ro))); cbn [settle].
    - destruct (Hjs eq_refl) as [jb ->]. unfold bind.
      destruct (json_job_cases jb (JSON_stringify data (Some 2))
                  (overwrite (merged ro)) w2) as (g & _ & _ & Hg & ->).
      case_bool_decide; [done|]. cbn [ret]. intros [= <- <-].
      split; [done|]. by intros g' [= <-].
    - intros [= <- <-]. split; [done|]. by intros g' [=]. }
  destruct (negb (strict_eq (saveHtml (merged ro)) (JBool false)));
    cbn [settle].
  - unfold bind at 1.
    destruct (html_job_cases hb html (overwrite (merged ro))
                (autoOpen (merged ro)) w1) as (f & _ & _ & Hf & ->).
    case_bool_decide; [by destruct (settle _ w1) as [? ?]|]. cbv zeta.
    destruct (truthy (autoOpen (merged ro))).
    + destruct (opener_ok w1); cbn [ret];
        [|by destruct (settle _ _) as [? ?]].
      destruct (settle _ _) as [w3' [j|e]] eqn:Hj; [|done].
      intros [= <- <-]. apply Hjson in Hj as [Ho Hg].
      exists (Some f), j. split; [done|]. split.
      { rewrite Ho. cbn [opened fst opener set_files]. by rewrite Hop. }
      split; [by intros f' [= <-]|done].
    + cbn [ret]. destruct (settle _ _) as [w3' [j|e]] eqn:Hj; [|done].
      intros [= <- <-]. apply Hjson in Hj as [Ho Hg].
      exists (Some f), j. split; [done|]. split.
      { rewrite Ho. cbn [opened set_files]. by rewrite Hop. }
      split; [by intros f' [= <-]|done].
  - unfold ret at 1. destruct (settle _ w1) as [w3' [j|e]] eqn:Hj; [|done].
    intros [= <- <-]. apply Hjson in Hj as [Ho Hg].
    exists None, j. split; [done|]. split; [by rewrite Ho, Hop|].
    split; [by intros f' [=]|done].
Qed.

(** X12: the two files of a report never have the same name: the first ends in
    [.html], the second in [.json]. *)
Theorem create_names_differ (data : json) (opts : option raw_options)
    (w w3 : world) (f g : list N) :
  create data opts w = (w3, Ok [Some f; Some g]) ->
  f <> g /\ (exists x, f = x ++ lit ".html") /\ (exists y, g = y ++ lit ".json").
Proof.
  intros Hc. destruct (prepare data opts w) as [w1 [[html ro]|e]] eqn:Hp.
  2: { unfold create, bind in Hc. by rewrite Hp in Hc. }
  destruct (create_Ok_shape _ _ _ _ _ _ _ _ Hp Hc)
    as (h' & j' & Hres & _ & Hf & Hg).
  injection Hres as <- <-.
  destruct (Hf f eq_refl) as [x ->]. destruct (Hg g eq_refl) as [y ->].
  split; [|split; by eexists]. intros H. symmetry in H.
  by apply ext_json_html in H.
Qed.

(** X13: the two jobs of [create] do not wait for each other: when the HTML
    path is refused, [create] rejects, and the JSON file is written all the
    same. *)
Theorem create_saves_json_despite_html_failure (data : json)
    (opts : option raw_options) (w w1 : world) (html jf : list N)
    (ro : reportOptions) :
  prepare data opts w = (w1, Ok (html, ro)) ->
  saveHtml (merged ro) <> JBool false ->
  truthy (saveJson (merged ro)) = true ->
  truthy (overwrite (merged ro)) = true ->
  htmlFile ro ∈ denied w1 ->
  jsonFile ro = Some jf -> jf ∉ denied w1 ->
  exists w3,
    create data opts w = (w3, Err EACCES)
    /\ files w3 !! jf = Some (JSON_stringify data (Some 2)).
Proof.
  intros Hp Hsh Hsj Hov Hden Hjf Hjden.
  rewrite (create_unfold _ _ _ _ _ _ Hp). cbv zeta.
  unfold strict_eq. rewrite bool_decide_eq_false_2 by done.
  rewrite Hsj, Hjf. cbn [negb settle]. unfold bind at 1 2.
  rewrite saveFile_overwrite by done.
  rewrite bool_decide_eq_true_2 by done.
  unfold bind. rewrite saveFile_overwrite by done.
  rewrite bool_decide_eq_false_2 by done. cbn [ret].
  eexists. split; [done|]. cbn [files set_files]. apply lookup_insert_eq.
Qed.


Lemma createSync_unfold data opts w w1 html ro :
  prepare data opts w = (w1, Ok (html, ro)) ->
  createSync data opts w
  = if bool_decide (htmlFile ro ∈ denied w1) then (w1, Err EACCES)
    else let w2 := set_files (<[htmlFile ro := html]> (files w1))
                     (list_to_set (parents (htmlFile ro)) ∪ dirs w1) w1 in
         if truthy (autoOpen (merged ro))
         then (fst (opener (htmlFile ro) w2), Ok tt)
         else (w2, Ok tt).
Proof.
  intros Hp. unfold createSync, bind. rewrite Hp. unfold outputFile.
  case_bool_decide; [done|]. cbv zeta.
  destruct (truthy (autoOpen (merged ro))); [|done].
  unfold opener_detached, catch, opener, ret. cbn [opener_ok set_files].
  by destruct (opener_ok w1).
Qed.

(** X15: with [overwrite] truthy, [saveHtml] not [false] and [saveJson] not
    truthy, [create] and [createSync] leave the same world; [createSync]
    returns exactly when the system accepts the HTML path, and [create]
    resolves, with that path, exactly when moreover the opener, if asked,
    works. *)
Theorem createSync_like_create (data : json) (opts : option raw_options)
    (w w1 : world) (html : list N) (ro : reportOptions) :
  prepare data opts w = (w1, Ok (html, ro)) ->
  truthy (overwrite (merged ro)) = true ->
  saveHtml (merged ro) <> JBool false ->
  truthy (saveJson (merged ro)) = false ->
  fst (create data opts w) = fst (createSync data opts w)
  /\ (snd (createSync data opts w) = Ok tt <-> htmlFile ro ∉ denied w1)
  /\ (snd (create data opts w) = Ok [Some (htmlFile ro); None] <->
      (htmlFile ro ∉ denied w1)
      /\ (truthy (autoOpen (merged ro)) = true -> opener_ok w1 = true)).
Proof.
  intros Hp Hov Hsh Hsj.
  assert (create data opts w
          = if bool_decide (htmlFile ro ∈ denied w1) then (w1, Err EACCES)
            else let w2 := set_files (<[htmlFile ro := html]> (files w1))
                             (list_to_set (parents (htmlFile ro)) ∪ dirs w1)
                             w1 in
                 if truthy (autoOpen (merged ro))
                 then (fst (opener (htmlFile ro) w2),
                       if opener_ok w1 then Ok [Some (htmlFile ro); None]
                       else Err EOPENER)
                 else (w2, Ok [Some (htmlFile ro); None])) as ->.
  { destruct (create_jobs _ _ _ _ _ _ Hp) as (hb & Hh & _ & ->).
    cbv zeta. unfold strict_eq. rewrite bool_decide_eq_false_2 by done.
    rewrite Hsj. cbn [negb settle]. unfold bind at 1.
    destruct (html_job_cases hb html (overwrite (merged ro))
                (autoOpen (merged ro)) w1) as (f & Hf & _ & _ & ->).
    rewrite (Hf Hov), <- Hh. unfold ret.
    case_bool_decide; [done|]. cbv zeta.
    destruct (truthy (autoOpen (merged ro))); [|done].
    by destruct (opener_ok w1). }
  rewrite (createSync_unfold _ _ _ _ _ _ Hp).
  case_bool_decide as Hden; cbn [fst snd].
  - split; [done|]. split; split; try done. by intros [? _].
  - cbv zeta. destruct (truthy (autoOpen (merged ro))); cbn [fst snd].
    + split; [done|]. split; [done|].
      destruct (opener_ok w1); split; try done.
      intros [_ H]. by specialize (H eq_refl).
    + split; [done|]. split; [done|]. split; [|done]. by intros _; split.
Qed.

(** X16: every report that [create] or [createSync] writes starts with the
    doctype and a line feed. *)
Theorem report_starts_with_doctype (data : json) (opts : option raw_options)
    (w : world) :
  (forall w3 f j, create data opts w = (w3, Ok [Some f; j]) ->
     exists body,
       files w3 !! f = Some (lit "<!doctype html>" ++ [10%N] ++ body))
  /\ (forall w2, createSync data opts w = (w2, Ok tt) ->
      exists w1 html ro body,
        prepare data opts w = (w1, Ok (html, ro))
        /\ files w2 !! htmlFile ro
           = Some (lit "<!doctype html>" ++ [10%N] ++ body)).
Proof.
  split.
  - intros w3 f j Hc.
    destruct (prepare data opts w) as [w1 [[html ro]|e]] eqn:Hp.
    2: { unfold create, bind in Hc. by rewrite Hp in Hc. }
    destruct (create_Ok_inv _ _ _ _ _ _ _ _ Hp Hc)
      as (h' & j' & Hres & _ & _ & Hhf & _).
    injection Hres as <- <-. destruct (Hhf f eq_refl) as [Hfile _].
    destruct (prepare_html _ _ _ _ _ _ Hp) as [body ->]. by exists body.
  - intros w2. unfold createSync, bind.
    destruct (prepare data opts w) as [w1 [[html ro]|e]] eqn:Hp; [|done].
    destruct (outputFile (htmlFile ro) html w1) as [w' [[]|e]] eqn:Ho; [|done].
    apply outputFile_inv in Ho as (_ & Hf & _).
    destruct (prepare_html _ _ _ _ _ _ Hp) as [body ->].
    intros Hopen.
    exists w1, (lit "<!doctype html>" ++ [10%N] ++ body), ro, body.
    split; [done|].
    assert (files w2 = files w') as ->.
    { revert Hopen. destruct (truthy (autoOpen (merged ro)));
        [|by intros [= <-]].
      unfold opener_detached, catch, opener, ret.
      destruct (opener_ok w'); by intros [= <-]. }
    rewrite Hf. apply lookup_insert_eq.
Qed.

End MoreCreate.

(** ** Runs in the sample environment *)

(** A run is determined by its outcome and the world it leaves. *)
Lemma run_eq {A} (m : M A) (w : world) (r : result A) :
  snd (m w) = r -> m w = (fst (m w), r).
Proof. intros <-. by destruct (m w). Qed.

Lemma shouldCopyAssets_run {E : Externals} assetsDir w b :
  snd (_shouldCopyAssets assetsDir w) = Ok b ->
  _shouldCopyAssets assetsDir w = (w, Ok b).
Proof.
  destruct (shouldCopyAssets_pure assetsDir w) as [b' ->]. cbn [snd].
  by intros ->.
Qed.

Example ex_create_default :
  exists w',
    create (E := Sample.env) Sample.no_tests None Sample.world0
    = (w', Ok [Some (lit "/home/ci/project/mochawesome-report/mochawesome.html");
               None])
    /\ take 15 <$> files w'
                     !! lit "/home/ci/project/mochawesome-report/mochawesome.html"
       = Some (lit "<!doctype html>").
Proof.
  exists (fst (create (E := Sample.env) Sample.no_tests None Sample.world0)).
  split; [apply run_eq|]; vm_compute; reflexivity.
Qed.

Example ex_shouldCopyAssets_fresh_after_copy :
  exists w',
    copyAssets (E := Sample.env) (Sample.merge_options ∅) Sample.world0
    = (w', Ok tt)
    /\ _shouldCopyAssets (E := Sample.env)
         (lit "/home/ci/project/mochawesome-report/assets") w'
       = (w', Ok false).
Proof.
  exists (fst (copyAssets (E := Sample.env) (Sample.merge_options ∅)
                 Sample.world0)).
  split; [apply run_eq|apply shouldCopyAssets_run]; vm_compute; reflexivity.
Qed.

Example ex_shouldCopyAssets_stale :
  _shouldCopyAssets (E := Sample.env)
    (lit "/home/ci/project/mochawesome-report/assets") Sample.world_stale
  = (Sample.world_stale, Ok true).
Proof. apply shouldCopyAssets_run. vm_compute. reflexivity. Qed.

(** *** The date formats of the sample *)

Example ex_dateFormat_iso :
  Sample.utc_dateFormat 1488369599999 (JStr (lit "isoDateTime"))
  = lit "2017-03-01T11:59:59+0000".
Proof. vm_compute. reflexivity. Qed.

Example ex_dateFormat_mask :
  Sample.utc_dateFormat 1488369599999 (JStr (lit "d/m, HH:MM  yyyy"))
  = lit "1/3, 11:59  2017".
Proof. vm_compute. reflexivity. Qed.

Example ex_dateFormat_names :
  Sample.utc_dateFormat 1488369599999 (JStr (lit "dddd, mmmm dS, yyyy, h:MM TT"))
  = lit "Wednesday, March 1st, 2017, 11:59 AM".
Proof. vm_compute. reflexivity. Qed.

Example ex_dateFormat_literal :
  Sample.utc_dateFormat 1488369599999 (JStr (lit "'day' d 'of' yyyy"))
  = lit "day 1 of 2017".
Proof. vm_compute. reflexivity. Qed.

(** *** The two paths of [getOptions] *)

(** When no timestamp is asked for, both paths have the same base. *)
Lemma getOptions_same_base_without_timestamp {E : Externals}
    (opts : option raw_options) (w : world) :
  let o := getMergedOptions (default empty_options opts) in
  timestamp o = JBool false \/ timestamp o = JStr (lit "false") ->
  truthy (saveJson o) = true ->
  exists base,
    getOptions opts w
    = (w, Ok {| merged := o; jsonFile := Some (base ++ lit ".json");
                htmlFile := base ++ lit ".html" |}).
Proof.
  intros o Hts Hsj. unfold getOptions, bind. fold o. rewrite Hsj.
  rewrite (getFilename_unfold o w w []) by by apply getFilename_ts_off.
  cbn [ret].
  rewrite (getFilename_unfold o w w []) by by apply getFilename_ts_off.
  by eexists.
Qed.

(** C1: [getOptions] reads the clock once for each of the two paths.  With
    [saveJson] and [timestamp] on and the clock passing from 11:59:59.999 to
    12:00:00.000 between the two readings, the JSON path and the HTML path
    get different bases: no [base] gives both [base.json] and [base.html]. *)
Theorem getOptions_reads_the_clock_twice :
  exists w' ro,
    getOptions (E := Sample.env) (Some Sample.opts_json_timestamp)
      Sample.world0 = (w', Ok ro)
    /\ truthy (saveJson (merged ro)) = true
    /\ jsonFile ro
       = Some (lit "/home/ci/project/mochawesome-report/mochawesome_2017-03-01T115959+0000"
               ++ lit ".json")
    /\ htmlFile ro
       = lit "/home/ci/project/mochawesome-report/mochawesome_2017-03-01T120000+0000"
         ++ lit ".html"
    /\ ~ exists base, jsonFile ro = Some (base ++ lit ".json")
                      /\ htmlFile ro = base ++ lit ".html".
Proof.
  pose (r := getOptions (E := Sample.env) (Some Sample.opts_json_timestamp)
               Sample.world0).
  pose (dummy := {| merged := Sample.merge_options ∅; jsonFile := None;
                    htmlFile := [] |}).
  exists (fst r), (ok_or dummy (snd r)).
  split; [apply run_eq; vm_compute; reflexivity|].
  split; [vm_compute; reflexivity|].
  match goal with |- ?A /\ ?B /\ _ =>
    assert (Hjf : A) by (vm_compute; reflexivity);
    assert (Hhf : B) by (vm_compute; reflexivity)
  end.
  split; [exact Hjf|]. split; [exact Hhf|].
  intros (base & Hj & Hh). rewrite Hjf in Hj. rewrite Hhf in Hh.
  apply (inj Some) in Hj.
  apply app_inj_2 in Hj as [Hj _]; [|done].
  apply app_inj_2 in Hh as [Hh _]; [|done].
  rewrite <- Hj in Hh. by vm_compute in Hh.
Qed.

(** *** Instances of the theorems *)

Lemma getFilename_without_timestamp_witness :
  (timestamp (Sample.merge_options ∅) = JBool false
   \/ timestamp (Sample.merge_options ∅) = JStr (lit "false"))
  /\ getFilename (E := Sample.env) (Sample.merge_options ∅) Sample.world0
     = (Sample.world0,
        Ok (lit "/home/ci/project/mochawesome-report/mochawesome")).
Proof.
  assert (timestamp (Sample.merge_options ∅) = JBool false
          \/ timestamp (Sample.merge_options ∅) = JStr (lit "false")) as Hts
    by (left; reflexivity).
  split; [exact Hts|].
  destruct (getFilename_without_timestamp (E := Sample.env)
              (Sample.merge_options ∅) Sample.world0 Hts)
    as [H _].
  rewrite H. vm_compute. reflexivity.
Defined.

Lemma timestamp_suffix_sanitized_witness :
  JStr (lit "d/m, HH:MM  yyyy") <> JBool false
  /\ JStr (lit "d/m, HH:MM  yyyy") <> JStr (lit "false")
  /\ exists w',
       getFilename_ts (E := Sample.env) (JStr (lit "d/m, HH:MM  yyyy"))
         Sample.world0
       = (w', Ok (lit "_1-3_1159_2017")).
Proof.
  assert (JStr (lit "d/m, HH:MM  yyyy") <> JBool false) as H1
    by discriminate.
  assert (JStr (lit "d/m, HH:MM  yyyy") <> JStr (lit "false")) as H2
    by (vm_compute; discriminate).
  split; [exact H1|]. split; [exact H2|].
  destruct (timestamp_suffix_sanitized (E := Sample.env)
              (JStr (lit "d/m, HH:MM  yyyy")) Sample.world0 H1 H2)
    as [[w' H] _].
  exists w'. rewrite H. vm_compute. reflexivity.
Defined.

(** C3, as stated, fails: a run of commas, and a space before a comma, are
    not collapsed to a single underscore.  The formats [yyyy,,mm] and
    [yyyy ,mm] give the dates [2017,,03] and [2017 ,03], and both suffixes
    are [_2017__03]. *)
Lemma comma_run_gives_two_underscores :
  exists w1 w2,
    getFilename_ts (E := Sample.env) (JStr (lit "yyyy,,mm")) Sample.world0
    = (w1, Ok (lit "_2017__03"))
    /\ getFilename_ts (E := Sample.env) (JStr (lit "yyyy ,mm")) Sample.world0
       = (w2, Ok (lit "_2017__03"))
    /\ Sample.utc_dateFormat (now Sample.world0) (JStr (lit "yyyy,,mm"))
       = lit "2017,,03"
    /\ Sample.utc_dateFormat (now Sample.world0) (JStr (lit "yyyy ,mm"))
       = lit "2017 ,03"
    /\ lit "_2017__03" <> lit "_2017_03".
Proof.
  exists (fst (getFilename_ts (E := Sample.env) (JStr (lit "yyyy,,mm"))
                 Sample.world0)).
  exists (fst (getFilename_ts (E := Sample.env) (JStr (lit "yyyy ,mm"))
                 Sample.world0)).
  split; [apply run_eq; vm_compute; reflexivity|].
  split; [apply run_eq; vm_compute; reflexivity|].
  split; [vm_compute; reflexivity|]. split; [vm_compute; reflexivity|].
  vm_compute. discriminate.
Qed.

Lemma getFilename_strips_last_dot_segment_witness :
  reportFilename (Sample.merge_options Sample.opts_report_v2)
  = Some (lit "report.v2")
  /\ exists w',
       getFilename (E := Sample.env)
         (Sample.merge_options Sample.opts_report_v2) Sample.world0
       = (w', Ok (lit "/home/ci/project/mochawesome-report/report")).
Proof.
  assert (reportFilename (Sample.merge_options Sample.opts_report_v2)
          = Some (lit "report.v2")) as Hname by (vm_compute; reflexivity).
  split; [exact Hname|].
  destruct (getFilename_strips_last_dot_segment (E := Sample.env)
              (Sample.merge_options Sample.opts_report_v2) Sample.world0
              (lit "report.v2") Hname)
    as (w' & ts & Hts & Hstem & _).
  exists w'.
  assert (ts = []) as -> by (vm_compute in Hts; congruence).
  rewrite (Hstem (lit "report") (lit "v2") eq_refl);
    [vm_compute; reflexivity|].
  apply not_char_forallb. reflexivity.
Defined.

Lemma create_resolves_with_pair_witness :
  (exists w3,
     create (E := Sample.env) (JsonObj []) (Some Sample.opts_html_only)
       Sample.world0
     = (w3, Ok [Some (lit "/home/ci/project/mochawesome-report/mochawesome.html");
                None])
     /\ files w3 !! lit "/home/ci/project/mochawesome-report/mochawesome.json"
        = None)
  /\ (exists w3,
        create (E := Sample.env) (JsonObj []) (Some Sample.opts_json_only)
          Sample.world0
        = (w3, Ok [None;
                   Some (lit "/home/ci/project/mochawesome-report/mochawesome.json")])
        /\ files w3 !! lit "/home/ci/project/mochawesome-report/mochawesome.html"
           = None).
Proof.
  pose (dummy := ([] : list N,
                  {| merged := Sample.merge_options ∅; jsonFile := None;
                     htmlFile := [] |})).
  split.
  - pose (p := prepare (E := Sample.env) (JsonObj [])
                 (Some Sample.opts_html_only) Sample.world0).
    assert (prepare (E := Sample.env) (JsonObj [])
              (Some Sample.opts_html_only) Sample.world0
            = (fst p, Ok (fst (ok_or dummy (snd p)), snd (ok_or dummy (snd p)))))
      as Hp by (apply run_eq; vm_compute; reflexivity).
    destruct (create_resolves_with_pair (E := Sample.env) _ _ _ _ _ _ Hp)
      as (_ & _ & _ & H).
    destruct H as (_ & (w3 & H & Hf) & _);
      [vm_compute; reflexivity|vm_compute; reflexivity
      |vm_compute; reflexivity|vm_compute; reflexivity|vm_compute; reflexivity|].
    exists w3. split; [rewrite H; vm_compute; reflexivity|].
    rewrite Hf. vm_compute. reflexivity.
  - pose (p := prepare (E := Sample.env) (JsonObj [])
                 (Some Sample.opts_json_only) Sample.world0).
    assert (prepare (E := Sample.env) (JsonObj [])
              (Some Sample.opts_json_only) Sample.world0
            = (fst p, Ok (fst (ok_or dummy (snd p)), snd (ok_or dummy (snd p)))))
      as Hp by (apply run_eq; vm_compute; reflexivity).
    destruct (create_resolves_with_pair (E := Sample.env) _ _ _ _ _ _ Hp)
      as (_ & _ & _ & H).
    destruct H as (_ & _ & (w3 & jf & Hjf & H & Hf));
      [vm_compute; reflexivity|vm_compute; reflexivity
      |vm_compute; reflexivity|vm_compute; reflexivity|vm_compute; reflexivity|].
    vm_compute in Hjf. apply (inj Some) in Hjf. subst jf.
    exists w3. split; [exact H|].
    rewrite Hf. vm_compute. reflexivity.
Defined.

Lemma create_json_is_pretty_original_witness :
  truthy (saveJson (getMergedOptions (Externals := Sample.env)
                      (default ∅ (Some Sample.opts_json_only)))) = true
  /\ (exists g,
        files (fst (create (E := Sample.env) Sample.no_tests
                      (Some Sample.opts_json_only) Sample.world0)) !! g
        = Some (Sample.stringify Sample.no_tests (Some 2)))
  /\ Sample.stringify Sample.no_tests (Some 2)
     <> Sample.stringify (JsonStr (Sample.stringify Sample.no_tests None))
          (Some 2)
  /\ Sample.stringify Sample.no_tests (Some 2)
     = lit "{" ++ [10%N] ++ lit "  " ++ [34%N] ++ lit "tests" ++ [34%N]
       ++ lit ": []" ++ [10%N] ++ lit "}".
Proof.
  assert (truthy (saveJson (getMergedOptions (Externals := Sample.env)
                              (default ∅ (Some Sample.opts_json_only)))) = true)
    as Hsj by (vm_compute; reflexivity).
  split; [exact Hsj|]. split; [|split; [vm_compute; discriminate|reflexivity]].
  pose (c := create (E := Sample.env) Sample.no_tests
               (Some Sample.opts_json_only) Sample.world0).
  assert (create (E := Sample.env) Sample.no_tests
            (Some Sample.opts_json_only) Sample.world0
          = (fst c, Ok (ok_or [] (snd c)))) as Hc
    by (apply run_eq; vm_compute; reflexivity).
  destruct (create_json_is_pretty_original (E := Sample.env) _ _ _ _ _ Hsj Hc)
    as (h & g & _ & Hg & _).
  exists g. exact Hg.
Defined.

Lemma saveFile_without_overwrite_witness :
  truthy (JBool false) = false
  /\ (ch "." ∉ lit "html") /\ (ch "{" ∉ lit "html")
  /\ taken Sample.world_report (lit "/out/report.html") = true
  /\ exists w1 w2,
       saveFile (lit "/out/report.html") (lit "first") (JBool false)
         Sample.world_report
       = (w1, Ok (lit "/out/report_001.html"))
       /\ saveFile (lit "/out/report.html") (lit "second") (JBool false) w1
          = (w2, Ok (lit "/out/report_002.html")).
Proof.
  assert (ch "." ∉ lit "html") as Hdot
    by (apply not_char_forallb; reflexivity).
  assert (ch "{" ∉ lit "html") as Hbrace
    by (apply not_char_forallb; reflexivity).
  split; [reflexivity|]. split; [exact Hdot|]. split; [exact Hbrace|].
  split; [vm_compute; reflexivity|].
  destruct (saveFile_without_overwrite (lit "/out/report") (lit "html")
              (lit "first") (JBool false) Sample.world_report
              eq_refl Hdot Hbrace)
    as (_ & _ & _ & _ & _ & _ & _ & H).
  destruct (H eq_refl) with (data2 := lit "second") as (w1 & w2 & H1 & H2);
    [vm_compute; reflexivity|vm_compute; reflexivity|vm_compute; reflexivity|].
  exists w1, w2. split; [exact H1|exact H2].
Defined.

(** C7, as stated, fails: with [/out/report.html] in place, the second of
    two saves without overwriting goes to [report_002.html]; it is the
    first that goes to [report_001.html]. *)
Lemma second_unique_save_is_002 :
  exists w1 w2,
    taken Sample.world_report (lit "/out/report.html") = true
    /\ saveFile (lit "/out/report.html") (lit "same") (JBool false)
         Sample.world_report
       = (w1, Ok (lit "/out/report_001.html"))
    /\ saveFile (lit "/out/report.html") (lit "same") (JBool false) w1
       = (w2, Ok (lit "/out/report_002.html"))
    /\ lit "/out/report_002.html" <> lit "/out/report_001.html".
Proof.
  exists (fst (saveFile (lit "/out/report.html") (lit "same") (JBool false)
                 Sample.world_report)).
  exists (fst (saveFile (lit "/out/report.html") (lit "same") (JBool false)
                 (fst (saveFile (lit "/out/report.html") (lit "same")
                         (JBool false) Sample.world_report)))).
  split; [vm_compute; reflexivity|].
  split; [apply run_eq; vm_compute; reflexivity|].
  split; [apply run_eq; vm_compute; reflexivity|].
  vm_compute. discriminate.
Qed.

Lemma createSync_writes_html_file_witness :
  exists w2,
    createSync (E := Sample.env) Sample.no_tests None Sample.world0
    = (w2, Ok tt)
    /\ is_Some (files w2
                  !! lit "/home/ci/project/mochawesome-report/mochawesome.html")
    /\ files w2 !! lit "/home/ci/project/mochawesome-report/mochawesome.json"
       = None
    /\ files w2 !! lit "/pkg/dist/app.js"
       = files Sample.world0 !! lit "/pkg/dist/app.js"
    /\ opened w2 = [].
Proof.
  pose (dummy := ([] : list N,
                  {| merged := Sample.merge_options ∅; jsonFile := None;
                     htmlFile := [] |})).
  pose (p := prepare (E := Sample.env) Sample.no_tests None Sample.world0).
  assert (prepare (E := Sample.env) Sample.no_tests None Sample.world0
          = (fst p, Ok (fst (ok_or dummy (snd p)), snd (ok_or dummy (snd p)))))
    as Hp by (apply run_eq; vm_compute; reflexivity).
  destruct (createSync_writes_html_file (E := Sample.env) Sample.no_tests
              None Sample.world0) as [_ H].
  destruct (H _ _ _ Hp) as [_ H'].
  destruct H' as (w2 & Hc & Hf & _ & Hq & Ho).
  { assert (denied (fst p) = ∅) as -> by (vm_compute; reflexivity).
    apply not_elem_of_empty. }
  exists w2. split; [exact Hc|]. split; [|split; [|split]].
  - rewrite Hf. vm_compute. eexists. reflexivity.
  - rewrite Hf. vm_compute. reflexivity.
  - apply Hq.
    + vm_compute. discriminate.
    + intros r Hr. vm_compute in Hr. discriminate.
  - rewrite Ho. vm_compute. reflexivity.
Defined.

(** C8, as stated, fails: with the default options and no assets directory
    yet, [createSync] writes the report and the assets as well. *)
Lemma createSync_writes_assets_too :
  exists w2,
    createSync (E := Sample.env) Sample.no_tests None Sample.world0
    = (w2, Ok tt)
    /\ htmlFile (ok_or {| merged := Sample.merge_options ∅; jsonFile := None;
                          htmlFile := [] |}
                   (snd (getOptions (E := Sample.env) None Sample.world0)))
       = lit "/home/ci/project/mochawesome-report/mochawesome.html"
    /\ files Sample.world0
         !! lit "/home/ci/project/mochawesome-report/assets/app.js" = None
    /\ files w2 !! lit "/home/ci/project/mochawesome-report/assets/app.js"
       = Some (lit "render()")
    /\ files Sample.world0
         !! lit "/home/ci/project/mochawesome-report/assets/app.css" = None
    /\ is_Some (files w2
                  !! lit "/home/ci/project/mochawesome-report/assets/app.css")
    /\ is_Some (files w2
                  !! lit "/home/ci/project/mochawesome-report/mochawesome.html").
Proof.
  exists (fst (createSync (E := Sample.env) Sample.no_tests None
                 Sample.world0)).
  split; [apply run_eq; vm_compute; reflexivity|].
  split; [vm_compute; reflexivity|]. split; [vm_compute; reflexivity|].
  split; [vm_compute; reflexivity|]. split; [vm_compute; reflexivity|].
  split; vm_compute; by eexists.
Qed.

Lemma copyAssets_copies_all_but_inline_witness :
  distDir (Externals := Sample.env) ∈ dirs Sample.world0
  /\ exists w',
       copyAssets (E := Sample.env) (Sample.merge_options ∅) Sample.world0
       = (w', Ok tt)
       /\ files w' !! lit "/home/ci/project/mochawesome-report/assets/fonts/icons.woff"
          = Some (lit "woff")
       /\ files w' !! lit "/home/ci/project/mochawesome-report/assets/app.inline.css"
          = None.
Proof.
  assert (distDir (Externals := Sample.env) ∈ dirs Sample.world0) as Hd
    by (refine (bool_decide_unpack _ _); vm_compute; exact I).
  split; [exact Hd|].
  destruct (copyAssets_copies_all_but_inline (E := Sample.env)
              (Sample.merge_options ∅) Sample.world0 Hd)
    as (should & Hshould & _ & Hcopy).
  assert (should = true) as -> by (vm_compute in Hshould; congruence).
  destruct (Hcopy eq_refl) as [Hok Hfiles].
  destruct Hok as [w' Hw']; [vm_compute; reflexivity|].
  exists w'. split; [exact Hw'|].
  destruct (Hfiles w' Hw') as [Hin _]. split.
  - destruct (Hin (lit "fonts/icons.woff") (lit "woff")) as [H _];
      [discriminate|vm_compute; reflexivity|].
    apply H. intros Hc%not_inline_true; [done|]. vm_compute. reflexivity.
  - destruct (Hin (lit "app.inline.css") (lit "body{}")) as [_ H];
      [discriminate|vm_compute; reflexivity|].
    etransitivity; [apply H|vm_compute; reflexivity].
    exists (lit "/pkg/dist/app."), (lit ".css"). vm_compute. reflexivity.
Defined.

(** *** Instances of the further theorems *)

Lemma getFilename_with_timestamp_witness :
  timestamp (Sample.merge_options Sample.opts_custom_format) <> JBool false
  /\ timestamp (Sample.merge_options Sample.opts_custom_format)
     <> JStr (lit "false")
  /\ getFilename (E := Sample.env)
       (Sample.merge_options Sample.opts_custom_format) Sample.world0
     = (fst (new_Date Sample.world0),
        Ok (lit "/home/ci/project/mochawesome-report/mochawesome_1-3_1159_2017")).
Proof.
  assert (timestamp (Sample.merge_options Sample.opts_custom_format)
          <> JBool false) as H1 by (vm_compute; discriminate).
  assert (timestamp (Sample.merge_options Sample.opts_custom_format)
          <> JStr (lit "false")) as H2 by (vm_compute; discriminate).
  split; [exact H1|]. split; [exact H2|].
  destruct (getFilename_with_timestamp (E := Sample.env)
              (Sample.merge_options Sample.opts_custom_format) Sample.world0
              H1 H2) as [H _].
  rewrite H. apply f_equal. vm_compute. reflexivity.
Defined.

Lemma getOptions_same_base_witness :
  truthy (saveJson (Sample.merge_options Sample.opts_json_timestamp)) = true
  /\ exists w' base,
       getOptions (E := Sample.env) (Some Sample.opts_json_timestamp)
         Sample.world_report
       = (w', Ok {| merged := Sample.merge_options Sample.opts_json_timestamp;
                    jsonFile := Some (base ++ lit ".json");
                    htmlFile := base ++ lit ".html" |}).
Proof.
  split; [vm_compute; reflexivity|].
  apply (getOptions_same_base (E := Sample.env)
           (Some Sample.opts_json_timestamp) Sample.world_report).
  - vm_compute. reflexivity.
  - right. right. vm_compute. reflexivity.
Defined.

Lemma saveFile_replaces_witness :
  truthy (JBool true) = true
  /\ files Sample.world_report !! lit "/out/report.html" = Some (lit "old")
  /\ exists w',
       saveFile (lit "/out/report.html") (lit "new") (JBool true)
         Sample.world_report
       = (w', Ok (lit "/out/report.html"))
       /\ files w' !! lit "/out/report.html" = Some (lit "new").
Proof.
  split; [reflexivity|]. split; [vm_compute; reflexivity|].
  destruct (saveFile_replaces (lit "/out/report.html") (lit "new")
              (JBool true) Sample.world_report eq_refl) as [_ H].
  destruct H as (w' & H1 & H2 & _).
  { assert (denied Sample.world_report = ∅) as -> by reflexivity.
    apply not_elem_of_empty. }
  exists w'. split; [exact H1|exact H2].
Defined.

Lemma copyAssets_stays_inside_assetsDir_witness :
  exists w',
    copyAssets (E := Sample.env) (Sample.merge_options ∅) Sample.world0
    = (w', Ok tt)
    /\ files w' !! lit "/pkg/dist/app.js"
       = files Sample.world0 !! lit "/pkg/dist/app.js"
    /\ opened w' = opened Sample.world0.
Proof.
  pose (c := copyAssets (E := Sample.env) (Sample.merge_options ∅)
               Sample.world0).
  assert (copyAssets (E := Sample.env) (Sample.merge_options ∅) Sample.world0
          = (fst c, Ok tt)) as Hc by (apply run_eq; vm_compute; reflexivity).
  exists (fst c). split; [exact Hc|].
  destruct (copyAssets_stays_inside_assetsDir (E := Sample.env) _ _ _ _ Hc)
    as [Hfiles (_ & _ & _ & Hopened & _)].
  split; [|exact Hopened].
  apply Hfiles. intros x Hx. vm_compute in Hx. discriminate.
Defined.


Lemma prepare_in_dev_mode_witness :
  truthy (dev (Sample.merge_options Cases.opts_dev)) = true
  /\ exists w0 html ro,
       prepare (E := Sample.env) Sample.no_tests (Some Cases.opts_dev)
         Sample.world0
       = (w0, Ok (html, ro))
       /\ files w0 = files Sample.world0 /\ dirs w0 = dirs Sample.world0.
Proof.
  assert (truthy (dev (Sample.merge_options Cases.opts_dev)) = true) as Hdev
    by (vm_compute; reflexivity).
  split; [exact Hdev|].
  destruct (prepare_in_dev_mode (E := Sample.env) Sample.no_tests
              (Some Cases.opts_dev) Sample.world0 Hdev)
    as (w0 & ro & _ & (Hf & Hdirs & _) & Hp).
  exists w0. eexists. exists ro. split; [exact Hp|]. split; [exact Hf|exact Hdirs].
Defined.

Lemma prepare_with_inline_assets_witness :
  truthy (dev (Sample.merge_options Cases.opts_inline)) = false
  /\ truthy (inlineAssets (Sample.merge_options Cases.opts_inline)) = true
  /\ exists w0 html ro,
       prepare (E := Sample.env) Sample.no_tests (Some Cases.opts_inline)
         Sample.world0
       = (w0, Ok (html, ro))
       /\ files w0 = files Sample.world0 /\ dirs w0 = dirs Sample.world0.
Proof.
  assert (truthy (dev (Sample.merge_options Cases.opts_inline)) = false)
    as Hdev by (vm_compute; reflexivity).
  assert (truthy (inlineAssets (Sample.merge_options Cases.opts_inline)) = true)
    as Hin by (vm_compute; reflexivity).
  split; [exact Hdev|]. split; [exact Hin|].
  destruct (prepare_with_inline_assets (E := Sample.env) Sample.no_tests
              (Some Cases.opts_inline) Sample.world0 Hdev Hin)
    as (w0 & ro & _ & (Hf & Hdirs & _) & Hp).
  assert (files Sample.world0
            !! path_join (Externals := Sample.env)
                 (distDir (Externals := Sample.env)) (lit "app.inline.css")
          = Some (lit "body{}")) as H1 by (vm_compute; reflexivity).
  assert (files Sample.world0
            !! path_join (Externals := Sample.env)
                 (distDir (Externals := Sample.env)) (lit "app.js")
          = Some (lit "render()")) as H2 by (vm_compute; reflexivity).
  rewrite H1, H2 in Hp.
  exists w0. eexists. exists ro. split; [exact Hp|]. split; [exact Hf|exact Hdirs].
Defined.

Lemma create_keeps_existing_files_witness :
  files Cases.world_earlier !! Cases.report_html = Some (lit "old")
  /\ files (fst (create (E := Sample.env) Sample.no_tests
                   (Some Cases.opts_keep) Cases.world_earlier))
       !! Cases.report_html
     = Some (lit "old").
Proof.
  split; [vm_compute; reflexivity|].
  pose (dummy := ([] : list N,
                  {| merged := Sample.merge_options ∅; jsonFile := None;
                     htmlFile := [] |})).
  pose (p := prepare (E := Sample.env) Sample.no_tests (Some Cases.opts_keep)
               Cases.world_earlier).
  assert (prepare (E := Sample.env) Sample.no_tests (Some Cases.opts_keep)
            Cases.world_earlier
          = (fst p, Ok (fst (ok_or dummy (snd p)), snd (ok_or dummy (snd p)))))
    as Hp by (apply run_eq; vm_compute; reflexivity).
  apply (create_keeps_existing_files (E := Sample.env) Sample.no_tests
           (Some Cases.opts_keep) Cases.world_earlier (fst p) _ _ _
           (snd (create (E := Sample.env) Sample.no_tests
                   (Some Cases.opts_keep) Cases.world_earlier)) Hp).
  - vm_compute. reflexivity.
  - apply surjective_pairing.
  - vm_compute. reflexivity.
Defined.

Lemma create_names_differ_witness :
  (exists w3,
     create (E := Sample.env) Sample.no_tests (Some Cases.opts_json)
       Sample.world0
     = (w3, Ok [Some Cases.report_html; Some Cases.report_json]))
  /\ Cases.report_html <> Cases.report_json.
Proof.
  pose (c := create (E := Sample.env) Sample.no_tests (Some Cases.opts_json)
               Sample.world0).
  assert (create (E := Sample.env) Sample.no_tests (Some Cases.opts_json)
            Sample.world0
          = (fst c, Ok [Some Cases.report_html; Some Cases.report_json]))
    as Hc by (apply run_eq; vm_compute; reflexivity).
  split; [exists (fst c); exact Hc|].
  exact (proj1 (create_names_differ (E := Sample.env) _ _ _ _ _ _ Hc)).
Defined.

Lemma create_saves_json_despite_html_failure_witness :
  exists w3,
    create (E := Sample.env) Sample.no_tests (Some Cases.opts_json)
      Cases.world_locked
    = (w3, Err EACCES)
    /\ files w3 !! Cases.report_json
       = Some (Sample.stringify Sample.no_tests (Some 2))
    /\ files w3 !! Cases.report_html = None.
Proof.
  pose (dummy := ([] : list N,
                  {| merged := Sample.merge_options ∅; jsonFile := None;
                     htmlFile := [] |})).
  pose (p := prepare (E := Sample.env) Sample.no_tests (Some Cases.opts_json)
               Cases.world_locked).
  assert (prepare (E := Sample.env) Sample.no_tests (Some Cases.opts_json)
            Cases.world_locked
          = (fst p, Ok (fst (ok_or dummy (snd p)), snd (ok_or dummy (snd p)))))
    as Hp by (apply run_eq; vm_compute; reflexivity).
  destruct (create_saves_json_despite_html_failure (E := Sample.env)
              Sample.no_tests (Some Cases.opts_json) Cases.world_locked
              (fst p) _ Cases.report_json _ Hp)
    as (w3 & Hc & Hj).
  - vm_compute. discriminate.
  - vm_compute. reflexivity.
  - vm_compute. reflexivity.
  - refine (bool_decide_unpack _ _). vm_compute. exact I.
  - vm_compute. reflexivity.
  - refine (bool_decide_unpack _ _). vm_compute. exact I.
  - exists w3. split; [exact Hc|]. split; [exact Hj|].
    assert (w3 = fst (create (E := Sample.env) Sample.no_tests
                        (Some Cases.opts_json) Cases.world_locked)) as ->
      by (rewrite Hc; reflexivity).
    vm_compute. reflexivity.
Defined.


Lemma createSync_like_create_witness :
  fst (create (E := Sample.env) Sample.no_tests None Sample.world0)
  = fst (createSync (E := Sample.env) Sample.no_tests None Sample.world0)
  /\ snd (createSync (E := Sample.env) Sample.no_tests None Sample.world0)
     = Ok tt.
Proof.
  pose (dummy := ([] : list N,
                  {| merged := Sample.merge_options ∅; jsonFile := None;
                     htmlFile := [] |})).
  pose (p := prepare (E := Sample.env) Sample.no_tests None Sample.world0).
  assert (prepare (E := Sample.env) Sample.no_tests None Sample.world0
          = (fst p, Ok (fst (ok_or dummy (snd p)), snd (ok_or dummy (snd p)))))
    as Hp by (apply run_eq; vm_compute; reflexivity).
  destruct (createSync_like_create (E := Sample.env) Sample.no_tests None
              Sample.world0 (fst p) _ _ Hp)
    as (Hw & Hs & _).
  - vm_compute. reflexivity.
  - vm_compute. discriminate.
  - vm_compute. reflexivity.
  - split; [exact Hw|]. apply Hs.
    assert (denied (fst p) = ∅) as -> by (vm_compute; reflexivity).
    apply not_elem_of_empty.
Defined.

Lemma report_starts_with_doctype_witness :
  exists w3 body,
    create (E := Sample.env) Sample.no_tests None Sample.world0
    = (w3, Ok [Some Cases.report_html; None])
    /\ files w3 !! Cases.report_html
       = Some (lit "<!doctype html>" ++ [10%N] ++ body).
Proof.
  pose (c := create (E := Sample.env) Sample.no_tests None Sample.world0).
  assert (create (E := Sample.env) Sample.no_tests None Sample.world0
          = (fst c, Ok [Some Cases.report_html; None]))
    as Hc by (apply run_eq; vm_compute; reflexivity).
  destruct (report_starts_with_doctype (E := Sample.env) Sample.no_tests None
              Sample.world0) as [H _].
  destruct (H _ _ _ Hc) as [body Hbody].
  exists (fst c), body. split; [exact Hc|exact Hbody].
Defined.
